(* ===== verification/_CoqProject ===== *)
-Q . S2P
Prelude.v
Json.v
Utf8.v
JsonDump.v
JsonLoad.v
Codec.v
Config.v
Process.v
Client.v
Bridge.v
Response.v
Cors.v
Session.v
Async.v
Http.v
