(* ===== verification/Prelude.v ===== *)
(** * A verification development of the MCP stdio bridge ([src/mcp-client.py])

    The program is a FastAPI application that forwards HTTP requests to a
    child process speaking line-delimited JSON-RPC (the Model Context
    Protocol) over its standard input and output.  Its parts, and how they
    interact:

    - the configuration ([MCPConfig], lines 39-53): the JSON file loaded once
      at import time; [MCPClient.connect] reads the first entry of
      [mcpServers] to obtain the child's command line;
    - the child process and its pipes ([asyncio.create_subprocess_exec],
      [StreamWriter.write/drain], [StreamReader.readline], [terminate],
      [wait]), used only by [MCPClient];
    - the codec: [json.dumps(request) + '\n'] then [.encode()] on the way
      out, [.decode().strip()] then [json.loads] on the way back
      (lines 120-126);
    - the session ([MCPClient], lines 55-139): two attributes, [process] and
      [connected], and the methods [connect] (spawn, then the [initialize]
      handshake), [send_request] (write one line, read one line) and
      [disconnect];
    - the HTTP handlers (lines 144-233): [startup_event], [shutdown_event],
      [root], [list_tools], [call_tool], [send_mcp_request], [health_check];
      the three that talk to the server call [send_request] with a fixed
      request id (2, 3, 4) and turn the reply into an [MCPResponse];
    - the HTTP application ([app = FastAPI(...)], line 14, the CORS
      middleware of lines 17-23 and the route decorators): Starlette's
      router sends a request to the handler of its path and method, FastAPI
      parses and validates the body of the two [POST] routes into a
      [ToolCall] or an [MCPRequest], and the handler's result goes back as a
      [JSONResponse]; errors of routing, parsing and validation are
      answered by the framework without reaching the handlers.

    Files, in dependency order, and what of the code each one models:
    - [Prelude] (this file): the effect model.  Python code that raises,
      blocks on a pipe or changes the application's state is a function
      [stm E S A = S -> outcome E A * S] whose outcome is [Done], [Raised]
      (an exception propagating out of the call) or [Blocked] (the
      coroutine awaits for ever); it is a monad for stdpp's [≫=]; [catch]
      is [try/except], [focus] runs a component on its part of the state.
      The rewrite databases [stm_run] (tactic [run]) and [len] (tactic
      [len_lia]) carry the common steps; [zcase]/[zlia] decide integer
      comparisons; [concrete] evaluates a hypothesis at a concrete input.
    - [Json]: JSON values as Python's [json] module builds them (a [dict]
      as an association list with distinct keys), Python's exceptions, and
      the expressions the code applies to decoded values: [d.get(k, x)],
      [d[k]], [k in v], truthiness ([py_get], [py_getitem], [py_contains],
      [py_truthy]).
    - [Utf8]: [str.encode()] and [bytes.decode()] (strict UTF-8, and the
      [surrogatepass] decoder [json.loads] uses on bytes) following
      CPython's encoder and decoder, with [Z.shiftr]/[Z.land]/[Z.lor], and
      the [UnicodeEncodeError] or [UnicodeDecodeError] each raises, with
      CPython's reason and range.
    - [JsonDump]: [json.dumps] with its defaults ([ensure_ascii=True],
      separators [", "] and [": "]) following CPython's C encoder, and the
      compact [ensure_ascii=False] variant of [JSONResponse.render].
    - [JsonLoad]: [json.loads] following CPython's C scanner, with fuel;
      each error is CPython's [JSONDecodeError], with its message and
      position, and [JSONDecodeError.__init__]'s line and column, or the
      [ValueError] of an integer literal over CPython's 4300-digit limit.
    - [Codec]: [str.strip] and the two halves of [send_request]: the bytes
      of a request line and the decoding of a response line.
    - [Config]: [MCPConfig.load_config] and the resolution of the command
      line in [connect] (lines 64-79), each Python exception included.
    - [Process]: the operating system as a table of processes
      ([gmap nat proc]) and the asyncio operations on a child: spawn,
      write, drain, readline with its 64 KiB limit, terminate, wait.  A
      child program is a function from the lines it has read to what it
      writes ([server]).
    - [Client]: [MCPClient]: its attributes ([client]), the [world] it runs
      in (configuration, client, operating system), [send_request],
      [connect], [disconnect], the invariant [client_wf], and concrete
      worlds (an echo server, a server that logs a notification at start,
      servers that exit, hang or answer garbage).
    - [Bridge]: the pydantic models as records, the route handlers, the
      application as a sequence of handled events ([handle], [reachable]).
    - [Response]: what a route sends back: [str(e)] of every exception the
      model raises (Starlette's [HTTPException.__str__] with
      [http.HTTPStatus]'s phrases, CPython's [repr] of JSON values, the
      [__str__] of the codec, decoder, OS and lookup errors) and the JSON
      body of an [MCPResponse].
    - [Cors]: Starlette's [CORSMiddleware] configured as at lines 17-23,
      around any stateful application: preflight answers and the headers
      added to the application's answers; HTTP requests and responses.
    - [Http]: the application as the server runs it ([serve]):
      [ServerErrorMiddleware] around [CORSMiddleware] around the router;
      the route table (FastAPI's documentation routes, then the five
      decorated routes), 404, 405 and the 307 slash redirect; the body of
      the [POST] routes ([Content-Type] check, [json.loads] on bytes with
      [detect_encoding]), pydantic's lax validation of [ToolCall] and
      [MCPRequest] with its error list, and [JSONResponse]'s bytes.  What
      the program leaves to libraries it does not configure (the UTF-16
      and UTF-32 codecs, the order of a [set], the redirect's absolute URL, the documentation pages) is a
      record [platform] every theorem quantifies over.
    - [Session]: an abstract specification of [send_request] (the child's
      output as a queue of JSON messages, [asend]) and its refinement by the
      byte-level model.
    - [Async]: handlers running [send_request] concurrently on the event
      loop: coroutines cut at [readline]'s wait for data, the waiter of a
      [StreamReader] as asyncio keeps it (set by [_wait_for_data], woken
      and forgotten by [feed_data], cleared by the woken coroutine), the
      child as a separate actor; a step relation [astep] and an executable
      scheduler [run_schedule].

    Theorems, by group (each claim is listed, in order, in PROJECT.json):
    - round trips: [json.loads (json.dumps v) = v] for well-formed [v]
      (JsonLoad), UTF-8 decode after encode (Utf8), the request line read
      back as the request (Codec); where well-formedness is needed (a
      surrogate pair comes back as one code point);
    - termination: the fuel [2 * length + 1] of [json.loads] is enough;
    - bounds: [readline] returns a line of at most 65536 bytes before its
      newline and raises [ValueError] for a longer one;
    - functional behaviour: [send_request] returns the child's answer;
      [connect]'s handshake; the routes' success and error replies and
      their JSON bodies, and the text of a reply that is not JSON, always
      on line 1 (Response);
    - invariant: every world reached by the application satisfies
      [client_wf] (Bridge);
    - errors and liveness: only [shutdown_event] can raise, and only
      [ProcessLookupError]; a child that exits never leaves a call waiting;
      a child that never writes a newline leaves it waiting for ever;
    - refinement: [send_request] implements the abstract queue [asend], for
      one call and for any sequence; under one answer per request this
      gives strict FIFO answers (Session);
    - concurrency (Async), for any child and any requests: two concurrent
      calls can swap their responses; or the second can fail with
      [RuntimeError] and leave its answer for the next call; or, when an
      answer reaches the reader in pieces, the second can wait for ever,
      whatever happens next (an invariant by rule induction);
    - departures from the specification, proved of the code: responses are
      not matched to requests by id (a stale line is returned), any
      handshake reply connects, a failed handshake or a reconnection leaves
      a child running, [disconnect] keeps the handle (a second one raises),
      transport failures leave [connected] true, calls are not serialised,
      a reply that is not JSON is an error text rather than a broken
      session, a remote error reaches the caller as the text
      ["500: " + repr(error)] in a successful HTTP answer, and an answer
      with [error: null] is a failure whose result is dropped;
    - safety of the HTTP surface (Cors): every origin passes the CORS
      preflight with credentials allowed, and reads the answers;
    - the request path end to end (Http): a [POST /tools/call] whose body
      parses and validates runs [call_tool] with its fields and nothing
      else, and answers the handler's body with the CORS headers, or 500
      when the child's result holds a lone surrogate (the tool has run);
      and whatever the request, the world changes only through the
      handler of a fully matched route whose body validated: 404, 405,
      307, preflights, unparsable or invalid bodies never reach the
      child.

    Bounds and fuel: the JSON scanner is three mutually recursive functions
    on fuel; each call consumes one unit and at least one character every
    two calls, so [2 * length s + 1] units are enough ([loads_fuel_enough]).
    The reader's limit is asyncio's default [2 ^ 16] bytes, kept as the
    [Z] [stream_limit].  Integers are [Z]; CPython 3.11 limits the decimal
    conversions of an [int] to 4300 digits ([int_max_str_digits]): the
    scanner raises the [ValueError] of [PyLong_FromString] beyond it, and
    [json_wf], the hypothesis of the round trips, keeps integers within
    it.  [int_repr] ([int.__repr__]) has no limit: every integer the
    program writes comes from [json.loads], which refuses longer ones, or
    is one of its constants.

    Versions: the model follows CPython 3.11, asyncio's streams of that
    version, Starlette 0.46 ([HTTPException.__str__] exists since 0.24),
    FastAPI 0.115 and pydantic 2 (lax validation: a number is not a
    [str]), the versions installed with the program.

    Not modelled: the [FastAPI(...)] object's title and description, and
    the documentation pages built from them (a [platform] field); logging (the [logger]
    calls change nothing the program reads); [uvicorn.run]; JSON floats,
    [NaN] and [Infinity] (the scanner reports [FloatNotModelled] where
    Python would build a [float], and [serve] passes it on); the recursion
    limit of the C scanner (a body nested about a thousand deep raises
    [RecursionError], a 400, where the model parses it); the errno of a
    failed spawn other than a missing command ([PermissionError] and the
    like: [spawn] raises [FileNotFoundError]); the HTTP server (uvicorn's parsing of the request into
    method, path, headers and body, and its writing of the answer); which non-ASCII
    code points the Unicode database calls printable (a parameter of
    [repr]); the child's standard error (never read); [connect] and
    [disconnect] interleaved with other handlers (Async interleaves only
    calls of [send_request]: uvicorn runs the startup handler before it
    accepts requests and the shutdown handler after the requests in
    flight have finished).  Outside Async the scheduling is fixed:
    a child answers the lines written to it when the client [drain]s, and
    its whole answer is in the reader's buffer when [readline] runs;
    [sequential_schedule] shows this is one of Async's interleavings.
    Asyncio reads a pipe in pieces of at most 64 KiB and stops reading
    while the reader holds more than twice its limit, so the whole answer
    is in the buffer only for answers of up to about 128 KiB; for a longer
    line without a newline in the buffer, [readuntil] raises [Separator is
    not found], [readline] clears the buffer and the rest of the line
    reaches the next call, which the model does not show.  [terminate]
    ends the child with [-15] ([SIGTERM] not handled by it); a child that
    catches or ignores the signal is not modelled.  [load_config] decodes
    the file as UTF-8: [open(path, 'r')] uses the locale's encoding, UTF-8
    on the systems the program targets. *)

From stdpp Require Export base list sets.
From Stdlib Require Export ZArith Lia.

Declare Scope py_scope.
Delimit Scope py_scope with py.

(** ** Outcomes and pure results *)

(** What a Python call does: return a value, raise an exception, or block
    forever on an [await]. *)
Inductive outcome (E A : Type) : Type :=
| Done (a : A)
| Raised (e : E)
| Blocked.
Arguments Done {E A} a.
Arguments Raised {E A} e.
Arguments Blocked {E A}.

(** Pure code that may raise. *)
Inductive res (E A : Type) : Type :=
| Ok (a : A)
| Err (e : E).
Arguments Ok {E A} a.
Arguments Err {E A} e.

Definition res_bind {E A B} (r : res E A) (f : A -> res E B) : res E B :=
  match r with Ok a => f a | Err e => Err e end.

Notation "'let?' x ':=' r 'in' k" := (res_bind r (fun x => k))
  (at level 10, x name, r at level 100, k at level 200) : py_scope.

(** [[f(x) for x in l]] when [f] may raise: the first exception. *)
Fixpoint res_map {E A B} (f : A -> res E B) (l : list A) : res E (list B) :=
  match l with
  | [] => Ok []
  | x :: l' => res_bind (f x) (fun y => res_bind (res_map f l') (fun ys => Ok (y :: ys)))
  end.

(** ** The state monad of a coroutine *)

Definition stm (E S A : Type) : Type := S -> outcome E A * S.

Global Instance stm_ret E S : MRet (stm E S) := fun A a s => (Done a, s).
Global Instance stm_bind E S : MBind (stm E S) := fun A B f m s =>
  match m s with
  | (Done a, s') => f a s'
  | (Raised e, s') => (Raised e, s')
  | (Blocked, s') => (Blocked, s')
  end.

Section Stm.
Context {E S : Type}.

Definition raise {A} (e : E) : stm E S A := fun s => (Raised e, s).
Definition block {A} : stm E S A := fun s => (Blocked, s).
Definition get : stm E S S := fun s => (Done s, s).
Definition gets {A} (f : S -> A) : stm E S A := fun s => (Done (f s), s).
Definition put (s : S) : stm E S unit := fun _ => (Done tt, s).
Definition modify (f : S -> S) : stm E S unit := fun s => (Done tt, f s).

(** [try: m except e: h e]: the handler runs in the state the exception
    left behind. *)
Definition catch {A} (m : stm E S A) (h : E -> stm E S A) : stm E S A :=
  fun s => match m s with
           | (Raised e, s') => h e s'
           | r => r
           end.

(** Pure code run inside a coroutine. *)
Definition lift_res {A} (r : res E A) : stm E S A :=
  match r with Ok a => mret a | Err e => raise e end.

(** [if c: raise e] *)
Definition guard (c : bool) (e : E) : stm E S unit :=
  if c then raise e else mret tt.
End Stm.

(** A component whose state is a part [P] of a larger state [S] runs in the
    larger state through a lens. *)
Definition focus {E S P A} (view : S -> P) (update : P -> S -> S)
  (m : stm E P A) : stm E S A :=
  fun s => let (o, p') := m (view s) in (o, update p' s).

(** The position of the first element satisfying [p]. *)
Fixpoint find_index {A} (p : A -> bool) (l : list A) : option nat :=
  match l with
  | [] => None
  | x :: l' => if p x then Some 0 else S <$> find_index p l'
  end.

(** ** Running programs *)


Create Rewrite HintDb stm_run.

Section StmLemmas.
Context {E S : Type}.

Lemma bind_run {A B} (m : stm E S A) (f : A -> stm E S B) s :
  (m ≫= f) s = match m s with
               | (Done a, s') => f a s'
               | (Raised e, s') => (Raised e, s')
               | (Blocked, s') => (Blocked, s')
               end.
Proof. reflexivity. Qed.

Lemma bind_done {A B} (m : stm E S A) (f : A -> stm E S B) s a s' :
  m s = (Done a, s') -> (m ≫= f) s = f a s'.
Proof. intros H. rewrite bind_run, H. reflexivity. Qed.

Lemma bind_raised {A B} (m : stm E S A) (f : A -> stm E S B) s e s' :
  m s = (Raised e, s') -> (m ≫= f) s = (Raised e, s').
Proof. intros H. rewrite bind_run, H. reflexivity. Qed.

Lemma bind_blocked {A B} (m : stm E S A) (f : A -> stm E S B) s s' :
  m s = (Blocked, s') -> (m ≫= f) s = (Blocked, s').
Proof. intros H. rewrite bind_run, H. reflexivity. Qed.

Lemma ret_run {A} (a : A) s : (mret a : stm E S A) s = (Done a, s).
Proof. reflexivity. Qed.

Lemma bind_ret_l {A B} (a : A) (f : A -> stm E S B) s :
  (mret a ≫= f) s = f a s.
Proof. reflexivity. Qed.

Lemma bind_assoc {A B C} (m : stm E S A) (f : A -> stm E S B)
      (g : B -> stm E S C) s :
  ((m ≫= f) ≫= g) s = (m ≫= (fun a => f a ≫= g)) s.
Proof.
  rewrite !bind_run. destruct (m s) as [[a|e|] s']; [|reflexivity..].
  reflexivity.
Qed.

(** [try: m except e: raise e] is [m]: the handlers of the source that
    only log and re-raise. *)
Lemma catch_reraise {A} (m : stm E S A) s : catch m raise s = m s.
Proof. unfold catch. destruct (m s) as [[]]; reflexivity. Qed.

Lemma catch_done {A} (m : stm E S A) h s a s' :
  m s = (Done a, s') -> catch m h s = (Done a, s').
Proof. unfold catch. intros ->. reflexivity. Qed.

Lemma catch_raised {A} (m : stm E S A) h s e s' :
  m s = (Raised e, s') -> catch m h s = h e s'.
Proof. unfold catch. intros ->. reflexivity. Qed.

Lemma catch_blocked {A} (m : stm E S A) h s s' :
  m s = (Blocked, s') -> catch m h s = (Blocked, s').
Proof. unfold catch. intros ->. reflexivity. Qed.

Lemma lift_res_ok {A} (a : A) s : (lift_res (Ok a) : stm E S A) s = (Done a, s).
Proof. reflexivity. Qed.

Lemma lift_res_err {A} (e : E) s : (lift_res (Err e) : stm E S A) s = (Raised e, s).
Proof. reflexivity. Qed.

Lemma res_bind_ok {A B} (a : A) (f : A -> res E B) : res_bind (Ok a) f = f a.
Proof. reflexivity. Qed.

Lemma res_bind_err {A B} (e : E) (f : A -> res E B) : res_bind (Err e) f = Err e.
Proof. reflexivity. Qed.

Lemma bind_gets {A B} (f : S -> A) (k : A -> stm E S B) s : (gets f ≫= k) s = k (f s) s.
Proof. reflexivity. Qed.

Lemma bind_lift_ok {A B} (a : A) (k : A -> stm E S B) s : (lift_res (Ok a) ≫= k) s = k a s.
Proof. reflexivity. Qed.

Lemma bind_lift_err {A B} (e : E) (k : A -> stm E S B) s : (lift_res (Err e) ≫= k) s = (Raised e, s).
Proof. reflexivity. Qed.
End StmLemmas.

Lemma res_bind_ok_inv {E A B} (r : res E A) (f : A -> res E B) b :
  res_bind r f = Ok b -> exists a, r = Ok a /\ f a = Ok b.
Proof. destruct r; simpl; [eauto|discriminate]. Qed.

#[export] Hint Rewrite @ret_run @bind_ret_l @lift_res_ok @lift_res_err @res_bind_ok @res_bind_err
  @bind_gets @bind_lift_ok @bind_lift_err @catch_reraise : stm_run.

(** Run the steps of a coroutine that do not depend on the state: reads
    of the state, pure code, and the handlers that only re-raise. *)
Ltac run := autorewrite with stm_run.

(** Take apart the hypotheses [let? x := r in k = Ok b] into the
    results of [r] and [k]. *)
Ltac ok_inv :=
  repeat match goal with
  | H : res_bind ?r _ = Ok _ |- _ =>
      let a := fresh "s" in let Ha := fresh "Hd" in
      apply res_bind_ok_inv in H as (a & Ha & H)
  | H : Ok _ = Ok _ |- _ => injection H as <-
  | H : Err _ = Ok _ |- _ => discriminate H
  end.

(** Discharge a hypothesis of a theorem at a concrete input by computing. *)
Ltac concrete := first [reflexivity | vm_compute; reflexivity | vm_compute; discriminate | set_solver].

(** ** Shared list lemmas *)

Section Lists.
Context {A : Type}.

Lemma find_index_app_r (p : A -> bool) (l k : list A) :
  Forall (fun x => p x = false) l ->
  find_index p (l ++ k) = (fun i => length l + i) <$> find_index p k.
Proof.
  induction 1 as [|x l Hx _ IH]; simpl.
  - by destruct (find_index p k).
  - rewrite Hx, IH. by destruct (find_index p k).
Qed.

Lemma Forall_forallb (p : A -> bool) (l : list A) :
  forallb p l = true -> Forall (fun x => p x = true) l.
Proof. induction l; simpl; [done|]. intros [? ?]%andb_true_iff. by constructor; auto. Qed.

Lemma Forall_flat_map {B} (P : B -> Prop) (f : A -> list B) (l : list A) :
  Forall (fun x => Forall P (f x)) l -> Forall P (flat_map f l).
Proof. induction 1; simpl; [done|]. by apply Forall_app. Qed.

Lemma find_index_None (p : A -> bool) (l : list A) :
  Forall (fun x => p x = false) l -> find_index p l = None.
Proof. induction 1 as [|x l Hx _ IH]; simpl; [done|]. by rewrite Hx, IH. Qed.

Lemma filter_none (p : A -> bool) (l : list A) :
  Forall (fun x => p x = false) l -> filter (fun x => p x) l = [].
Proof. induction 1 as [|x l Hx _ IH]; [done|]. rewrite filter_cons_False; [done|]. rewrite Hx. auto. Qed.

Lemma forallb_cons_inv (p : A -> bool) c s : forallb p (c :: s) = true -> p c = true /\ forallb p s = true.
Proof. by intros [? ?]%andb_true_iff. Qed.

Lemma forallb_suffix (p : A -> bool) r s : r `suffix_of` s -> forallb p s = true -> forallb p r = true.
Proof. intros [x ->]. rewrite forallb_app. by intros [_ ?]%andb_true_iff. Qed.

Lemma forallb_rev (p : A -> bool) s : forallb p (rev s) = forallb p s.
Proof. induction s; simpl; [done|]. rewrite forallb_app, IHs. simpl. by rewrite andb_true_r, andb_comm. Qed.

Lemma find_None (p : A -> bool) (l : list A) :
  Forall (fun x => p x = false) l -> find p l = None.
Proof. induction 1 as [|x l Hx _ IH]; simpl; [done|]. by rewrite Hx, IH. Qed.
End Lists.

(** A list without a newline. *)
Lemma no_nl_forall (l : list Z) : 10%Z ∉ l -> Forall (fun b => (b =? 10)%Z = false) l.
Proof.
  intros Hl. apply Forall_forall. intros b Hb. apply Z.eqb_neq.
  by intros ->.
Qed.


(** ** Lengths *)

Create Rewrite HintDb len.

Lemma length_cons_S {A} (a : A) (l : list A) : length (a :: l) = S (length l).
Proof. reflexivity. Qed.

#[export] Hint Rewrite @length_app @length_cons_S @length_nil : len.

(** Arithmetic on lengths of concatenations. *)
Ltac len_lia := autorewrite with len in *; lia.

(** ** Bit operations *)

(** [a | l] is [a + l] when [l] lies below the low zero bits of [a]. *)
Lemma lor_add_low (a l k : Z) :
  (0 <= k)%Z -> (a mod 2 ^ k = 0)%Z -> (0 <= l < 2 ^ k)%Z -> Z.lor a l = (a + l)%Z.
Proof.
  intros Hk Ha Hl.
  assert (Z.land a l = 0%Z) as Hand.
  { apply Z.bits_inj'. intros n Hn. rewrite Z.land_spec, Z.bits_0.
    destruct (Z.lt_ge_cases n k) as [Hlt|Hge].
    - rewrite <- (Z.mod_pow2_bits_low a k n Hlt), Ha, Z.bits_0. done.
    - rewrite <- (Z.mod_small l (2 ^ k)) by lia.
      rewrite Z.mod_pow2_bits_high by lia. by rewrite andb_false_r. }
  rewrite <- Z.lxor_lor by done. by rewrite Z.add_nocarry_lxor.
Qed.

(** Masks with [2 ^ k - 1] as remainders. *)
Lemma land_15 x : Z.land x 0xF = (x mod 16)%Z.
Proof. change 0xF%Z with (Z.ones 4). by rewrite Z.land_ones. Qed.

Lemma land_63 x : Z.land x 0x3F = (x mod 64)%Z.
Proof. change 0x3F%Z with (Z.ones 6). by rewrite Z.land_ones. Qed.

Lemma land_1023 x : Z.land x 0x3FF = (x mod 1024)%Z.
Proof. change 0x3FF%Z with (Z.ones 10). by rewrite Z.land_ones. Qed.

Lemma shiftr_div (c n : Z) : (0 <= n)%Z -> Z.shiftr c n = (c / 2 ^ n)%Z.
Proof. apply Z.shiftr_div_pow2. Qed.

Lemma shiftl_mul (c n : Z) : (0 <= n)%Z -> Z.shiftl c n = (c * 2 ^ n)%Z.
Proof. apply Z.shiftl_mul_pow2. Qed.

(** ** Deciding integer comparisons *)

(** [lia] after turning [/] and [mod] into their defining equations. *)
Ltac zlia := Z.to_euclidean_division_equations; lia.

(** Turn the boolean [Z] comparisons of the context into propositions. *)
Ltac zhyps :=
  repeat match goal with
  | H : _ && _ = true |- _ => apply andb_true_iff in H as [? ?]
  | H : _ && _ = false |- _ => apply andb_false_iff in H as [?|?]
  | H : negb _ = true |- _ => apply negb_true_iff in H
  | H : negb _ = false |- _ => apply negb_false_iff in H
  | H : (_ <? _)%Z = true |- _ => apply Z.ltb_lt in H
  | H : (_ <? _)%Z = false |- _ => apply Z.ltb_ge in H
  | H : (_ <=? _)%Z = true |- _ => apply Z.leb_le in H
  | H : (_ <=? _)%Z = false |- _ => apply Z.leb_gt in H
  | H : (_ =? _)%Z = true |- _ => apply Z.eqb_eq in H
  | H : (_ =? _)%Z = false |- _ => apply Z.eqb_neq in H
  end.

(** Case on every [Z] comparison of the goal, discarding the branches that
    contradict the context. *)
Ltac zcase :=
  repeat match goal with
  | |- context [(?a <? ?b)%Z] =>
      destruct (Z.ltb_spec a b); try (exfalso; zlia)
  | |- context [(?a <=? ?b)%Z] =>
      destruct (Z.leb_spec a b); try (exfalso; zlia)
  | |- context [(?a =? ?b)%Z] =>
      destruct (Z.eqb_spec a b); try (exfalso; zlia)
  end.
