(* ===== verification/Json.v ===== *)
(** * Python's JSON values, exceptions and the [dict] operations of the code

    [json] is the value [json.loads] builds and [json.dumps] consumes:
    [None], [bool], [int] (unbounded, as [Z]), [str] (a list of code points),
    [list] and [dict].  A [dict] is an association list in insertion order;
    Python's [d[k] = v] updates the value of an existing key in place
    ([dict_set]), so a [dict] built by [dict_of_pairs] has distinct keys.

    [exn] lists the exceptions the modelled code can raise or propagate.
    The operations below are the Python expressions the handlers apply to a
    response: [k in v], [v[k]], [v.get(k, d)] and [bool(v)], each with the
    exception Python raises when [v] is not a [dict]. *)

From S2P Require Import Prelude.
From Stdlib Require String Ascii.
Export String.StringSyntax.
Delimit Scope string_scope with string.

#[local] Set Warnings "-register-all".

(** ** Values *)

(** A Python [str]: its code points. *)
Definition pystr := list Z.

(** A string literal of the source, as code points. *)
Definition str (s : String.string) : pystr :=
  map (fun c => Z.of_nat (Ascii.nat_of_ascii c)) (String.list_ascii_of_string s).
Arguments str s%_string : simpl never.

Inductive json : Type :=
| JNull
| JBool (b : bool)
| JInt (z : Z)
| JStr (s : pystr)
| JArr (l : list json)
| JObj (kvs : list (pystr * json)).

(** JSON text written with a single quote for each double quote, for
    examples. *)
Definition jtext (s : String.string) : pystr :=
  map (fun c => if (c =? 39)%Z then 34%Z else c) (str s).
Arguments jtext s%_string.

(** An entry [k: v] of a dict literal of the source. *)
Definition kv (k : String.string) (v : json) : pystr * json := (str k, v).
Arguments kv k%_string v.

(** A [str] literal of the source. *)
Definition jstr (s : String.string) : json := JStr (str s).
Arguments jstr s%_string.

(** The induction principle for the nested lists of [json]. *)
Section JsonInd.
Variable P : json -> Prop.
Hypothesis HNull : P JNull.
Hypothesis HBool : forall b, P (JBool b).
Hypothesis HInt : forall z, P (JInt z).
Hypothesis HStr : forall s, P (JStr s).
Hypothesis HArr : forall l, Forall P l -> P (JArr l).
Hypothesis HObj : forall kvs, Forall (fun kv => P kv.2) kvs -> P (JObj kvs).

Fixpoint json_ind' (v : json) : P v :=
  match v with
  | JNull => HNull
  | JBool b => HBool b
  | JInt z => HInt z
  | JStr s => HStr s
  | JArr l =>
      HArr l ((fix go (l : list json) : Forall P l :=
                 match l with
                 | [] => List.Forall_nil _
                 | x :: l' => List.Forall_cons _ x l' (json_ind' x) (go l')
                 end) l)
  | JObj kvs =>
      HObj kvs ((fix go (kvs : list (pystr * json)) :
                   Forall (fun kv => P kv.2) kvs :=
                   match kvs with
                   | [] => List.Forall_nil _
                   | kv :: kvs' => List.Forall_cons _ kv kvs' (json_ind' kv.2) (go kvs')
                   end) kvs)
  end.
End JsonInd.

(** ** Exceptions *)

(** Python's exceptions, with the attributes their text is made of. *)
Inductive exn : Type :=
| JSONDecodeError (msg : String.string) (doc : list Z) (pos : Z)  (** [json.JSONDecodeError(msg, doc, pos)] *)
| FloatNotModelled                 (** a float literal: outside the model *)
| UnicodeDecodeError (encoding : String.string) (obj : list Z) (start end_ : Z) (reason : String.string)
| UnicodeEncodeError (encoding : String.string) (obj : list Z) (start end_ : Z) (reason : String.string)
| ValueError (msg : String.string)  (** [StreamReader.readline] over the limit *)
| IntDigitsError (ndigits : nat)   (** [ValueError] of [int(text)] over [int_max_str_digits] *)
| ConnectionResetError             (** [drain()] on a closed pipe *)
| ProcessLookupError               (** [terminate()] on a finished child *)
| FileNotFoundError (filename : list Z)  (** the command does not exist *)
| TypeError (msg : list Z)
| AttributeError (msg : list Z)
| KeyError (key : list Z)
| IndexError
| RuntimeError                     (** [readline()] while another coroutine waits *)
| Exception (msg : String.string)         (** [raise Exception(msg)] *)
| HTTPException (status_code : Z) (detail : json).
Arguments JSONDecodeError msg%_string doc pos.
Arguments UnicodeDecodeError encoding%_string obj start end_ reason%_string.
Arguments UnicodeEncodeError encoding%_string obj start end_ reason%_string.

(** ** Dicts *)

Definition pystr_eqb (a b : pystr) : bool := bool_decide (a = b).

(** [d.get(k)] *)
Fixpoint dict_get (k : pystr) (kvs : list (pystr * json)) : option json :=
  match kvs with
  | [] => None
  | (k', v) :: kvs' => if pystr_eqb k k' then Some v else dict_get k kvs'
  end.

(** [d[k] = v]: an existing key keeps its position. *)
Fixpoint dict_set (k : pystr) (v : json) (kvs : list (pystr * json)) :
  list (pystr * json) :=
  match kvs with
  | [] => [(k, v)]
  | (k', v') :: kvs' =>
      if pystr_eqb k k' then (k', v) :: kvs' else (k', v') :: dict_set k v kvs'
  end.

(** [dict(pairs)], as the JSON decoder builds an object: later duplicates
    overwrite earlier values. *)
Definition dict_of_pairs (ps : list (pystr * json)) : list (pystr * json) :=
  fold_left (fun d kv => dict_set kv.1 kv.2 d) ps [].

(** ** Python expressions on a decoded value *)

(** [needle in hay] for [str] operands. *)
Fixpoint prefixb (p s : pystr) : bool :=
  match p, s with
  | [], _ => true
  | c :: p', d :: s' => bool_decide (c = d) && prefixb p' s'
  | _ :: _, [] => false
  end.

Fixpoint infixb (p s : pystr) : bool :=
  prefixb p s || match s with [] => false | _ :: s' => infixb p s' end.

Definition is_str (k : pystr) (v : json) : bool :=
  match v with JStr s => pystr_eqb k s | _ => false end.

(** [type(v).__name__] *)
Definition type_name (v : json) : pystr :=
  match v with
  | JNull => str "NoneType"
  | JBool _ => str "bool"
  | JInt _ => str "int"
  | JStr _ => str "str"
  | JArr _ => str "list"
  | JObj _ => str "dict"
  end.

(** [AttributeError: 'T' object has no attribute 'a'] *)
Definition no_attribute (v : json) (attr : String.string) : exn :=
  AttributeError (str "'" ++ type_name v ++ str "' object has no attribute '" ++ str attr ++ str "'").
Arguments no_attribute v attr%_string.

(** [k in v], for a [str] key [k]: a key of a [dict], a substring of a
    [str], an element of a [list]; other types raise [TypeError]. *)
Definition py_contains (k : pystr) (v : json) : res exn bool :=
  match v with
  | JObj kvs => Ok (bool_decide (k ∈ map fst kvs))
  | JStr s => Ok (infixb k s)
  | JArr l => Ok (existsb (is_str k) l)
  | _ => Err (TypeError (str "argument of type '" ++ type_name v ++ str "' is not iterable"))
  end.

(** [v[k]] for a [str] key [k], with CPython 3.11's messages. *)
Definition py_getitem (k : pystr) (v : json) : res exn json :=
  match v with
  | JObj kvs => match dict_get k kvs with Some x => Ok x | None => Err (KeyError k) end
  | JStr _ => Err (TypeError (str "string indices must be integers, not 'str'"))
  | JArr _ => Err (TypeError (str "list indices must be integers or slices, not str"))
  | _ => Err (TypeError (str "'" ++ type_name v ++ str "' object is not subscriptable"))
  end.

(** [v.get(k, d)]: only a [dict] has [get]. *)
Definition py_get (k : pystr) (d : json) (v : json) : res exn json :=
  match v with
  | JObj kvs => Ok (default d (dict_get k kvs))
  | _ => Err (no_attribute v "get")
  end.

(** [bool(v)] *)
Definition py_truthy (v : json) : bool :=
  match v with
  | JNull => false
  | JBool b => b
  | JInt z => negb (Z.eqb z 0)
  | JStr s => negb (bool_decide (s = []))
  | JArr l => negb (bool_decide (l = []))
  | JObj kvs => negb (bool_decide (kvs = []))
  end.

(** ** Well-formed values *)

(** A Unicode scalar value: a code point that is not a surrogate. *)
Definition scalar (c : Z) : bool :=
  ((0 <=? c) && (c <=? 0x10FFFF) && negb ((0xD800 <=? c) && (c <=? 0xDFFF)))%Z.

Definition str_wf (s : pystr) : bool := forallb scalar s.

(** [sys.get_int_max_str_digits()]: the default limit of CPython 3.11 on
    the digits of an [int] converted from or to decimal text. *)
Definition int_max_str_digits : nat := 4300.

(** The decimal digits of [z], its sign apart. *)
Definition int_ndigits (z : Z) : nat :=
  match Z.to_int z with Decimal.Pos u | Decimal.Neg u => Decimal.nb_digits u end.

(** Strings of scalar values, integers within the digit limit, and dicts
    whose keys are distinct. *)
Fixpoint json_wf (v : json) : bool :=
  match v with
  | JInt z => Nat.leb (int_ndigits z) int_max_str_digits
  | JStr s => str_wf s
  | JArr l => forallb json_wf l
  | JObj kvs =>
      bool_decide (NoDup (map fst kvs)) &&
      forallb (fun kv => str_wf kv.1 && json_wf kv.2) kvs
  | _ => true
  end.

(** ** Lemmas *)

Lemma pystr_eqb_eq a b : pystr_eqb a b = true <-> a = b.
Proof. unfold pystr_eqb. apply bool_decide_eq_true. Qed.

Lemma pystr_eqb_refl a : pystr_eqb a a = true.
Proof. by apply pystr_eqb_eq. Qed.

Lemma pystr_eqb_neq a b : a <> b -> pystr_eqb a b = false.
Proof. intros H. unfold pystr_eqb. by apply bool_decide_eq_false. Qed.


Lemma dict_get_None k kvs : k ∉ map fst kvs -> dict_get k kvs = None.
Proof.
  induction kvs as [|[k' v'] kvs IH]; simpl; [done|].
  intros Hn. rewrite pystr_eqb_neq by set_solver. apply IH. set_solver.
Qed.

Lemma dict_set_absent k v kvs :
  k ∉ map fst kvs -> dict_set k v kvs = kvs ++ [(k, v)].
Proof.
  induction kvs as [|[k' v'] kvs IH]; simpl; [done|].
  intros Hn. rewrite pystr_eqb_neq by set_solver. f_equal. apply IH. set_solver.
Qed.

Lemma dict_set_fold_NoDup ps acc :
  NoDup (map fst (acc ++ ps)) ->
  fold_left (fun d kv => dict_set kv.1 kv.2 d) ps acc = acc ++ ps.
Proof.
  revert acc. induction ps as [|[k v] ps IH]; intros acc Hnd; simpl.
  - by rewrite app_nil_r.
  - rewrite dict_set_absent.
    + rewrite IH; [by rewrite <- app_assoc|]. by rewrite <- app_assoc.
    + rewrite map_app in Hnd. simpl in Hnd.
      apply NoDup_app in Hnd as (_ & Hdisj & _). intros Hin.
      apply (Hdisj k Hin). by left.
Qed.

(** A decoder's [dict(pairs)] keeps pairs whose keys are distinct as they
    are. *)
Lemma dict_of_pairs_NoDup ps :
  NoDup (map fst ps) -> dict_of_pairs ps = ps.
Proof. intros Hnd. by apply (dict_set_fold_NoDup ps []). Qed.

Lemma dict_get_Some_elem k v kvs : dict_get k kvs = Some v -> k ∈ map fst kvs.
Proof.
  induction kvs as [|[k' v'] kvs IH]; simpl; [done|].
  destruct (pystr_eqb k k') eqn:Hk; [apply pystr_eqb_eq in Hk as ->; intros _; constructor|].
  intros H. constructor. by apply IH.
Qed.

Lemma dict_get_first k v kvs : dict_get k ((k, v) :: kvs) = Some v.
Proof. simpl. by rewrite pystr_eqb_refl. Qed.
