(* ===== verification/Utf8.v ===== *)
(** * [str.encode()] and [bytes.decode()]: strict UTF-8

    [send_request] turns the request line into bytes with [.encode()] and
    the response line back into a [str] with [.decode()] (lines 121 and
    126), both with Python's default codec, UTF-8 with [errors='strict'].
    Code points and bytes are [Z]s.  The encoder is CPython's
    ([Objects/stringlib/codecs.h], [utf8_encoder]): [|], [&] and [>>] on
    the code point, a surrogate raising [UnicodeEncodeError].  The decoder
    is CPython's [utf8_decode] from the same file: the lead byte selects the
    length, the continuation bytes are checked, the lower bound of
    [\xE0]/[\xF0] and the upper bound of [\xED]/[\xF4] are checked, and the
    code point is computed with shifts and additions, as the C code does.
    The errors are those [unicode_encode_utf8] and [unicode_decode_utf8]
    raise ([utf8_error]: the reason, the input left at the error and the
    length of the range): a run of surrogates is "surrogates not
    allowed"; an invalid lead byte is "invalid start byte", a byte that
    cannot continue the sequence "invalid continuation byte" over the
    bytes before it, and a valid sequence cut by the end of the data
    "unexpected end of data" over the rest.  [encode_exn] and [decode_exn]
    make them the [UnicodeEncodeError] and [UnicodeDecodeError] Python
    sees, with [start] and [end] in the whole input. *)

From S2P Require Import Prelude Json.
Local Open Scope py_scope.

(** ** Encoding *)

Definition surrogate (c : Z) : bool := ((0xD800 <=? c) && (c <=? 0xDFFF))%Z.

Definition utf8_encode_char (c : Z) : option (list Z) :=
  (if c <? 0x80 then Some [c]
   else if c <? 0x800 then
     Some [Z.lor 0xC0 (Z.shiftr c 6); Z.lor 0x80 (Z.land c 0x3F)]
   else if surrogate c then None
   else if c <? 0x10000 then
     Some [Z.lor 0xE0 (Z.shiftr c 12);
           Z.lor 0x80 (Z.land (Z.shiftr c 6) 0x3F);
           Z.lor 0x80 (Z.land c 0x3F)]
   else
     Some [Z.lor 0xF0 (Z.shiftr c 18);
           Z.lor 0x80 (Z.land (Z.shiftr c 12) 0x3F);
           Z.lor 0x80 (Z.land (Z.shiftr c 6) 0x3F);
           Z.lor 0x80 (Z.land c 0x3F)])%Z.

(** Where a codec fails: the reason ([errmsg]), the input from
    [startinpos] on, and [endinpos - startinpos]. *)
Inductive utf8_error : Type :=
| Utf8Error (reason : String.string) (rest : list Z) (len : nat).
Arguments Utf8Error reason%_string rest len.

(** The surrogates at the head of [s]: the range [utf8_encoder] reports. *)
Fixpoint surrogate_run (s : pystr) : nat :=
  match s with c :: s' => if surrogate c then S (surrogate_run s') else O | [] => O end.

(** [utf8_encoder] with [errors='strict'] *)
Fixpoint utf8_encode (s : pystr) : res utf8_error (list Z) :=
  match s with
  | [] => Ok []
  | c :: s' =>
      match utf8_encode_char c with
      | Some b => let? bs := utf8_encode s' in Ok (b ++ bs)
      | None => Err (Utf8Error "surrogates not allowed" s (surrogate_run s))
      end
  end.

(** ** Decoding *)

Definition continuation (b : Z) : bool := ((0x80 <=? b) && (b <? 0xC0))%Z.

(** [utf8_decode] of [Objects/stringlib/codecs.h] and the error cases of
    [unicode_decode_utf8]: an invalid lead byte, an invalid continuation
    byte (the range ends before it), or the end of the data inside a
    sequence whose bytes so far are valid (the range runs to the end). *)
Fixpoint utf8_decode (bs : list Z) : res utf8_error pystr :=
  match bs with
  | [] => Ok []
  | b0 :: r0 =>
      if (b0 <? 0x80)%Z then
        let? s := utf8_decode r0 in Ok (b0 :: s)
      else if (b0 <? 0xC2)%Z then Err (Utf8Error "invalid start byte" bs 1)
      else if (b0 <? 0xE0)%Z then
        match r0 with
        | b1 :: r1 =>
            if continuation b1 then
              let? s := utf8_decode r1 in
              Ok (Z.shiftl b0 6 + b1 - (Z.shiftl 0xC0 6 + 0x80) :: s)%Z
            else Err (Utf8Error "invalid continuation byte" bs 1)
        | [] => Err (Utf8Error "unexpected end of data" bs 1)
        end
      else if (b0 <? 0xF0)%Z then
        let second_ok b1 := continuation b1 && negb ((b0 =? 0xE0) && (b1 <? 0xA0))%Z
                            && negb ((b0 =? 0xED) && (0xA0 <=? b1))%Z in
        match r0 with
        | b1 :: b2 :: r2 =>
            if second_ok b1 then
              if continuation b2 then
                let? s := utf8_decode r2 in
                Ok (Z.shiftl b0 12 + Z.shiftl b1 6 + b2
                    - (Z.shiftl 0xE0 12 + Z.shiftl 0x80 6 + 0x80) :: s)%Z
              else Err (Utf8Error "invalid continuation byte" bs 2)
            else Err (Utf8Error "invalid continuation byte" bs 1)
        | [b1] =>
            if second_ok b1 then Err (Utf8Error "unexpected end of data" bs 2)
            else Err (Utf8Error "invalid continuation byte" bs 1)
        | [] => Err (Utf8Error "unexpected end of data" bs 1)
        end
      else if (b0 <? 0xF5)%Z then
        let second_ok b1 := continuation b1 && negb ((b0 =? 0xF0) && (b1 <? 0x90))%Z
                            && negb ((b0 =? 0xF4) && (0x90 <=? b1))%Z in
        match r0 with
        | b1 :: b2 :: b3 :: r3 =>
            if second_ok b1 then
              if continuation b2 then
                if continuation b3 then
                  let? s := utf8_decode r3 in
                  Ok (Z.shiftl b0 18 + Z.shiftl b1 12 + Z.shiftl b2 6 + b3
                      - (Z.shiftl 0xF0 18 + Z.shiftl 0x80 12 + Z.shiftl 0x80 6 + 0x80)
                      :: s)%Z
                else Err (Utf8Error "invalid continuation byte" bs 3)
              else Err (Utf8Error "invalid continuation byte" bs 2)
            else Err (Utf8Error "invalid continuation byte" bs 1)
        | [b1; b2] =>
            if second_ok b1 then
              if continuation b2 then Err (Utf8Error "unexpected end of data" bs 3)
              else Err (Utf8Error "invalid continuation byte" bs 2)
            else Err (Utf8Error "invalid continuation byte" bs 1)
        | [b1] =>
            if second_ok b1 then Err (Utf8Error "unexpected end of data" bs 2)
            else Err (Utf8Error "invalid continuation byte" bs 1)
        | [] => Err (Utf8Error "unexpected end of data" bs 1)
        end
      else Err (Utf8Error "invalid start byte" bs 1)
  end.

(** [b.decode(errors='surrogatepass')]: where the strict decoder fails on
    [\xED] followed by two continuation bytes, [PyCodec_SurrogatePassErrors]
    decodes the three bytes as the surrogate they encode; everywhere else
    the handler fails and the strict decoder's error is raised. *)
Fixpoint utf8_decode_sp (bs : list Z) : res utf8_error pystr :=
  match bs with
  | [] => Ok []
  | b0 :: r0 =>
      if (b0 <? 0x80)%Z then
        let? s := utf8_decode_sp r0 in Ok (b0 :: s)
      else if (b0 <? 0xC2)%Z then Err (Utf8Error "invalid start byte" bs 1)
      else if (b0 <? 0xE0)%Z then
        match r0 with
        | b1 :: r1 =>
            if continuation b1 then
              let? s := utf8_decode_sp r1 in
              Ok (Z.shiftl b0 6 + b1 - (Z.shiftl 0xC0 6 + 0x80) :: s)%Z
            else Err (Utf8Error "invalid continuation byte" bs 1)
        | [] => Err (Utf8Error "unexpected end of data" bs 1)
        end
      else if (b0 <? 0xF0)%Z then
        let second_ok b1 := continuation b1 && negb ((b0 =? 0xE0) && (b1 <? 0xA0))%Z
                            && negb ((b0 =? 0xED) && (0xA0 <=? b1))%Z in
        match r0 with
        | b1 :: b2 :: r2 =>
            if continuation b1 && negb ((b0 =? 0xE0) && (b1 <? 0xA0))%Z then
              if continuation b2 then
                let? s := utf8_decode_sp r2 in
                Ok (Z.shiftl b0 12 + Z.shiftl b1 6 + b2
                    - (Z.shiftl 0xE0 12 + Z.shiftl 0x80 6 + 0x80) :: s)%Z
              else if second_ok b1 then Err (Utf8Error "invalid continuation byte" bs 2)
              else Err (Utf8Error "invalid continuation byte" bs 1)
            else Err (Utf8Error "invalid continuation byte" bs 1)
        | [b1] =>
            if second_ok b1 then Err (Utf8Error "unexpected end of data" bs 2)
            else Err (Utf8Error "invalid continuation byte" bs 1)
        | [] => Err (Utf8Error "unexpected end of data" bs 1)
        end
      else if (b0 <? 0xF5)%Z then
        let second_ok b1 := continuation b1 && negb ((b0 =? 0xF0) && (b1 <? 0x90))%Z
                            && negb ((b0 =? 0xF4) && (0x90 <=? b1))%Z in
        match r0 with
        | b1 :: b2 :: b3 :: r3 =>
            if second_ok b1 then
              if continuation b2 then
                if continuation b3 then
                  let? s := utf8_decode_sp r3 in
                  Ok (Z.shiftl b0 18 + Z.shiftl b1 12 + Z.shiftl b2 6 + b3
                      - (Z.shiftl 0xF0 18 + Z.shiftl 0x80 12 + Z.shiftl 0x80 6 + 0x80)
                      :: s)%Z
                else Err (Utf8Error "invalid continuation byte" bs 3)
              else Err (Utf8Error "invalid continuation byte" bs 2)
            else Err (Utf8Error "invalid continuation byte" bs 1)
        | [b1; b2] =>
            if second_ok b1 then
              if continuation b2 then Err (Utf8Error "unexpected end of data" bs 3)
              else Err (Utf8Error "invalid continuation byte" bs 2)
            else Err (Utf8Error "invalid continuation byte" bs 1)
        | [b1] =>
            if second_ok b1 then Err (Utf8Error "unexpected end of data" bs 2)
            else Err (Utf8Error "invalid continuation byte" bs 1)
        | [] => Err (Utf8Error "unexpected end of data" bs 1)
        end
      else Err (Utf8Error "invalid start byte" bs 1)
  end.

(** ** The exceptions *)

(** [UnicodeEncodeError] / [UnicodeDecodeError] of the codec [utf-8] on
    the whole input [obj]: [start] is what precedes the rest at the
    error. *)
Definition encode_exn (obj : pystr) (e : utf8_error) : exn :=
  let 'Utf8Error reason rest n := e in
  let start := Z.of_nat (length obj - length rest) in
  UnicodeEncodeError "utf-8" obj start (start + Z.of_nat n)%Z reason.

Definition decode_exn (obj : list Z) (e : utf8_error) : exn :=
  let 'Utf8Error reason rest n := e in
  let start := Z.of_nat (length obj - length rest) in
  UnicodeDecodeError "utf-8" obj start (start + Z.of_nat n)%Z reason.

(** [s.encode()] *)
Definition str_encode (s : pystr) : res exn (list Z) :=
  match utf8_encode s with Ok bs => Ok bs | Err e => Err (encode_exn s e) end.

(** [b.decode()] *)
Definition bytes_decode (bs : list Z) : res exn pystr :=
  match utf8_decode bs with Ok s => Ok s | Err e => Err (decode_exn bs e) end.

(** [b.decode('utf-8', 'surrogatepass')] *)
Definition bytes_decode_sp (bs : list Z) : res exn pystr :=
  match utf8_decode_sp bs with Ok s => Ok s | Err e => Err (decode_exn bs e) end.

(** Code points below 128: the characters [json.dumps] emits. *)
Definition ascii_cp (c : Z) : bool := ((0 <=? c) && (c <? 0x80))%Z.

(** The decoding of [c] followed by that of the rest. *)
Definition decode_cons (c : Z) (r : res utf8_error pystr) : res utf8_error pystr :=
  let? s := r in Ok (c :: s).

(** ** Bit lemmas *)

Lemma cont_byte (x : Z) : Z.lor 0x80 (x mod 64) = (128 + x mod 64)%Z.
Proof. apply (lor_add_low _ _ 6); [lia|done|]. pose proof (Z.mod_pos_bound x 64). lia. Qed.

(** The bytes of one code point, as arithmetic. *)
Lemma encode_char_2 c : (0x80 <= c < 0x800)%Z ->
  utf8_encode_char c = Some [(192 + c / 64)%Z; (128 + c mod 64)%Z].
Proof.
  intros Hc. unfold utf8_encode_char.
  rewrite (proj2 (Z.ltb_ge c 0x80)), (proj2 (Z.ltb_lt c 0x800)) by lia.
  rewrite land_63, cont_byte, shiftr_div by lia. f_equal. f_equal.
  apply (lor_add_low _ _ 5); [lia|done|]. split; [apply Z.div_pos|apply Z.div_lt_upper_bound]; lia.
Qed.

Lemma encode_char_3 c : (0x800 <= c < 0x10000)%Z -> surrogate c = false ->
  utf8_encode_char c =
    Some [(224 + c / 4096)%Z; (128 + (c / 64) mod 64)%Z; (128 + c mod 64)%Z].
Proof.
  intros Hc Hs. unfold utf8_encode_char. rewrite Hs.
  rewrite (proj2 (Z.ltb_ge c 0x80)), (proj2 (Z.ltb_ge c 0x800)),
    (proj2 (Z.ltb_lt c 0x10000)) by lia.
  rewrite !land_63, !cont_byte, !shiftr_div by lia. f_equal. f_equal.
  apply (lor_add_low _ _ 4); [lia|done|]. split; [apply Z.div_pos|apply Z.div_lt_upper_bound]; lia.
Qed.

Lemma encode_char_4 c : (0x10000 <= c <= 0x10FFFF)%Z ->
  utf8_encode_char c =
    Some [(240 + c / 262144)%Z; (128 + (c / 4096) mod 64)%Z;
        (128 + (c / 64) mod 64)%Z; (128 + c mod 64)%Z].
Proof.
  intros Hc. unfold utf8_encode_char, surrogate.
  rewrite (proj2 (Z.ltb_ge c 0x80)), (proj2 (Z.ltb_ge c 0x800)),
    (proj2 (Z.ltb_ge c 0x10000)), (proj2 (Z.leb_gt c 0xDFFF)), andb_false_r by lia.
  rewrite !land_63, !cont_byte, !shiftr_div by lia. f_equal. f_equal.
  apply (lor_add_low _ _ 3); [lia|done|]. split; [apply Z.div_pos|apply Z.div_lt_upper_bound]; lia.
Qed.

Ltac decode_cons_eq :=
  unfold decode_cons; destruct (utf8_decode _); simpl;
  [do 2 f_equal; zlia | reflexivity].

(** Decoding the bytes of a scalar value gives it back, whatever follows. *)
Lemma decode_encode_char c b rest :
  scalar c = true -> utf8_encode_char c = Some b ->
  utf8_decode (b ++ rest) = decode_cons c (utf8_decode rest).
Proof.
  unfold scalar. intros Hc Henc.
  apply andb_true_iff in Hc as [Hc Hns]. apply andb_true_iff in Hc as [H0 H1].
  apply Z.leb_le in H0. apply Z.leb_le in H1.
  destruct (Z.ltb_spec c 0x80) as [Ha|Ha].
  { unfold utf8_encode_char in Henc. rewrite (proj2 (Z.ltb_lt _ _) Ha) in Henc.
    injection Henc as <-. simpl. zcase. reflexivity. }
  destruct (Z.ltb_spec c 0x800) as [Hb|Hb].
  { rewrite encode_char_2 in Henc by lia. injection Henc as <-. simpl.
    unfold continuation. rewrite !shiftl_mul by lia. zcase; simpl; decode_cons_eq. }
  destruct (Z.ltb_spec c 0x10000) as [Hd|Hd].
  { assert (surrogate c = false) as Hs.
    { unfold surrogate. apply negb_true_iff in Hns. exact Hns. }
    rewrite encode_char_3 in Henc by done. injection Henc as <-. simpl.
    unfold continuation. rewrite !shiftl_mul by lia. zcase; simpl; decode_cons_eq. }
  rewrite encode_char_4 in Henc by lia. injection Henc as <-. simpl.
  unfold continuation. rewrite !shiftl_mul by lia. zcase; simpl; decode_cons_eq.
Qed.

Lemma encode_char_scalar c : scalar c = true -> exists b, utf8_encode_char c = Some b.
Proof.
  intros Hc. unfold utf8_encode_char.
  assert (surrogate c = false) as ->.
  { unfold scalar in Hc. unfold surrogate.
    apply andb_true_iff in Hc as [_ Hc]. by apply negb_true_iff in Hc. }
  repeat case_match; eauto.
Qed.

(** C8. Round trip of the codec of [send_request]: a string of Unicode
    scalar values encodes without error, and decoding the bytes gives the
    string back. *)
Theorem utf8_decode_encode (s : pystr) :
  str_wf s = true -> exists bs, utf8_encode s = Ok bs /\ utf8_decode bs = Ok s.
Proof.
  induction s as [|c s IH]; simpl; [by exists []|].
  intros [Hc Hs]%andb_true_iff.
  destruct (encode_char_scalar c Hc) as [b Hb].
  destruct (IH Hs) as [bs [Henc Hdec]].
  exists (b ++ bs). rewrite Hb, Henc. split; [done|].
  rewrite (decode_encode_char c b bs Hc Hb), Hdec. reflexivity.
Qed.

(** Below 128, [.encode()] and [.decode()] are the identity. *)
Lemma utf8_encode_ascii (s : pystr) :
  forallb ascii_cp s = true -> utf8_encode s = Ok s.
Proof.
  induction s as [|c s IH]; simpl; [done|].
  intros [Hc Hs]%andb_true_iff. unfold ascii_cp in Hc.
  apply andb_true_iff in Hc as [H0 H1]. apply Z.leb_le in H0. apply Z.ltb_lt in H1.
  unfold utf8_encode_char. rewrite (proj2 (Z.ltb_lt c 0x80) H1), IH by done. reflexivity.
Qed.

Lemma utf8_decode_ascii (s : pystr) :
  forallb ascii_cp s = true -> utf8_decode s = Ok s.
Proof.
  induction s as [|c s IH]; simpl; [done|].
  intros [Hc Hs]%andb_true_iff. unfold ascii_cp in Hc.
  apply andb_true_iff in Hc as [_ H1]. rewrite H1, IH by done. reflexivity.
Qed.

Lemma utf8_decode_app_ascii (s rest : pystr) :
  forallb ascii_cp s = true ->
  utf8_decode (s ++ rest) = let? r := utf8_decode rest in Ok (s ++ r).
Proof.
  induction s as [|c s IH]; simpl; intros Hs.
  - by destruct (utf8_decode rest).
  - apply andb_true_iff in Hs as [Hc Hs]. unfold ascii_cp in Hc.
    apply andb_true_iff in Hc as [_ H1]. rewrite H1, IH by done.
    by destruct (utf8_decode rest).
Qed.

Lemma str_encode_ok s bs : utf8_encode s = Ok bs -> str_encode s = Ok bs.
Proof. unfold str_encode. by intros ->. Qed.

Lemma bytes_decode_ok bs s : utf8_decode bs = Ok s -> bytes_decode bs = Ok s.
Proof. unfold bytes_decode. by intros ->. Qed.

Lemma bytes_decode_ok_inv bs s : bytes_decode bs = Ok s -> utf8_decode bs = Ok s.
Proof. unfold bytes_decode. by destruct (utf8_decode bs); intros; simplify_eq. Qed.

(** Where the strict decoder succeeds, [surrogatepass] decodes the same. *)
Lemma utf8_decode_sp_strict bs s : utf8_decode bs = Ok s -> utf8_decode_sp bs = Ok s.
Proof.
  revert s. induction bs as [bs IH] using (induction_ltof1 _ (@length Z)); unfold ltof in IH.
  intros s H. destruct bs as [|b0 r0]; [done|]. cbn [utf8_decode utf8_decode_sp] in *.
  repeat (case_match; simplify_eq/=; try done);
    apply res_bind_ok_inv in H as (t & Ht & Hs); simplify_eq/=;
    (erewrite IH; [done| |exact Ht]; simpl; lia).
Qed.

(** The witnesses of a multibyte step in [utf8_decode_cons_inv]. *)
Ltac multibyte := eexists _, _;
    (split; [eassumption|]); (split; [reflexivity|]);
    (split; [intros r; cbn [utf8_decode take app]; unfold continuation; zcase; reflexivity|right]);
    rewrite !shiftl_mul by lia;
    (repeat split); [lia..|cbn; lia|repeat constructor; unfold continuation; zcase; done].

(** One step of the decoder: a successful decoding of [b0 :: r0] starts
    with one character [c] made of [b0] and the next [k] bytes, which are
    continuation bytes, and the decoding of that step depends on them
    alone; [c] is [b0] itself when [b0] is ASCII, and at least [0x80]
    otherwise. *)
Lemma utf8_decode_cons_inv b0 r0 s : utf8_decode (b0 :: r0) = Ok s ->
  exists k c s', utf8_decode (drop k r0) = Ok s' /\ s = c :: s' /\
    (forall r, utf8_decode (b0 :: take k r0 ++ r) = let? t := utf8_decode r in Ok (c :: t))%py /\
    ((k = 0%nat /\ c = b0 /\ (b0 < 0x80)%Z) \/
     ((0x80 <= c)%Z /\ (0x80 <= b0)%Z /\ (k <= length r0)%nat /\
      Forall (fun b => continuation b = true) (take k r0))).
Proof.
  cbn [utf8_decode]. intros H. repeat case_match; ok_inv; simplify_eq/=; try discriminate;
    try unfold continuation in *; zhyps.
  { exists 0%nat, b0, s0. rewrite drop_0. split; [done|split; [done|split; [intros r; cbn; zcase; reflexivity|left; repeat split; lia]]]. }
  all: first [exists 1%nat; multibyte | exists 2%nat; multibyte | exists 3%nat; multibyte].
Qed.

(** A character below [0x80] of the decoded text is a byte of the input. *)
Lemma utf8_decode_ascii_elem bs s c :
  utf8_decode bs = Ok s -> c ∈ s -> (c < 0x80)%Z -> c ∈ bs.
Proof.
  revert s. induction bs as [bs IH] using (induction_ltof1 _ (@length Z)); intros s Hd Hc Hlt.
  destruct bs as [|b0 r0]; [by injection Hd as <-|].
  apply utf8_decode_cons_inv in Hd as (k & c' & s' & Hd & -> & _ & Hk).
  apply elem_of_cons in Hc as [->|Hc].
  - destruct Hk as [(_ & -> & _)|Hk]; [apply elem_of_cons; by left|lia].
  - apply elem_of_cons. right. rewrite <- (take_drop k r0). apply elem_of_app. right.
    apply (IH (drop k r0) ltac:(unfold ltof; cbn; rewrite length_drop; lia) s'); done.
Qed.

(** Decoding splits at an ASCII byte: no sequence spans it. *)
Lemma utf8_decode_split_ascii bs1 b bs2 s : (0 <= b < 0x80)%Z ->
  utf8_decode (bs1 ++ b :: bs2) = Ok s ->
  exists s1 s2, utf8_decode bs1 = Ok s1 /\ utf8_decode bs2 = Ok s2 /\ s = s1 ++ b :: s2.
Proof.
  intros Hb. revert s. induction bs1 as [bs1 IH] using (induction_ltof1 _ (@length Z)); intros s Hd.
  destruct bs1 as [|b0 r0].
  - apply utf8_decode_cons_inv in Hd as (k & c & s' & Hd & -> & _ & [(-> & -> & _)|Hk]); [|lia].
    exists [], s'. by rewrite drop_0 in Hd.
  - change ((b0 :: r0) ++ b :: bs2) with (b0 :: (r0 ++ b :: bs2)) in Hd.
    apply utf8_decode_cons_inv in Hd as (k & c & s' & Hd & -> & Hloc & Hk).
    assert (k <= length r0)%nat as Hkr.
    { destruct Hk as [(-> & _)|(_ & _ & _ & Hc)]; [lia|].
      destruct (decide (k <= length r0)%nat) as [|Hgt]; [done|exfalso].
      rewrite take_app_ge in Hc by lia. apply Forall_app in Hc as [_ Hc].
      destruct (k - length r0)%nat as [|j] eqn:Hj; [lia|].
      apply Forall_cons in Hc as [Hc _]. unfold continuation in Hc. zhyps. lia. }
    rewrite drop_app_le in Hd by done.
    apply IH in Hd as (s1 & s2 & H1 & H2 & ->); [|unfold ltof; cbn; rewrite length_drop; lia].
    exists (c :: s1), s2. split; [|done].
    rewrite take_app_le in Hloc by done. rewrite <- (take_drop k r0), Hloc, H1. reflexivity.
Qed.

Lemma utf8_decode_encode_witness :
  exists bs, utf8_encode [0x48; 0xE9; 0x20AC; 0x1F600]%Z = Ok bs /\
             utf8_decode bs = Ok [0x48; 0xE9; 0x20AC; 0x1F600]%Z.
Proof. apply utf8_decode_encode. vm_compute. reflexivity. Defined.
