(* ===== verification/JsonDump.v ===== *)
(** * [json.dumps] with its default arguments

    [send_request] serialises every request with [json.dumps(request)]
    (line 120).  With the defaults ([ensure_ascii=True], no [indent],
    separators [", "] and [": "], no [sort_keys]) CPython runs its C encoder
    ([Modules/_json.c]): [encoder_listencode_obj] dispatches on the type,
    [encoder_listencode_list] and [encoder_listencode_dict] write [[]] and
    [{}] for empty containers and otherwise the items with the separators,
    and [c_encode_basestring_ascii] writes a string between quotes, each
    character either itself ([S_CHAR]: printable ASCII other than the quote
    and the backslash) or escaped by [ascii_escape_unichar]: two-character
    escapes for the backslash, the quote and [\b \f \n \r \t], a [\uXXXX] escape with lowercase hex
    digits otherwise, and a surrogate pair for a code point above [0xFFFF].
    An [int] is written in decimal ([int.__repr__]).  Characters are code
    points ([Z]); the comments give them as characters. *)

From S2P Require Import Prelude Json.
From Stdlib Require Import DecimalZ.

(** ** Integers *)

Fixpoint uint_chars (u : Decimal.uint) : pystr :=
  match u with
  | Decimal.Nil => []
  | Decimal.D0 u => 48%Z :: uint_chars u
  | Decimal.D1 u => 49%Z :: uint_chars u
  | Decimal.D2 u => 50%Z :: uint_chars u
  | Decimal.D3 u => 51%Z :: uint_chars u
  | Decimal.D4 u => 52%Z :: uint_chars u
  | Decimal.D5 u => 53%Z :: uint_chars u
  | Decimal.D6 u => 54%Z :: uint_chars u
  | Decimal.D7 u => 55%Z :: uint_chars u
  | Decimal.D8 u => 56%Z :: uint_chars u
  | Decimal.D9 u => 57%Z :: uint_chars u
  end.

(** [int.__repr__]: the decimal digits, after ['-'] for a negative
    number. *)
Definition int_repr (z : Z) : pystr :=
  match Z.to_int z with
  | Decimal.Pos u => uint_chars u
  | Decimal.Neg u => 45%Z :: uint_chars u
  end.

(** ** Strings *)

(** [Py_hexdigits = "0123456789abcdef"] *)
Definition hexdigit (n : Z) : Z := if (n <? 10)%Z then (48 + n)%Z else (87 + n)%Z.

(** The four hex digits of [v]: [(v >> 12) & 0xf], ..., [v & 0xf]. *)
Definition hex4 (v : Z) : pystr :=
  map (fun k => hexdigit (Z.land (Z.shiftr v k) 0xF)) [12%Z; 8%Z; 4%Z; 0%Z].

(** [Py_UNICODE_HIGH_SURROGATE] and [Py_UNICODE_LOW_SURROGATE] *)
Definition high_surrogate (c : Z) : Z := (0xD800 - Z.shiftr 0x10000 10 + Z.shiftr c 10)%Z.
Definition low_surrogate (c : Z) : Z := (0xDC00 + Z.land c 0x3FF)%Z.

(** [ascii_escape_unichar]: a backslash, then the escape. *)
Definition ascii_escape_unichar (c : Z) : pystr :=
  (if c =? 92 then [92; 92]                      (* \\ *)
   else if c =? 34 then [92; 34]                 (* backslash, quote *)
   else if c =? 8 then [92; 98]                  (* \b *)
   else if c =? 12 then [92; 102]                (* \f *)
   else if c =? 10 then [92; 110]                (* \n *)
   else if c =? 13 then [92; 114]                (* \r *)
   else if c =? 9 then [92; 116]                 (* \t *)
   else if 0x10000 <=? c then
     [92; 117] ++ hex4 (high_surrogate c) ++ [92; 117] ++ hex4 (low_surrogate c)
   else [92; 117] ++ hex4 c)%Z.                  (* \uXXXX *)

(** [S_CHAR(c)]: written as itself. *)
Definition s_char (c : Z) : bool :=
  ((32 <=? c) && (c <=? 126) && negb (c =? 92) && negb (c =? 34))%Z.

Definition escape_char (c : Z) : pystr :=
  if s_char c then [c] else ascii_escape_unichar c.

(** [c_encode_basestring_ascii] *)
Definition encode_basestring_ascii (s : pystr) : pystr :=
  [34%Z] ++ flat_map escape_char s ++ [34%Z].
Arguments encode_basestring_ascii : simpl never.

(** ** Values *)

(** [json.dumps(v)] *)
Fixpoint dumps (v : json) : pystr :=
  match v with
  | JNull => str "null"
  | JBool true => str "true"
  | JBool false => str "false"
  | JInt z => int_repr z
  | JStr s => encode_basestring_ascii s
  | JArr [] => str "[]"
  | JArr (x :: l) =>
      str "[" ++ dumps x ++ flat_map (fun y => str ", " ++ dumps y) l ++ str "]"
  | JObj [] => str "{}"
  | JObj (kv :: kvs) =>
      str "{" ++ encode_basestring_ascii kv.1 ++ str ": " ++ dumps kv.2 ++
      flat_map (fun kv => str ", " ++ encode_basestring_ascii kv.1 ++ str ": " ++ dumps kv.2) kvs
      ++ str "}"
  end.

(** ** [JSONResponse.render]

    [json.dumps(content, ensure_ascii=False, allow_nan=False, indent=None,
    separators=(",", ":"))]: the same C encoder with [c_encode_basestring]
    ([escape_unicode] of [Modules/_json.c]), which escapes only the quote,
    the backslash and the characters below [0x20] and writes every other
    code point, surrogates included, as itself. *)

(** The body of [escape_unicode]'s [ENCODE_OUTPUT] for one character. *)
Definition unicode_escape_char (c : Z) : pystr :=
  (if c =? 92 then [92; 92]
   else if c =? 34 then [92; 34]
   else if c =? 8 then [92; 98]
   else if c =? 12 then [92; 102]
   else if c =? 10 then [92; 110]
   else if c =? 13 then [92; 114]
   else if c =? 9 then [92; 116]
   else if c <=? 0x1F then [92; 117; 48; 48; hexdigit (Z.land (Z.shiftr c 4) 0xF); hexdigit (Z.land c 0xF)]
   else [c])%Z.

(** [c_encode_basestring] *)
Definition encode_basestring (s : pystr) : pystr :=
  [34%Z] ++ flat_map unicode_escape_char s ++ [34%Z].

(** [json.dumps(v, ensure_ascii=False, separators=(",", ":"))] *)
Fixpoint dumps_compact (v : json) : pystr :=
  match v with
  | JNull => str "null"
  | JBool true => str "true"
  | JBool false => str "false"
  | JInt z => int_repr z
  | JStr s => encode_basestring s
  | JArr [] => str "[]"
  | JArr (x :: l) =>
      str "[" ++ dumps_compact x ++ flat_map (fun y => str "," ++ dumps_compact y) l ++ str "]"
  | JObj [] => str "{}"
  | JObj (kv :: kvs) =>
      str "{" ++ encode_basestring kv.1 ++ str ":" ++ dumps_compact kv.2 ++
      flat_map (fun kv => str "," ++ encode_basestring kv.1 ++ str ":" ++ dumps_compact kv.2) kvs
      ++ str "}"
  end.

(** Printable ASCII, [' '] to ['~']. *)
Definition printable (c : Z) : bool := ((32 <=? c) && (c <=? 126))%Z.

(** ** Lemmas *)

Lemma hexdigit_printable n : (0 <= n < 16)%Z -> printable (hexdigit n) = true.
Proof. intros Hn. unfold printable, hexdigit. zcase; reflexivity. Qed.

Lemma land_15_bound x : (0 <= Z.land x 0xF < 16)%Z.
Proof. change 0xF%Z with (Z.ones 4). rewrite Z.land_ones by lia. apply Z.mod_pos_bound. lia. Qed.

Lemma hex4_printable v : Forall (fun c => printable c = true) (hex4 v).
Proof. unfold hex4. simpl. repeat constructor; apply hexdigit_printable, land_15_bound. Qed.

Lemma escape_char_printable c : Forall (fun c => printable c = true) (escape_char c).
Proof.
  unfold escape_char, s_char, ascii_escape_unichar.
  destruct ((32 <=? c) && (c <=? 126) && _ && _)%Z eqn:Hs.
  { repeat (apply andb_true_iff in Hs as [Hs ?]). constructor; [|done].
    unfold printable. by rewrite Hs, H1. }
  repeat case_match; try (repeat constructor; fail);
    repeat (apply Forall_app; split); try (repeat constructor; fail); apply hex4_printable.
Qed.

Lemma escape_all_printable s :
  Forall (fun c => printable c = true) (flat_map escape_char s).
Proof. apply Forall_flat_map, Forall_forall. intros c _. apply escape_char_printable. Qed.

Lemma encode_basestring_printable s :
  Forall (fun c => printable c = true) (encode_basestring_ascii s).
Proof.
  unfold encode_basestring_ascii. repeat (apply Forall_app; split);
    [apply Forall_forallb; reflexivity|apply escape_all_printable|apply Forall_forallb; reflexivity].
Qed.

Lemma length_uint_chars u : length (uint_chars u) = Decimal.nb_digits u.
Proof. induction u; simpl; by f_equal. Qed.

Lemma uint_chars_digits u : Forall (fun c => (48 <= c <= 57)%Z) (uint_chars u).
Proof. induction u; simpl; repeat constructor; auto; lia. Qed.

Lemma int_repr_printable z : Forall (fun c => printable c = true) (int_repr z).
Proof.
  assert (Forall (fun c => printable c = true) (uint_chars (match Z.to_int z with
           Decimal.Pos u => u | Decimal.Neg u => u end))) as H.
  { eapply Forall_impl; [apply uint_chars_digits|]. intros c Hc. cbv beta in Hc. unfold printable. zcase; done. }
  unfold int_repr. destruct (Z.to_int z); [done|]. by constructor.
Qed.


Ltac printable_parts :=
  repeat (apply Forall_app; split);
  try (apply Forall_forallb; reflexivity);
  try (apply Forall_cons; split; [reflexivity|]);
  try apply encode_basestring_printable; try apply escape_all_printable.

(** Everything [json.dumps] writes is printable ASCII: in particular no
    newline, so the request is one line of the pipe. *)
Lemma dumps_printable v : Forall (fun c => printable c = true) (dumps v).
Proof.
  induction v as [|b|z|s|l IH|kvs IH] using json_ind'; cbn [dumps].
  - apply Forall_forallb; reflexivity.
  - destruct b; apply Forall_forallb; reflexivity.
  - apply int_repr_printable.
  - apply encode_basestring_printable.
  - destruct l as [|x l]; [apply Forall_forallb; reflexivity|].
    inversion IH as [|? ? Hx Hl]; subst. printable_parts; [done|].
    apply Forall_flat_map. eapply Forall_impl; [exact Hl|]. intros y Hy.
    by printable_parts.
  - destruct kvs as [|kv kvs]; [apply Forall_forallb; reflexivity|].
    inversion IH as [|? ? Hx Hl]; subst. printable_parts; [done|].
    apply Forall_flat_map. eapply Forall_impl; [exact Hl|]. intros y Hy.
    by printable_parts.
Qed.
