(* ===== verification/JsonLoad.v ===== *)
(** * [json.loads]: CPython's JSON scanner

    [send_request] parses the response line with [json.loads] (line 126).
    [json.loads(s)] raises on a leading byte-order mark, skips whitespace
    and runs the C scanner ([Modules/_json.c]) at the first non-blank
    character; whatever follows the value must be whitespace ("Extra
    data" otherwise).  The scanner, translated here function by function:
    - [scanstring_unicode] ([scanstring]): the characters up to the closing
      quote; a raw control character, an unknown escape, a bad or truncated
      [\uXXXX] are errors; a high surrogate followed by [\u] and a low
      surrogate are joined into one code point;
    - [_match_number_unicode] ([match_number]): an optional minus sign,
      then [0] or a non-zero digit and more digits; a fraction or an
      exponent after them makes it a float; an integer is converted by
      [PyLong_FromString], which raises [ValueError] beyond 4300 digits;
    - [scan_once_unicode] ([scan_once]): dispatch on the first character;
    - [_parse_object_unicode] ([parse_members]) and [_parse_array_unicode]
      ([parse_elements]): items with their [:] and [,] separators and the
      whitespace around them.  An object is built with [PyDict_SetItem],
      so a repeated key keeps its first position and its last value
      ([dict_of_pairs]).

    The three mutually recursive functions take fuel; [loads] gives
    [2 * length + 1], and [loads_fuel_enough] proves it is never exhausted.
    Floats are outside the model: where Python would build a [float] the
    scanner answers [FloatNotModelled].  Every other failure of the C
    scanner is a [JSONDecodeError] with the message and position CPython
    gives it: the scanner records the input left at [raise_errmsg]'s
    index ([scan_error]), [decode_error] turns it into a position in the
    document, and [decode_error_text] is [JSONDecodeError.__init__]'s
    ['%s: line %d column %d (char %d)']. *)

From S2P Require Import Prelude Json JsonDump.
From Stdlib Require DecimalZ DecimalPos DecimalFacts.

(** An error of the scanner: [raise_errmsg(msg, pystr, idx)] (or the
    [StopIteration(idx)] that [raw_decode] turns into [Expecting value]),
    given by the input that remains from [idx] on; the [ValueError] of
    [PyLong_FromString] on an integer literal of [n] digits over the
    limit; or a float. *)
Inductive scan_error : Type :=
| ScanDecode (msg : String.string) (rest : pystr)
| ScanIntDigits (n : nat)
| ScanFloat.
Arguments ScanDecode msg%_string rest.

(** Results of the scanner: a value and the rest of the input, an error,
    or the fuel ran out. *)
Inductive presult (A : Type) : Type :=
| POk (a : A) (rest : pystr)
| PErr (e : scan_error)
| POut.
Arguments POk {A} a rest.
Arguments PErr {A} e.
Arguments POut {A}.

(** ** Characters *)

(** [IS_WHITESPACE]: space, tab, newline, carriage return. *)
Definition is_ws (c : Z) : bool :=
  ((c =? 32) || (c =? 9) || (c =? 10) || (c =? 13))%Z.

Fixpoint skip_ws (s : pystr) : pystr :=
  match s with
  | c :: r => if is_ws c then skip_ws r else s
  | [] => []
  end.

Definition head_is (c : Z) (s : pystr) : bool :=
  match s with d :: _ => (d =? c)%Z | [] => false end.

Definition is_digit (c : Z) : bool := ((48 <=? c) && (c <=? 57))%Z.

(** One hex digit of a [\uXXXX] escape, either case. *)
Definition hex_val (d : Z) : option Z :=
  (if (48 <=? d) && (d <=? 57) then Some (d - 48)
   else if (97 <=? d) && (d <=? 102) then Some (d - 87)
   else if (65 <=? d) && (d <=? 70) then Some (d - 55)
   else None)%Z.

(** [c <<= 4; c |= digit] for four digits. *)
Definition hex4_val (a b c d : Z) : option Z :=
  let step acc x := v ← hex_val x; Some (Z.lor (Z.shiftl acc 4) v) in
  acc ← step 0%Z a; acc ← step acc b; acc ← step acc c; step acc d.

Definition is_high_surrogate (u : Z) : bool := ((0xD800 <=? u) && (u <=? 0xDBFF))%Z.
Definition is_low_surrogate (u : Z) : bool := ((0xDC00 <=? u) && (u <=? 0xDFFF))%Z.

(** [Py_UNICODE_JOIN_SURROGATES] *)
Definition join_surrogates (hi lo : Z) : Z :=
  (Z.lor (Z.shiftl (Z.land hi 0x3FF) 10) (Z.land lo 0x3FF) + 0x10000)%Z.

(** The one-character escapes: quote, backslash, slash, [b f n r t]. *)
Definition simple_escape (e : Z) : option Z :=
  (if e =? 34 then Some 34 else if e =? 92 then Some 92
   else if e =? 47 then Some 47 else if e =? 98 then Some 8
   else if e =? 102 then Some 12 else if e =? 110 then Some 10
   else if e =? 114 then Some 13 else if e =? 116 then Some 9
   else None)%Z.

Arguments hex4_val : simpl never.
Arguments simple_escape : simpl never.
Arguments is_high_surrogate : simpl never.
Arguments is_low_surrogate : simpl never.

(** ** Strings *)

Definition cons_str (c : Z) (r : res scan_error (pystr * pystr)) : res scan_error (pystr * pystr) :=
  match r with Ok (t, rest) => Ok (c :: t, rest) | Err e => Err e end.

(** [scanstring_unicode], strict: [q] is the input from the opening quote
    ([begin]), [s] what follows it; the result is the string and what
    follows the closing quote.  Each error is raised where the C code
    raises it: an unterminated string at its quote, a bad [\uXXXX] at
    its [u], an unknown escape at its backslash, a control character at
    itself. *)
Fixpoint scanstring (q s : pystr) : res scan_error (pystr * pystr) :=
  match s with
  | [] => Err (ScanDecode "Unterminated string starting at" q)
  | c :: r =>
      if (c =? 34)%Z then Ok ([], r)
      else if (c =? 92)%Z then
        match r with
        | [] => Err (ScanDecode "Unterminated string starting at" q)
        | e :: r1 =>
            if (e =? 117)%Z then
              match r1 with
              | h1 :: h2 :: h3 :: h4 :: r2 =>
                  match r2, hex4_val h1 h2 h3 h4 with
                  | [], _ => Err (ScanDecode "Invalid \uXXXX escape" r)
                  | _, None => Err (ScanDecode "Invalid \uXXXX escape" r)
                  | _ :: _, Some u =>
                      if is_high_surrogate u && (7 <=? length r2) then
                        match r2 with
                        | b :: v :: k1 :: k2 :: k3 :: k4 :: r3 =>
                            if ((b =? 92) && (v =? 117))%Z then
                              match hex4_val k1 k2 k3 k4 with
                              | None => Err (ScanDecode "Invalid \uXXXX escape" (v :: k1 :: k2 :: k3 :: k4 :: r3))
                              | Some u2 =>
                                  if is_low_surrogate u2
                                  then cons_str (join_surrogates u u2) (scanstring q r3)
                                  else cons_str u (scanstring q r2)
                              end
                            else cons_str u (scanstring q r2)
                        | _ => cons_str u (scanstring q r2)
                        end
                      else cons_str u (scanstring q r2)
                  end
              | _ => Err (ScanDecode "Invalid \uXXXX escape" r)
              end
            else
              match simple_escape e with
              | Some c' => cons_str c' (scanstring q r1)
              | None => Err (ScanDecode "Invalid \escape" s)
              end
        end
      else if (c <=? 0x1F)%Z then Err (ScanDecode "Invalid control character at" s)
      else cons_str c (scanstring q r)
  end.

(** ** Numbers *)

Fixpoint span_digits (s : pystr) : pystr * pystr :=
  match s with
  | c :: r => if is_digit c then let (ds, rest) := span_digits r in (c :: ds, rest) else ([], s)
  | [] => ([], [])
  end.

Definition digit_uint (d : Z) : Decimal.uint -> Decimal.uint :=
  match (d - 48)%Z with
  | 0%Z => Decimal.D0 | 1%Z => Decimal.D1 | 2%Z => Decimal.D2 | 3%Z => Decimal.D3
  | 4%Z => Decimal.D4 | 5%Z => Decimal.D5 | 6%Z => Decimal.D6 | 7%Z => Decimal.D7
  | 8%Z => Decimal.D8 | _ => Decimal.D9
  end.

Fixpoint digits_uint (ds : pystr) : Decimal.uint :=
  match ds with [] => Decimal.Nil | d :: r => digit_uint d (digits_uint r) end.

Definition head_is_digit (s : pystr) : bool :=
  match s with d :: _ => is_digit d | [] => false end.

(** After the integer part: a ['.'] and a digit, or an ['e'] or ['E'] with
    an optional sign (read only when something follows it) and a digit,
    make the literal a float. *)
Definition float_follows (r : pystr) : bool :=
  match r with
  | c :: d :: _ => (c =? 46)%Z && is_digit d
  | _ => false
  end ||
  match r with
  | e :: r1 =>
      ((e =? 101) || (e =? 69))%Z &&
      match r1 with
      | sg :: (_ :: _) as r2 =>
          if ((sg =? 45) || (sg =? 43))%Z then head_is_digit r2 else is_digit sg
      | [d] => is_digit d
      | [] => false
      end
  | [] => false
  end.

(** The integer digits: a single [0], or a non-zero digit and the digits
    after it. *)
Definition int_digits (s1 : pystr) : option (pystr * pystr) :=
  match s1 with
  | [] => None
  | d :: r =>
      if (d =? 48)%Z then Some ([d], r)
      else if ((49 <=? d) && (d <=? 57))%Z then
        let (ds, rest) := span_digits r in Some (d :: ds, rest)
      else None
  end.

(** [_match_number_unicode]: an integer is built by [PyLong_FromString],
    which refuses more than [int_max_str_digits] digits. *)
Definition match_number (s : pystr) : presult json :=
  let (neg, s1) := if head_is 45 s then (true, tail s) else (false, s) in
  match int_digits s1 with
  | None => PErr (ScanDecode "Expecting value" s)
  | Some (ds, rest) =>
      if float_follows rest then PErr ScanFloat
      else if Nat.ltb int_max_str_digits (length ds) then PErr (ScanIntDigits (length ds))
      else
        let u := digits_uint ds in
        POk (JInt (Z.of_int (if neg then Decimal.Neg u else Decimal.Pos u))) rest
  end.

(** ** Values *)

Fixpoint scan_once (fuel : nat) (s : pystr) {struct fuel} : presult json :=
  match fuel with
  | O => POut
  | S f =>
      match s with
      | [] => PErr (ScanDecode "Expecting value" s)
      | c :: r =>
          if (c =? 34)%Z then
            match scanstring s r with
            | Ok (t, r') => POk (JStr t) r'
            | Err e => PErr e
            end
          else if (c =? 123)%Z then
            let r1 := skip_ws r in
            if head_is 125 r1 then POk (JObj []) (tail r1)
            else match parse_members f r1 with
                 | POk kvs r2 => POk (JObj (dict_of_pairs kvs)) r2
                 | PErr e => PErr e
                 | POut => POut
                 end
          else if (c =? 91)%Z then
            let r1 := skip_ws r in
            if head_is 93 r1 then POk (JArr []) (tail r1)
            else match parse_elements f r1 with
                 | POk vs r2 => POk (JArr vs) r2
                 | PErr e => PErr e
                 | POut => POut
                 end
          else if prefixb (str "null") s then POk JNull (drop 4 s)
          else if prefixb (str "true") s then POk (JBool true) (drop 4 s)
          else if prefixb (str "false") s then POk (JBool false) (drop 5 s)
          else if prefixb (str "NaN") s || prefixb (str "Infinity") s
                  || prefixb (str "-Infinity") s then PErr ScanFloat
          else match_number s
      end
  end
(** The members of an object, from the first key on. *)
with parse_members (fuel : nat) (s : pystr) {struct fuel} :
  presult (list (pystr * json)) :=
  match fuel with
  | O => POut
  | S f =>
      if head_is 34 s then
        match scanstring s (tail s) with
        | Err e => PErr e
        | Ok (key, r1) =>
            let r2 := skip_ws r1 in
            if head_is 58 r2 then
              match scan_once f (skip_ws (tail r2)) with
              | POk v r3 =>
                  let r4 := skip_ws r3 in
                  if head_is 125 r4 then POk [(key, v)] (tail r4)
                  else if head_is 44 r4 then
                    match parse_members f (skip_ws (tail r4)) with
                    | POk kvs r5 => POk ((key, v) :: kvs) r5
                    | PErr e => PErr e
                    | POut => POut
                    end
                  else PErr (ScanDecode "Expecting ',' delimiter" r4)
              | PErr e => PErr e
              | POut => POut
              end
            else PErr (ScanDecode "Expecting ':' delimiter" r2)
        end
      else PErr (ScanDecode "Expecting property name enclosed in double quotes" s)
  end
(** The elements of an array, from the first one on. *)
with parse_elements (fuel : nat) (s : pystr) {struct fuel} : presult (list json) :=
  match fuel with
  | O => POut
  | S f =>
      match scan_once f s with
      | POk v r1 =>
          let r2 := skip_ws r1 in
          if head_is 93 r2 then POk [v] (tail r2)
          else if head_is 44 r2 then
            match parse_elements f (skip_ws (tail r2)) with
            | POk vs r3 => POk (v :: vs) r3
            | PErr e => PErr e
            | POut => POut
            end
          else PErr (ScanDecode "Expecting ',' delimiter" r2)
      | PErr e => PErr e
      | POut => POut
      end
  end.

(** The exception of a scanner error in the document [doc]: the position
    [idx] is what precedes the rest of the input at the error. *)
Definition decode_error (doc : pystr) (e : scan_error) : exn :=
  match e with
  | ScanDecode msg rest => JSONDecodeError msg doc (Z.of_nat (length doc - length rest))
  | ScanIntDigits n => IntDigitsError n
  | ScanFloat => FloatNotModelled
  end.

(** [JSONDecoder.decode(s)]: [raw_decode] after the leading whitespace,
    then nothing but whitespace ([Extra data] where something else
    starts). *)
Definition decoder_decode (s : pystr) : res exn json :=
  let s1 := skip_ws s in
  match scan_once (S (2 * length s1)) s1 with
  | POk v r =>
      if bool_decide (skip_ws r = []) then Ok v else Err (decode_error s (ScanDecode "Extra data" (skip_ws r)))
  | PErr e => Err (decode_error s e)
  | POut => Err (decode_error s (ScanDecode "Expecting value" s1))
  end.

(** [json.loads(s)] on a [str]: a leading byte order mark is refused. *)
Definition loads (s : pystr) : res exn json :=
  if head_is 0xFEFF s then Err (JSONDecodeError "Unexpected UTF-8 BOM (decode using utf-8-sig)" s 0%Z)
  else decoder_decode s.

(** [JSONDecodeError.__init__]: [lineno = doc.count('\n', 0, pos) + 1],
    [colno = pos - doc.rfind('\n', 0, pos)], and the text
    ['%s: line %d column %d (char %d)']. *)
Definition decode_error_lineno (doc : pystr) (pos : Z) : Z :=
  Z.of_nat (length (filter (fun c => (c =? 10)%Z) (take (Z.to_nat pos) doc))) + 1.

Definition decode_error_colno (doc : pystr) (pos : Z) : Z :=
  let before := take (Z.to_nat pos) doc in
  pos - match find_index (fun c => (c =? 10)%Z) (rev before) with
        | Some k => Z.of_nat (length before - S k)
        | None => (-1)%Z
        end.

Definition decode_error_text (msg : String.string) (doc : pystr) (pos : Z) : pystr :=
  str msg ++ str ": line " ++ int_repr (decode_error_lineno doc pos) ++ str " column " ++
  int_repr (decode_error_colno doc pos) ++ str " (char " ++ int_repr pos ++ str ")".

Example loads_response :
  loads (jtext "{'jsonrpc': '2.0', 'id': 2, 'result': {'tools': []}}") =
  Ok (JObj [kv "jsonrpc" (jstr "2.0"); kv "id" (JInt 2);
            kv "result" (JObj [kv "tools" (JArr [])])]).
Proof. reflexivity. Qed.

(** The characters after an integer that end it. *)
Definition ends_number (rest : pystr) : bool :=
  negb (head_is_digit rest) && negb (float_follows rest).

(** What may follow a value inside a document: nothing, whitespace, or a
    separator that closes or continues a container. *)
Definition delim_ok (rest : pystr) : bool :=
  match rest with
  | [] => true
  | c :: _ => (is_ws c || (c =? 44) || (c =? 93) || (c =? 125))%Z
  end.

(** The value [v] is read back from its text, whatever delimiter follows,
    given enough fuel. *)
Definition scans_back (v : json) : Prop :=
  forall n rest, 2 * length (dumps v ++ rest) < n -> delim_ok rest = true ->
    scan_once n (dumps v ++ rest) = POk v rest.

(** ** The scanner consumes its input *)

Lemma skip_ws_length s : length (skip_ws s) <= length s.
Proof. induction s as [|c s IH]; simpl; [done|]. case_match; simpl; lia. Qed.

Lemma length_tail_le (s : pystr) : length (tail s) <= length s.
Proof. destruct s; simpl; lia. Qed.

Lemma cons_str_ok c x t r :
  cons_str c x = Ok (t, r) -> exists t', x = Ok (t', r) /\ t = c :: t'.
Proof. unfold cons_str. destruct x as [[t' r']|]; intros H; simplify_eq; eauto. Qed.

Lemma scanstring_shrink q s t r : scanstring q s = Ok (t, r) -> length r < length s.
Proof.
  remember (length s) as n eqn:Hn. revert s t r Hn.
  induction n as [n IH] using lt_wf_ind. intros s t r Hn H.
  destruct s as [|c s]; cbn [scanstring] in H; [discriminate|].
  repeat (case_match; simplify_eq; cbn [length] in *; try lia);
    apply cons_str_ok in H as (t' & Hx & ->);
    (eapply IH in Hx; [|shelve|reflexivity]); cbn [length] in *; lia.
  Unshelve. all: cbn [length] in *; lia.
Qed.

Lemma span_digits_length s ds r : span_digits s = (ds, r) -> length ds + length r = length s.
Proof.
  revert ds r. induction s as [|c s IH]; simpl; intros ds r H; [by simplify_eq|].
  destruct (is_digit c); [|by simplify_eq].
  destruct (span_digits s) as [ds' r'] eqn:E. simplify_eq. simpl. rewrite (IH ds' r) by done. lia.
Qed.

Lemma int_digits_shrink s1 ds rest : int_digits s1 = Some (ds, rest) -> length rest < length s1.
Proof.
  destruct s1 as [|d r1]; simpl; [discriminate|].
  destruct (d =? 48)%Z; [intros; simplify_eq; simpl; lia|].
  destruct (_ && _); [|discriminate].
  destruct (span_digits r1) as [ds' r'] eqn:E. intros; simplify_eq.
  apply span_digits_length in E. simpl. lia.
Qed.

Lemma match_number_shrink s v r : match_number s = POk v r -> length r < length s.
Proof.
  unfold match_number. pose proof (length_tail_le s) as Ht.
  destruct (head_is 45 s); destruct (int_digits _) as [[ds rest]|] eqn:E; try discriminate;
    destruct (float_follows rest); try done; destruct (Nat.ltb _ _); intros Hm; simplify_eq;
    apply int_digits_shrink in E; lia.
Qed.
(** The length facts of every [skip_ws] and [tail] in the context. *)
Ltac add_len_facts :=
  repeat match goal with
  | H : context [skip_ws ?x] |- _ =>
      lazymatch goal with
      | _ : length (skip_ws x) <= length x |- _ => fail
      | _ => pose proof (skip_ws_length x)
      end
  | H : context [tail ?x] |- _ =>
      lazymatch goal with
      | _ : length (tail x) <= length x |- _ => fail
      | _ => pose proof (length_tail_le x)
      end
  | |- context [skip_ws ?x] =>
      lazymatch goal with
      | _ : length (skip_ws x) <= length x |- _ => fail
      | _ => pose proof (skip_ws_length x)
      end
  | |- context [tail ?x] =>
      lazymatch goal with
      | _ : length (tail x) <= length x |- _ => fail
      | _ => pose proof (length_tail_le x)
      end
  end.

Lemma scan_shrink n :
  (forall s v r, scan_once n s = POk v r -> length r < length s) /\
  (forall s kvs r, parse_members n s = POk kvs r -> length r < length s) /\
  (forall s vs r, parse_elements n s = POk vs r -> length r < length s).
Proof.
  induction n as [|f (IHv & IHm & IHe)]; [repeat split; intros; discriminate|].
  repeat split.
  - intros s v r H. destruct s as [|c s]; cbn [scan_once] in H; [discriminate|].
    repeat case_match; simplify_eq;
      repeat match goal with
      | E : scanstring _ _ = Ok _ |- _ => apply scanstring_shrink in E
      | E : match_number _ = POk _ _ |- _ => apply match_number_shrink in E
      | E : parse_members _ _ = POk _ _ |- _ => apply IHm in E
      | E : parse_elements _ _ = POk _ _ |- _ => apply IHe in E
      end; add_len_facts; rewrite ?length_drop; cbn [length] in *; lia.
  - intros s kvs r H. cbn [parse_members] in H.
    repeat case_match; simplify_eq;
      repeat match goal with
      | E : scanstring _ _ = Ok _ |- _ => apply scanstring_shrink in E
      | E : scan_once _ _ = POk _ _ |- _ => apply IHv in E
      | E : parse_members _ _ = POk _ _ |- _ => apply IHm in E
      end; add_len_facts; lia.
  - intros s vs r H. cbn [parse_elements] in H.
    repeat case_match; simplify_eq;
      repeat match goal with
      | E : scan_once _ _ = POk _ _ |- _ => apply IHv in E
      | E : parse_elements _ _ = POk _ _ |- _ => apply IHe in E
      end; add_len_facts; lia.
Qed.

(** ** The fuel of [loads] is enough *)

Lemma match_number_not_out s : match_number s <> POut.
Proof. unfold match_number. repeat case_match; discriminate. Qed.

Ltac len_saturate Sv Sm Se :=
  repeat match goal with
  | E : scanstring _ _ = Ok _ |- _ => apply scanstring_shrink in E
  | E : match_number _ = POk _ _ |- _ => apply match_number_shrink in E
  | E : scan_once _ _ = POk _ _ |- _ => apply Sv in E
  | E : parse_members _ _ = POk _ _ |- _ => apply Sm in E
  | E : parse_elements _ _ = POk _ _ |- _ => apply Se in E
  end; add_len_facts; cbn [length] in *.

Lemma scan_fuel n :
  (forall s, 2 * length s < n -> scan_once n s <> POut) /\
  (forall s, 2 * length s + 1 < n -> parse_members n s <> POut) /\
  (forall s, 2 * length s + 1 < n -> parse_elements n s <> POut).
Proof.
  induction n as [|f (IHv & IHm & IHe)]; [repeat split; intros; lia|].
  destruct (scan_shrink f) as (Sv & Sm & Se).
  repeat split.
  - intros s Hs. destruct s as [|c s]; cbn [scan_once]; [discriminate|].
    repeat case_match; simplify_eq; try discriminate; try apply match_number_not_out;
      match goal with
      | E : parse_members _ ?x = POut |- _ => exfalso; apply (IHm x); [|exact E]
      | E : parse_elements _ ?x = POut |- _ => exfalso; apply (IHe x); [|exact E]
      end; len_saturate Sv Sm Se; lia.
  - intros s Hs. cbn [parse_members].
    repeat case_match; simplify_eq; try discriminate;
      match goal with
      | E : scan_once _ ?x = POut |- _ => exfalso; apply (IHv x); [|exact E]
      | E : parse_members _ ?x = POut |- _ => exfalso; apply (IHm x); [|exact E]
      end; len_saturate Sv Sm Se; lia.
  - intros s Hs. cbn [parse_elements].
    repeat case_match; simplify_eq; try discriminate;
      match goal with
      | E : scan_once _ ?x = POut |- _ => exfalso; apply (IHv x); [|exact E]
      | E : parse_elements _ ?x = POut |- _ => exfalso; apply (IHe x); [|exact E]
      end; len_saturate Sv Sm Se; lia.
Qed.

(** C20. Termination of [json.loads]: the fuel [2 * length s + 1] that
    [loads] gives the scanner is never exhausted, on any input. *)
Theorem loads_fuel_enough (s : pystr) : scan_once (S (2 * length s)) s <> POut.
Proof. apply (proj1 (scan_fuel _)). lia. Qed.

(** ** Reading back what [json.dumps] writes: strings *)

Lemma hex_val_hexdigit n : (0 <= n < 16)%Z -> hex_val (hexdigit n) = Some n.
Proof. intros Hn. unfold hex_val, hexdigit. zcase; f_equal; lia. Qed.

Lemma lor_shift4 acc n : (0 <= n < 16)%Z -> Z.lor (Z.shiftl acc 4) n = (acc * 16 + n)%Z.
Proof. intros Hn. rewrite shiftl_mul by lia. apply (lor_add_low _ _ 4); [lia| |done]. by rewrite Z.mod_mul. Qed.

(** The four digits of [hex4 v] read back as [v]. *)
Lemma hex4_val_hex4 v : (0 <= v < 65536)%Z ->
  exists h1 h2 h3 h4, hex4 v = [h1; h2; h3; h4] /\ hex4_val h1 h2 h3 h4 = Some v.
Proof.
  intros Hv. eexists _, _, _, _. split; [reflexivity|].
  unfold hex4_val. rewrite !hex_val_hexdigit by apply land_15_bound. cbn -[Z.lor Z.shiftl Z.land].
  rewrite !lor_shift4 by (rewrite ?land_15; apply Z.mod_pos_bound; lia).
  rewrite !land_15, !shiftr_div by lia. f_equal. zlia.
Qed.

Lemma surrogates_of c : (0x10000 <= c <= 0x10FFFF)%Z ->
  is_high_surrogate (high_surrogate c) = true /\
  is_low_surrogate (low_surrogate c) = true /\
  (0 <= high_surrogate c < 65536)%Z /\ (0 <= low_surrogate c < 65536)%Z /\
  join_surrogates (high_surrogate c) (low_surrogate c) = c.
Proof.
  intros Hc. unfold is_high_surrogate, is_low_surrogate, join_surrogates,
    high_surrogate, low_surrogate.
  rewrite !land_1023, !shiftr_div by lia. change (0x10000 / 2 ^ 10)%Z with 64%Z.
  rewrite shiftl_mul by lia.
  rewrite (lor_add_low _ _ 10); [|lia|by rewrite Z.mod_mul|apply Z.mod_pos_bound; lia].
  repeat split; try zlia; zcase; done.
Qed.

Lemma scanstring_escape q c r :
  scalar c = true -> r <> [] -> scanstring q (escape_char c ++ r) = cons_str c (scanstring q r).
Proof.
  intros Hc Hr. unfold scalar in Hc. apply andb_true_iff in Hc as [Hc Hns].
  apply andb_true_iff in Hc as [H0 H1]. apply Z.leb_le in H0. apply Z.leb_le in H1.
  unfold escape_char. destruct (s_char c) eqn:Hs.
  { unfold s_char in Hs. repeat (apply andb_true_iff in Hs as [Hs ?]).
    apply negb_true_iff, Z.eqb_neq in H, H2. apply Z.leb_le in Hs, H3.
    cbn [app scanstring]. zcase. reflexivity. }
  unfold ascii_escape_unichar.
  destruct (Z.eqb_spec c 92) as [->|]; [reflexivity|].
  destruct (Z.eqb_spec c 34) as [->|]; [reflexivity|].
  destruct (Z.eqb_spec c 8) as [->|]; [reflexivity|].
  destruct (Z.eqb_spec c 12) as [->|]; [reflexivity|].
  destruct (Z.eqb_spec c 10) as [->|]; [reflexivity|].
  destruct (Z.eqb_spec c 13) as [->|]; [reflexivity|].
  destruct (Z.eqb_spec c 9) as [->|]; [reflexivity|].
  destruct r as [|z r]; [done|].
  destruct (Z.leb_spec 0x10000 c).
  - destruct (surrogates_of c) as (Hhi & Hlo & Bh & Bl & Hj); [lia|].
    destruct (hex4_val_hex4 _ Bh) as (h1 & h2 & h3 & h4 & -> & Hv).
    destruct (hex4_val_hex4 _ Bl) as (k1 & k2 & k3 & k4 & -> & Hw).
    simpl. rewrite Hv, Hhi. simpl. rewrite Hw, Hlo, Hj. reflexivity.
  - destruct (hex4_val_hex4 c) as (h1 & h2 & h3 & h4 & -> & Hv); [lia|].
    simpl. rewrite Hv.
    assert (is_high_surrogate c = false) as ->.
    { unfold is_high_surrogate. apply negb_true_iff in Hns. zcase; done. }
    reflexivity.
Qed.

(** A string written by [c_encode_basestring_ascii] is read back by
    [scanstring], and the scan stops after its closing quote. *)
Lemma scanstring_encoded q s r :
  str_wf s = true -> scanstring q (flat_map escape_char s ++ 34%Z :: r) = Ok (s, r).
Proof.
  induction s as [|c s IH]; simpl; intros Hw; [reflexivity|].
  apply andb_true_iff in Hw as [Hc Hs].
  rewrite <- app_assoc, scanstring_escape by (done || by destruct (flat_map _ _)).
  by rewrite IH.
Qed.

(** ** Reading back what [json.dumps] writes: integers *)

(** [Pos.to_uint] has no leading zero. *)
Lemma to_uint_no_D0 p u : Pos.to_uint p <> Decimal.D0 u.
Proof.
  intros Hp. pose proof (DecimalPos.Unsigned.to_of (Pos.to_uint p)) as H.
  rewrite DecimalPos.Unsigned.of_to in H. change (N.to_uint (N.pos p)) with (Pos.to_uint p) in H.
  assert (Decimal.nzhead (Pos.to_uint p) = Decimal.Nil \/
          Decimal.nzhead (Pos.to_uint p) <> Decimal.Nil) as [Hn|Hn]
    by (destruct (Decimal.nzhead _); [left|right..]; congruence).
  - apply DecimalFacts.unorm_0 in Hn. rewrite Hn in H.
    by apply (DecimalPos.Unsigned.to_uint_nonzero p).
  - rewrite DecimalFacts.unorm_nzhead in H by done.
    rewrite Hp in H. by apply (DecimalFacts.nzhead_nonzero (Decimal.D0 u) u).
Qed.

Lemma digits_uint_chars u : digits_uint (uint_chars u) = u.
Proof. induction u; simpl; by f_equal. Qed.

Lemma span_digits_chars u rest :
  head_is_digit rest = false -> span_digits (uint_chars u ++ rest) = (uint_chars u, rest).
Proof.
  intros Hr. induction u; simpl; rewrite ?IHu; try reflexivity.
  destruct rest as [|c rest]; [done|]. simpl in Hr. simpl. by rewrite Hr.
Qed.

Lemma int_digits_repr p rest :
  head_is_digit rest = false ->
  int_digits (uint_chars (Pos.to_uint p) ++ rest) = Some (uint_chars (Pos.to_uint p), rest).
Proof.
  intros Hr. pose proof (to_uint_no_D0 p) as H0. pose proof (DecimalPos.Unsigned.to_uint_nonnil p).
  destruct (Pos.to_uint p) as [|u|u|u|u|u|u|u|u|u|u]; try done; [by destruct (H0 u)|..];
    cbn [uint_chars app int_digits]; simpl; by rewrite span_digits_chars.
Qed.

(** [_match_number_unicode] reads back [int.__repr__]: the decimal
    text of any integer within the digit limit, followed by a character
    that cannot continue a number, is scanned as that integer. *)
Lemma match_number_repr z rest :
  (int_ndigits z <= int_max_str_digits)%nat ->
  ends_number rest = true -> match_number (int_repr z ++ rest) = POk (JInt z) rest.
Proof.
  unfold ends_number. intros Hn [Hd Hf]%andb_true_iff.
  apply negb_true_iff in Hd, Hf. unfold match_number, int_repr.
  unfold int_ndigits in Hn. destruct z as [|p|p]; simpl in Hn |- *.
  - rewrite Hf. reflexivity.
  - assert (head_is 45 (uint_chars (Pos.to_uint p) ++ rest) = false) as ->.
    { pose proof (to_uint_no_D0 p). pose proof (DecimalPos.Unsigned.to_uint_nonnil p).
      by destruct (Pos.to_uint p). }
    rewrite int_digits_repr, Hf by done. cbn zeta iota.
    rewrite length_uint_chars, (proj2 (Nat.ltb_ge _ _) Hn). simpl. rewrite digits_uint_chars.
    pose proof (DecimalZ.of_to (Z.pos p)) as E. simpl in E. by rewrite E.
  - rewrite int_digits_repr, Hf by done. cbn zeta iota.
    rewrite length_uint_chars, (proj2 (Nat.ltb_ge _ _) Hn). simpl. rewrite digits_uint_chars.
    pose proof (DecimalZ.of_to (Z.neg p)) as E. simpl in E. by rewrite E.
Qed.

(** ** Reading back what [json.dumps] writes: values *)

Lemma delim_ends_number rest : delim_ok rest = true -> ends_number rest = true.
Proof.
  unfold ends_number, float_follows, head_is_digit, is_digit.
  destruct rest as [|c rest]; [done|]. unfold delim_ok, is_ws. intros H.
  repeat (apply orb_true_iff in H as [H|H]); apply Z.eqb_eq in H; subst;
    destruct rest as [|? [|? ?]]; reflexivity.
Qed.

Ltac fold_lits :=
  change (str "[") with [91%Z] in *; change (str "]") with [93%Z] in *;
  change (str "{") with [123%Z] in *; change (str "}") with [125%Z] in *;
  change (str "[]") with [91%Z; 93%Z] in *; change (str "{}") with [123%Z; 125%Z] in *;
  change (str ", ") with [44%Z; 32%Z] in *; change (str ": ") with [58%Z; 32%Z] in *;
  change (str "null") with [110%Z; 117%Z; 108%Z; 108%Z] in *;
  change (str "true") with [116%Z; 114%Z; 117%Z; 101%Z] in *;
  change (str "false") with [102%Z; 97%Z; 108%Z; 115%Z; 101%Z] in *;
  change (str "NaN") with [78%Z; 97%Z; 78%Z] in *;
  change (str "Infinity") with [73%Z; 110%Z; 102%Z; 105%Z; 110%Z; 105%Z; 116%Z; 121%Z] in *;
  change (str "-Infinity") with [45%Z; 73%Z; 110%Z; 102%Z; 105%Z; 110%Z; 105%Z; 116%Z; 121%Z] in *.

(** The decimal text of an integer starts with a digit, or with a minus
    sign and a digit. *)
Lemma int_repr_head z :
  exists c t, int_repr z = c :: t /\
    (is_digit c = true \/ (c = 45%Z /\ head_is_digit t = true)).
Proof.
  assert (forall p, exists c t, uint_chars (Pos.to_uint p) = c :: t /\ is_digit c = true) as Hp.
  { intros p. pose proof (DecimalPos.Unsigned.to_uint_nonnil p).
    destruct (Pos.to_uint p); try done; eexists _, _; split; reflexivity. }
  unfold int_repr. destruct z as [|p|p]; simpl.
  - eexists _, _. split; [reflexivity|]. by left.
  - destruct (Hp p) as (c & t & -> & Hc). eauto.
  - destruct (Hp p) as (c & t & -> & Hc). eexists _, _. split; [reflexivity|].
    right. split; [done|]. exact Hc.
Qed.

Lemma dumps_head v :
  exists c t, dumps v = c :: t /\ is_ws c = false /\ c <> 93%Z /\ c <> 125%Z /\ c <> 44%Z.
Proof.
  destruct v as [|[]|z|s|[|x l]|[|kv kvs]]; cbn [dumps]; fold_lits;
    try (eexists _, _; split; [reflexivity|]; split; [reflexivity|]; lia).
  - destruct (int_repr_head z) as (c & t & -> & [Hc|[-> _]]).
    + unfold is_digit in Hc. apply andb_true_iff in Hc as [H1 H2].
      apply Z.leb_le in H1, H2. eexists _, _. split; [reflexivity|].
      unfold is_ws. zcase. repeat split; lia.
    + eexists _, _. split; [reflexivity|]. split; [reflexivity|]. lia.
Qed.

Lemma dumps_not_close v rest : head_is 93 (dumps v ++ rest) = false.
Proof.
  destruct (dumps_head v) as (c & t & -> & _ & H93 & _). simpl. by apply Z.eqb_neq.
Qed.

Lemma skip_ws_dumps v rest : skip_ws (dumps v ++ rest) = dumps v ++ rest.
Proof. destruct (dumps_head v) as (c & t & -> & Hc & _). simpl. by rewrite Hc. Qed.

Lemma dumps_length_pos v : 1 <= length (dumps v).
Proof. destruct (dumps_head v) as (c & t & -> & _). simpl. lia. Qed.

Lemma elements_back x l rest n :
  Forall scans_back (x :: l) ->
  2 * length (dumps x ++ flat_map (fun y => str ", " ++ dumps y) l ++ str "]" ++ rest) + 1 < n ->
  parse_elements n (dumps x ++ flat_map (fun y => str ", " ++ dumps y) l ++ str "]" ++ rest)
  = POk (x :: l) rest.
Proof.
  revert x n. induction l as [|y l IH]; intros x n Hall Hn;
    destruct n as [|f]; try lia; cbn [parse_elements]; fold_lits;
    apply Forall_cons in Hall as [Hx Hall]; cbn [flat_map app] in *.
  - rewrite Hx by (len_lia || reflexivity). reflexivity.
  - rewrite Hx by (len_lia || reflexivity).
    simpl. rewrite <- app_assoc, skip_ws_dumps.
    rewrite IH; [reflexivity|done|]. pose proof (dumps_length_pos x).
    len_lia.
Qed.

Lemma encode_head s r : head_is 34 (encode_basestring_ascii s ++ r) = true.
Proof. reflexivity. Qed.

Lemma encode_skip_ws s r :
  skip_ws (encode_basestring_ascii s ++ r) = encode_basestring_ascii s ++ r.
Proof. reflexivity. Qed.

Lemma encode_tail s r :
  tail (encode_basestring_ascii s ++ r) = flat_map escape_char s ++ 34%Z :: r.
Proof. unfold encode_basestring_ascii. simpl. by rewrite <- app_assoc. Qed.

Lemma encode_not_close s r : head_is 125 (encode_basestring_ascii s ++ r) = false.
Proof. reflexivity. Qed.

(** Evaluate the scanner's tests on literal characters. *)
Ltac scan_lits := cbn [skip_ws head_is tail is_ws orb andb Z.eqb Pos.eqb negb].

Lemma members_back k v kvs rest n :
  Forall (fun kv => str_wf kv.1 = true /\ scans_back kv.2) ((k, v) :: kvs) ->
  2 * length (encode_basestring_ascii k ++ str ": " ++ dumps v ++
     flat_map (fun kv => str ", " ++ encode_basestring_ascii kv.1 ++ str ": " ++ dumps kv.2) kvs
     ++ str "}" ++ rest) + 1 < n ->
  parse_members n (encode_basestring_ascii k ++ str ": " ++ dumps v ++
     flat_map (fun kv => str ", " ++ encode_basestring_ascii kv.1 ++ str ": " ++ dumps kv.2) kvs
     ++ str "}" ++ rest) = POk ((k, v) :: kvs) rest.
Proof.
  revert k v n. induction kvs as [|[k' v'] kvs IH]; intros k v n Hall Hn;
    destruct n as [|f]; try lia; cbn [parse_members]; fold_lits;
    apply Forall_cons in Hall as [[Hk Hv] Hall]; cbn [flat_map app fst snd] in *;
    rewrite encode_head, encode_tail;
    rewrite scanstring_encoded by done; scan_lits; rewrite skip_ws_dumps.
  - rewrite Hv by (len_lia || reflexivity). reflexivity.
  - rewrite Hv by (len_lia || reflexivity). scan_lits.
    rewrite <- !app_assoc. cbn [app]. rewrite encode_skip_ws.
    rewrite IH; [reflexivity|done|]. pose proof (dumps_length_pos v). len_lia.
Qed.

(** The dispatch of [scan_once_unicode] sends an integer's text to
    [_match_number_unicode]. *)
Lemma scan_once_int f z rest :
  (int_ndigits z <= int_max_str_digits)%nat ->
  ends_number rest = true -> scan_once (S f) (int_repr z ++ rest) = POk (JInt z) rest.
Proof.
  intros Hn He. rewrite <- (match_number_repr z rest Hn He).
  destruct (int_repr_head z) as (c & t & Heq & [Hc|[-> Ht]]); rewrite Heq; cbn [scan_once app].
  - unfold is_digit in Hc. apply andb_true_iff in Hc as [H1 H2]. apply Z.leb_le in H1, H2.
    zcase. fold_lits. simpl. rewrite !(bool_decide_eq_false_2 (_ = c)) by lia. reflexivity.
  - destruct t as [|d t]; [discriminate|]. unfold head_is_digit, is_digit in Ht.
    apply andb_true_iff in Ht as [H1 H2]. apply Z.leb_le in H1, H2.
    fold_lits. simpl. rewrite !(bool_decide_eq_false_2 (_ = d)) by lia. reflexivity.
Qed.

(** The scanner reads back, as the same value, what [json.dumps] writes,
    for every well-formed value (strings of Unicode scalar values, dicts
    with distinct keys), followed by any delimiter, given the fuel [loads]
    provides. *)
Lemma dumps_scans_back v : json_wf v = true -> scans_back v.
Proof.
  induction v as [|b|z|s|l IH|kvs IH] using json_ind'; intros Hw n rest Hn Hd;
    destruct n as [|f]; try lia; cbn [dumps] in *.
  - fold_lits. reflexivity.
  - destruct b; fold_lits; reflexivity.
  - apply scan_once_int; [by apply Nat.leb_le|by apply delim_ends_number].
  - unfold encode_basestring_ascii. cbn [app scan_once]. simpl.
    rewrite <- app_assoc. cbn [app]. by rewrite scanstring_encoded.
  - destruct l as [|x l]; fold_lits; [destruct rest as [|? ?]; reflexivity|].
    cbn [scan_once app]. scan_lits.
    rewrite <- !app_assoc, skip_ws_dumps, dumps_not_close.
    cbn [json_wf] in Hw. rewrite elements_back; [reflexivity| |fold_lits; len_lia].
    apply Forall_forall. intros y Hy. rewrite Forall_forall in IH.
    apply IH; [done|]. apply forallb_forall with (x := y) in Hw; [done|].
    by apply list_elem_of_In.
  - destruct kvs as [|[k v] kvs]; fold_lits; [destruct rest as [|? ?]; reflexivity|].
    cbn [scan_once app]. scan_lits. cbn [json_wf] in Hw.
    apply andb_true_iff in Hw as [Hnd Hall]. apply bool_decide_eq_true in Hnd.
    rewrite <- !app_assoc, encode_skip_ws, encode_not_close.
    pose proof (members_back k v kvs rest f) as HM. fold_lits. cbn [app] in HM.
    cbn [fst snd app] in *. rewrite <- ?app_assoc. cbn [app]. rewrite HM; [by rewrite dict_of_pairs_NoDup| |len_lia].
    apply Forall_forall. intros kv Hkv. rewrite Forall_forall in IH.
    apply forallb_forall with (x := kv) in Hall; [|by apply list_elem_of_In].
    apply andb_true_iff in Hall as [Hk Hv]. split; [done|]. by apply IH.
Qed.

Lemma dumps_not_bom v : head_is 0xFEFF (dumps v) = false.
Proof.
  pose proof (dumps_printable v) as Hp.
  destruct (dumps v) as [|c t]; [done|]. apply Forall_cons in Hp as [Hc _].
  unfold printable in Hc. apply andb_true_iff in Hc as [_ Hc]. apply Z.leb_le in Hc.
  simpl. apply Z.eqb_neq. lia.
Qed.

Lemma loads_dumps_text v : json_wf v = true -> loads (dumps v) = Ok v.
Proof.
  intros Hw. unfold loads, decoder_decode. rewrite dumps_not_bom.
  rewrite <- (app_nil_r (dumps v)), skip_ws_dumps.
  rewrite (dumps_scans_back v Hw); [reflexivity| |reflexivity]. len_lia.
Qed.

Lemma skip_ws_app ws s : forallb is_ws ws = true -> skip_ws (ws ++ s) = skip_ws s.
Proof. induction ws as [|c ws IH]; cbn; [done|]. intros [-> ?]%andb_true_iff. by apply IH. Qed.

Lemma head_ws_dumps ws v rest : forallb is_ws ws = true -> head_is 0xFEFF (ws ++ dumps v ++ rest) = false.
Proof.
  destruct ws as [|c ws]; cbn.
  - intros _. pose proof (dumps_not_bom v) as Hb.
    destruct (dumps_head v) as (c & t & Heq & _). rewrite Heq in Hb |- *. exact Hb.
  - intros [Hc _]%andb_true_iff. apply Z.eqb_neq. intros ->. cbn in Hc. discriminate.
Qed.

Lemma delim_ok_ws ws : forallb is_ws ws = true -> delim_ok ws = true.
Proof. destruct ws as [|c ws]; cbn; [done|]. by intros [-> _]%andb_true_iff. Qed.

(** C1. [json.loads] reads back, as the same value, what [json.dumps]
    writes, for every well-formed value (strings of Unicode scalar values,
    dicts with distinct keys), and whatever JSON whitespace surrounds the
    text (the newline [send_request] adds, for one). *)
Theorem loads_dumps v ws ws' :
  json_wf v = true -> forallb is_ws ws = true -> forallb is_ws ws' = true ->
  loads (ws ++ dumps v ++ ws') = Ok v.
Proof.
  intros Hw Hws Hws'. unfold loads, decoder_decode. rewrite head_ws_dumps by done.
  rewrite skip_ws_app, skip_ws_dumps by done.
  rewrite (dumps_scans_back v Hw); [|len_lia|by apply delim_ok_ws].
  rewrite <- (app_nil_r ws'), skip_ws_app by done. by rewrite bool_decide_eq_true_2.
Qed.

(** Where the round trip needs well-formedness: a string holding the
    two surrogate code points U+D83D U+DE00 is written as two [\uXXXX]
    escapes, which [json.loads] joins into the single code point
    U+1F600. *)
Example loads_dumps_surrogates :
  loads (dumps (JStr [0xD83D; 0xDE00]%Z)) = Ok (JStr [0x1F600%Z]) /\
  JStr [0xD83D; 0xDE00]%Z <> JStr [0x1F600%Z].
Proof. split; [vm_compute; reflexivity|discriminate]. Qed.

Lemma loads_dumps_witness :
  loads ([32; 9]%Z ++ dumps (JObj [kv "a" (JArr [JInt (-12); JStr [0xE9; 0x1F600]%Z; JNull; JBool true])]) ++ [13; 10]%Z)
    = Ok (JObj [kv "a" (JArr [JInt (-12); JStr [0xE9; 0x1F600]%Z; JNull; JBool true])]).
Proof. apply loads_dumps; vm_compute; reflexivity. Defined.

(** ** Error positions *)

(** The document of a [JSONDecodeError] raised by [json.loads(s)] is [s]. *)
Lemma loads_error_doc s msg doc pos :
  loads s = Err (JSONDecodeError msg doc pos) -> doc = s.
Proof. unfold loads, decoder_decode, decode_error. intros H. by repeat case_match; simplify_eq. Qed.

(** In a document without a newline, an error is on line 1, in the
    column after its position. *)
Lemma decode_error_one_line msg doc pos : 10%Z ∉ doc ->
  decode_error_text msg doc pos =
    str msg ++ str ": line 1 column " ++ int_repr (pos + 1) ++ str " (char " ++ int_repr pos ++ str ")".
Proof.
  intros Hnl%no_nl_forall. apply (Forall_take _ (Z.to_nat pos)) in Hnl.
  unfold decode_error_text, decode_error_lineno, decode_error_colno.
  rewrite filter_none, find_index_None by (try apply Forall_rev; exact Hnl).
  by replace (pos - -1)%Z with (pos + 1)%Z by lia.
Qed.
