(* ===== verification/Codec.v ===== *)
(** * The line framing of [send_request] (lines 120-126)

    Outbound, [send_request] writes [(json.dumps(request) + '\n').encode()]
    ([encode_request_line]); inbound, it reads one line and parses
    [json.loads(response_line.decode().strip())] ([decode_response_line]).
    [str.strip()] removes the characters of [str.isspace] at both ends:
    the ASCII whitespace, the separators [\x1c]-[\x1f], and the Unicode
    spaces and line separators ([py_isspace]).

    The theorems: the bytes written are the JSON text followed by one
    newline, and the text holds no other newline, so a request is exactly
    one line of the pipe; and a line that carries [json.dumps(v)] is decoded
    as [v] (the line round trip, from the UTF-8 and JSON round trips). *)

From S2P Require Import Prelude Json Utf8 JsonDump JsonLoad.

(** ** [str.strip()] *)

(** [str.isspace()] of one code point. *)
Definition py_isspace (c : Z) : bool :=
  (((9 <=? c) && (c <=? 13)) || ((0x1C <=? c) && (c <=? 0x20)) ||
   (c =? 0x85) || (c =? 0xA0) || (c =? 0x1680) ||
   ((0x2000 <=? c) && (c <=? 0x200A)) || (c =? 0x2028) || (c =? 0x2029) ||
   (c =? 0x202F) || (c =? 0x205F) || (c =? 0x3000))%Z.

Fixpoint lstrip (s : pystr) : pystr :=
  match s with
  | c :: r => if py_isspace c then lstrip r else s
  | [] => []
  end.

(** [s.strip()] *)
Definition py_strip (s : pystr) : pystr := rev (lstrip (rev (lstrip s))).

(** ** The two halves of [send_request] *)

(** [(json.dumps(request) + '\n').encode()] *)
Definition encode_request_line (request : json) : res exn (list Z) :=
  str_encode (dumps request ++ [10%Z]).

(** [json.loads(response_line.decode().strip())] *)
Definition decode_response_line (line : list Z) : res exn json :=
  (let? s := bytes_decode line in loads (py_strip s))%py.

(** ** Lemmas *)

Lemma printable_ascii c : printable c = true -> ascii_cp c = true.
Proof.
  unfold printable, ascii_cp. intros [H1 H2]%andb_true_iff.
  apply Z.leb_le in H1, H2. zcase; done.
Qed.

Lemma printable_isspace c : printable c = true -> py_isspace c = (c =? 32)%Z.
Proof.
  unfold printable, py_isspace. intros [H1 H2]%andb_true_iff.
  apply Z.leb_le in H1, H2. zcase; done.
Qed.

Lemma dumps_ascii v : forallb ascii_cp (dumps v) = true.
Proof.
  apply forallb_forall. intros c Hc. apply printable_ascii.
  pose proof (dumps_printable v) as Hp. rewrite Forall_forall in Hp.
  apply Hp. by apply list_elem_of_In.
Qed.

(** The text of a value ends with a character that is not a space. *)
Lemma dumps_last v : exists c, last (dumps v) = Some c /\ c <> 32%Z.
Proof.
  destruct v as [|[]|z|s|[|x l]|[|kv kvs]]; cbn [dumps]; fold_lits;
    try (eexists; split; [reflexivity|lia]).
  - unfold int_repr. pose proof (uint_chars_digits (match Z.to_int z with
      Decimal.Pos u => u | Decimal.Neg u => u end)) as Hd.
    assert (uint_chars (match Z.to_int z with Decimal.Pos u => u | Decimal.Neg u => u end) <> [])
      as Hne by (destruct z; simpl; [done| |]; pose proof (DecimalPos.Unsigned.to_uint_nonnil p);
                 by destruct (Pos.to_uint p)).
    destruct (exists_last Hne) as (t & c & Ht). rewrite Ht in Hd.
    apply Forall_app in Hd as [_ Hc]. apply Forall_cons in Hc as [Hc _].
    exists c. split; [|lia].
    destruct (Z.to_int z); simpl in Ht; rewrite Ht; [|rewrite app_comm_cons]; apply last_snoc.
  - unfold encode_basestring_ascii. rewrite app_assoc, last_snoc. eauto with lia.
  - rewrite !app_assoc, last_snoc. eauto with lia.
  - rewrite !app_assoc, last_snoc. eauto with lia.
Qed.

Lemma lstrip_keep c r : py_isspace c = false -> lstrip (c :: r) = c :: r.
Proof. simpl. by intros ->. Qed.

(** [strip] removes the newline that ends a line holding a JSON text. *)
Lemma py_strip_dumps_line v : py_strip (dumps v ++ [10%Z]) = dumps v.
Proof.
  unfold py_strip.
  destruct (dumps_head v) as (c & t & Hct & Hws & _).
  pose proof (dumps_printable v) as Hp.
  destruct (dumps_last v) as (c' & Hlast & Hc'). apply last_Some in Hlast as [t' Hlast].
  assert (py_isspace c = false) as Hc.
  { rewrite Hct in Hp. apply Forall_cons in Hp as [Hp _].
    rewrite printable_isspace by done. unfold is_ws in Hws. apply Z.eqb_neq.
    intros ->. discriminate. }
  assert (py_isspace c' = false) as Hc2.
  { rewrite Hlast in Hp. apply Forall_app in Hp as [_ Hp]. apply Forall_cons in Hp as [Hp _].
    rewrite printable_isspace by done. by apply Z.eqb_neq. }
  assert (lstrip (dumps v ++ [10%Z]) = dumps v ++ [10%Z]) as ->.
  { rewrite Hct. simpl. by rewrite Hc. }
  rewrite Hlast.
  rewrite <- app_assoc. simpl app.
  rewrite rev_app_distr. simpl. rewrite Hc2. simpl. by rewrite rev_involutive.
Qed.

Lemma encode_request_line_ok request : encode_request_line request = Ok (dumps request ++ [10%Z]).
Proof. unfold encode_request_line. apply str_encode_ok, utf8_encode_ascii. by rewrite forallb_app, dumps_ascii. Qed.

Lemma dumps_no_newline v : 10%Z ∉ dumps v.
Proof.
  intros Hin. pose proof (dumps_printable v) as Hp. rewrite Forall_forall in Hp.
  apply Hp in Hin. discriminate.
Qed.

Lemma decode_dumps_line v : json_wf v = true -> decode_response_line (dumps v ++ [10%Z]) = Ok v.
Proof.
  intros Hw. unfold decode_response_line.
  rewrite (bytes_decode_ok _ (dumps v ++ [10%Z])) by (apply utf8_decode_ascii; by rewrite forallb_app, dumps_ascii).
  cbn [res_bind]. rewrite py_strip_dumps_line. by apply loads_dumps_text.
Qed.

Lemma lstrip_elem x s : x ∈ lstrip s -> x ∈ s.
Proof. induction s as [|c s IH]; simpl; [done|]. case_match; [|done]. intros. apply elem_of_cons. auto. Qed.

Lemma py_strip_elem x s : x ∈ py_strip s -> x ∈ s.
Proof.
  unfold py_strip. intros H.
  rewrite list_elem_of_In, <- in_rev, <- list_elem_of_In in H. apply lstrip_elem in H.
  rewrite list_elem_of_In, <- in_rev, <- list_elem_of_In in H. by apply lstrip_elem.
Qed.

Lemma lstrip_app_space c s : py_isspace c = true ->
  lstrip (s ++ [c]) = match lstrip s with [] => [] | l => l ++ [c] end.
Proof. intros Hc. induction s as [|a s IH]; cbn [lstrip app]; [by rewrite Hc|]. by destruct (py_isspace a). Qed.

(** [strip] removes a trailing space. *)
Lemma py_strip_app_space c s : py_isspace c = true -> py_strip (s ++ [c]) = py_strip s.
Proof.
  intros Hc. unfold py_strip. rewrite lstrip_app_space by done.
  destruct (lstrip s) as [|a l]; [done|]. rewrite rev_app_distr. cbn [rev app lstrip]. by rewrite Hc.
Qed.

(** A [JSONDecodeError] of a reply line concerns a text without a
    newline: the bytes before the newline hold none, and UTF-8 decoding
    and [strip] add none. *)
Lemma decode_response_line_one_line line msg doc pos : 10%Z ∉ line ->
  decode_response_line (line ++ [10%Z]) = Err (JSONDecodeError msg doc pos) -> 10%Z ∉ doc.
Proof.
  intros Hl. unfold decode_response_line, bytes_decode.
  destruct (utf8_decode (line ++ [10%Z])) as [s|[]] eqn:Hd; cbn [res_bind]; [|discriminate].
  intros ->%loads_error_doc. apply utf8_decode_split_ascii in Hd as (s1 & s2 & H1 & H2 & ->); [|lia].
  cbn in H2. injection H2 as <-. rewrite py_strip_app_space by reflexivity.
  intros Hin%py_strip_elem. apply Hl. eapply utf8_decode_ascii_elem; [exact H1|exact Hin|lia].
Qed.

(** C7. Framing of a request: the bytes [send_request] writes are the JSON
    text followed by one newline, and the text itself holds no newline, so
    every request is exactly one line of the child's input. *)
Theorem encode_request_line_framing (request : json) :
  encode_request_line request = Ok (dumps request ++ [10%Z]) /\ 10%Z ∉ dumps request.
Proof. split; [apply encode_request_line_ok|apply dumps_no_newline]. Qed.

(** C6. Line round trip: the line that carries [json.dumps(v)] is decoded
    by [send_request] as [v] again, for every well-formed value; in
    particular a child that echoes the request line back makes
    [send_request] return the request. *)
Theorem decode_encode_line (v : json) :
  json_wf v = true -> exists line, encode_request_line v = Ok line /\ decode_response_line line = Ok v.
Proof. intros Hw. exists (dumps v ++ [10%Z]). split; [apply encode_request_line_ok|by apply decode_dumps_line]. Qed.

Lemma decode_encode_line_witness :
  exists line, encode_request_line (JObj [kv "id" (JInt 7); kv "name" (JStr [0x1F600%Z])]) = Ok line /\
    decode_response_line line = Ok (JObj [kv "id" (JInt 7); kv "name" (JStr [0x1F600%Z])]).
Proof. apply decode_encode_line. vm_compute. reflexivity. Defined.
