(* ===== verification/Config.v ===== *)
(** * The server configuration (lines 39-53 and 64-79)

    [MCPConfig.load_config] reads [mcp_config.json] with [json.load] and
    falls back to [{}] on any exception (a missing file, bytes that are not
    UTF-8, text that is not JSON).  The file is given as [option (list Z)]:
    [None] when it cannot be opened.  Text mode also turns [\r\n] and [\r]
    into [\n]; outside strings both are JSON whitespace and inside strings
    both are rejected control characters, so the translation changes no
    result and is not written out.

    [connect_command] is the first half of [MCPClient.connect], up to the
    list [full_command] handed to [create_subprocess_exec]: the [.get]s,
    the two [raise Exception(...)]s, [list(server_config.keys())[0]] and
    [[command] + args], each with the exception Python raises on a value of
    the wrong type.

    The theorems: [connect_command] succeeds exactly on the expected shape
    of the file; [load_config] reads back what [json.dumps] writes, and
    silently ignores a file that starts with a byte-order mark. *)

From S2P Require Import Prelude Json Utf8 JsonDump JsonLoad Codec.
Local Open Scope py_scope.

(** [MCPConfig.load_config()] *)
Definition load_config (file : option (list Z)) : json :=
  match file with
  | None => JObj []
  | Some bytes =>
      match (let? s := bytes_decode bytes in loads s) with
      | Ok v => v
      | Err _ => JObj []
      end
  end.

(** [list(d.keys())[0]] *)
Definition first_key (d : json) : res exn pystr :=
  match d with
  | JObj ((k, _) :: _) => Ok k
  | JObj [] => Err IndexError
  | _ => Err (no_attribute d "keys")
  end.

(** [[command] + args] *)
Definition list_concat (command args : json) : res exn (list json) :=
  match args with
  | JArr l => Ok (command :: l)
  | _ => Err (TypeError (str "can only concatenate list (not " ++ [34%Z] ++ type_name args ++ [34%Z] ++ str ") to list"))
  end.

(** Lines 64-79 of [MCPClient.connect]: [full_command]. *)
Definition connect_command (config : json) : res exn (list json) :=
  let? server_config := py_get (str "mcpServers") (JObj []) config in
  if negb (py_truthy server_config) then Err (Exception "No MCP server configuration found"%string) else
  let? server_name := first_key server_config in
  let? server_info := py_getitem server_name server_config in
  let? command := py_get (str "command") JNull server_info in
  let? args := py_get (str "args") (JArr []) server_info in
  if negb (py_truthy command) then Err (Exception "No command specified in MCP config"%string) else
  list_concat command args.

(** A configuration file in the shape the code expects. *)
Definition demo_config_file : json :=
  JObj [(str "mcpServers", JObj [(str "echo", JObj [(str "command", JStr (str "echo-server"));
                                                    (str "args", JArr [])])])].

(** [bool(mcp_config.config)], reported by [/health]. *)
Definition config_loaded (config : json) : bool := py_truthy config.

(** C29. The resolution of the server in [connect] (lines 64-79), exactly:
    it yields [full_command] if and only if the configuration is a dict
    whose [mcpServers] is a non-empty dict, the first server's entry is a
    dict with a true [command], and its [args] is absent (then
    [full_command] is [[command]]) or a list [l] (then it is
    [[command] + l]).  Any other shape raises: a configuration that is a
    JSON list, for instance, raises [AttributeError]. *)
Theorem connect_command_spec config argv :
  connect_command config = Ok argv <->
  exists kvs name info rest command,
    config = JObj kvs /\
    dict_get (str "mcpServers") kvs = Some (JObj ((name, JObj info) :: rest)) /\
    dict_get (str "command") info = Some command /\ py_truthy command = true /\
    ((dict_get (str "args") info = None /\ argv = [command]) \/
     (exists l, dict_get (str "args") info = Some (JArr l) /\ argv = command :: l)).
Proof.
  split.
  - unfold connect_command. intros H.
    destruct config as [| | | | |kvs]; cbn in H; try discriminate.
    destruct (dict_get (str "mcpServers") kvs) as [sc|] eqn:Hs; cbn in H; [|discriminate].
    destruct sc as [| | | | |[|[name info] rest]]; cbn in H;
      try discriminate; try (destruct (negb _); cbn in H; discriminate).
    rewrite pystr_eqb_refl in H. cbn in H.
    destruct info as [| | | | |info]; cbn in H; try discriminate.
    destruct (dict_get (str "command") info) as [command|] eqn:Hcmd; cbn in H; [|discriminate].
    destruct (py_truthy command) eqn:Ht; cbn in H; [|discriminate].
    exists kvs, name, info, rest, command. do 4 (split; [done|]).
    destruct (dict_get (str "args") info) as [[| | | |l|]|]; cbn in H; try discriminate;
      injection H as <-; eauto.
  - intros (kvs & name & info & rest & command & -> & Hs & Hc & Ht & Hargs).
    unfold connect_command. cbn -[py_truthy]. rewrite Hs. cbn -[py_truthy]. rewrite pystr_eqb_refl.
    cbn -[py_truthy]. rewrite Hc. destruct Hargs as [[-> ->]|(l & -> & ->)]; cbn -[py_truthy]; by rewrite Ht.
Qed.

Lemma connect_command_spec_witness :
  connect_command (JObj [kv "mcpServers" (JObj [kv "echo" (JObj [kv "command" (jstr "echo-server");
                                                                kv "args" (JArr [jstr "-v"])])])])
    = Ok [jstr "echo-server"; jstr "-v"].
Proof.
  apply connect_command_spec.
  exists [kv "mcpServers" (JObj [kv "echo" (JObj [kv "command" (jstr "echo-server"); kv "args" (JArr [jstr "-v"])])])],
    (str "echo"), [kv "command" (jstr "echo-server"); kv "args" (JArr [jstr "-v"])], [], (jstr "echo-server").
  repeat split; try reflexivity. right. eexists. split; reflexivity.
Defined.

(** The bytes of the UTF-8 byte-order mark U+FEFF. *)
Lemma utf8_decode_bom bs :
  utf8_decode ([0xEF; 0xBB; 0xBF]%Z ++ bs) = let? s := utf8_decode bs in Ok (0xFEFF%Z :: s).
Proof. reflexivity. Qed.

(** C30. [load_config] reads back a configuration file written by
    [json.dumps]: the file holding [json.dumps(cfg)] is loaded as [cfg],
    for every well-formed [cfg]. *)
Theorem load_config_dumps cfg : json_wf cfg = true -> load_config (Some (dumps cfg)) = cfg.
Proof.
  intros Hw. unfold load_config, bytes_decode. rewrite utf8_decode_ascii by apply dumps_ascii.
  cbn [res_bind]. by rewrite loads_dumps_text.
Qed.

Lemma load_config_dumps_witness :
  load_config (Some (dumps demo_config_file)) = demo_config_file.
Proof. apply load_config_dumps. vm_compute. reflexivity. Defined.

(** C31. A configuration file that starts with a UTF-8 byte-order mark (as
    some editors write it) is not read: [open(...)] decodes the mark as
    U+FEFF, [json.load] rejects it, and [load_config] silently returns
    [{}], whatever the rest of the file says. *)
Theorem load_config_bom cfg : load_config (Some ([0xEF; 0xBB; 0xBF]%Z ++ dumps cfg)) = JObj [].
Proof.
  unfold load_config, bytes_decode. rewrite utf8_decode_bom, utf8_decode_ascii by apply dumps_ascii.
  reflexivity.
Qed.
