(* ===== verification/Process.v ===== *)
(** * Child processes and their pipes (asyncio)

    [MCPClient] owns one child created by [asyncio.create_subprocess_exec]
    with three pipes (line 80), writes to its [stdin] with
    [StreamWriter.write] and [drain] (lines 121-122), reads a line of its
    [stdout] with [StreamReader.readline] (line 125), and stops it with
    [terminate] and [wait] (lines 137-138).

    The operating system is the record [os]: a table of processes
    ([gmap nat proc]) indexed by an id that the client keeps as its handle,
    the next free id, and [os_programs], which says for each command line
    which program runs (or [None]: the executable does not exist).  A
    program is a [server]: the bytes it writes when it starts and, for each
    line it reads, the bytes it answers, possibly exiting.  The child reads
    the lines written to its [stdin] when the client [drain]s.

    The semantics follow CPython's [asyncio] in the state it reaches once
    the event loop has seen the child exit: writing to a dead child's pipe
    drops the data and [drain()] raises [ConnectionResetError];
    [terminate()] raises [ProcessLookupError]; [readline()] returns what is
    left, then [b''].  [readline] implements [StreamReader.readline] with
    the default limit of 64 KiB: a line longer than the limit raises
    [ValueError] and is discarded; a partial line at end of file is
    returned; without a newline and without end of file the coroutine
    waits forever ([Blocked]). *)

From S2P Require Import Prelude Json.
From stdpp Require Import gmap.

(** ** Programs and processes *)

(** What a program does in answer to an event. *)
Inductive reply : Type :=
| Emit (out : list Z)
| EmitExit (out : list Z) (rc : Z).

Record server : Type := {
  srv_start : reply;                               (** on start *)
  srv_answer : list (list Z) -> list Z -> reply    (** earlier lines, the new line *)
}.

Record proc : Type := {
  p_srv : server;
  p_lines : list (list Z);   (** lines the child has read, oldest first *)
  p_inbuf : list Z;          (** bytes written and not yet read by the child *)
  p_out : list Z;            (** the [StreamReader] buffer of its [stdout] *)
  p_rc : option Z            (** [returncode]: [Some] once the child exited *)
}.

Record os : Type := {
  os_procs : gmap nat proc;
  os_next : nat;
  os_programs : list pystr -> option server
}.

Definition reply_out (r : reply) : list Z :=
  match r with Emit o => o | EmitExit o _ => o end.

Definition reply_rc (r : reply) : option Z :=
  match r with Emit _ => None | EmitExit _ c => Some c end.

Definition set_procs (o : os) (ps : gmap nat proc) : os :=
  {| os_procs := ps; os_next := os_next o; os_programs := os_programs o |}.

Definition set_inbuf (p : proc) (b : list Z) : proc :=
  {| p_srv := p_srv p; p_lines := p_lines p; p_inbuf := b; p_out := p_out p; p_rc := p_rc p |}.
Definition set_out (p : proc) (b : list Z) : proc :=
  {| p_srv := p_srv p; p_lines := p_lines p; p_inbuf := p_inbuf p; p_out := b; p_rc := p_rc p |}.
Definition set_rc (p : proc) (rc : option Z) : proc :=
  {| p_srv := p_srv p; p_lines := p_lines p; p_inbuf := p_inbuf p; p_out := p_out p; p_rc := rc |}.

(** ** The child reads lines *)

(** The complete lines of a buffer (without their newline) and the
    incomplete rest. *)
Fixpoint split_lines (buf : list Z) : list (list Z) * list Z :=
  match buf with
  | [] => ([], [])
  | b :: r =>
      let '(ls, rest) := split_lines r in
      if (b =? 10)%Z then ([] :: ls, rest)
      else match ls with
           | [] => ([], b :: rest)
           | l :: ls' => ((b :: l) :: ls', rest)
           end
  end.

(** The child answers each line in turn, until it exits. *)
Fixpoint deliver (srv : server) (seen : list (list Z)) (lines : list (list Z))
    (out : list Z) : list (list Z) * list Z * option Z :=
  match lines with
  | [] => (seen, out, None)
  | l :: ls =>
      let r := srv_answer srv seen l in
      match reply_rc r with
      | Some c => (seen ++ [l], out ++ reply_out r, Some c)
      | None => deliver srv (seen ++ [l]) ls (out ++ reply_out r)
      end
  end.

(** A live child reads what has been written to it. *)
Definition child_runs (p : proc) : proc :=
  let '(ls, rest) := split_lines (p_inbuf p) in
  let '(seen, out, rc) := deliver (p_srv p) (p_lines p) ls (p_out p) in
  {| p_srv := p_srv p; p_lines := seen; p_inbuf := rest; p_out := out; p_rc := rc |}.

(** ** [StreamReader.readline] *)

(** [asyncio.streams._DEFAULT_LIMIT] *)
Definition stream_limit : Z := 65536.

(** The texts of the [LimitOverrunError]s of [readuntil], which
    [readline] raises again as [ValueError(e.args[0])]. *)
Definition separator_found : String.string := "Separator is found, but chunk is longer than limit"%string.
Definition separator_not_found : String.string := "Separator is not found, and chunk exceed the limit"%string.

(** [readline()] on the reader's buffer: the outcome and the buffer left. *)
Definition readline_buf (buf : list Z) (eof : bool) : outcome exn (list Z) * list Z :=
  match find_index (fun b => (b =? 10)%Z) buf with
  | Some i =>
      if (stream_limit <? Z.of_nat i)%Z then (Raised (ValueError separator_found), drop (S i) buf)
      else (Done (take (S i) buf), drop (S i) buf)
  | None =>
      if (stream_limit <? Z.of_nat (length buf))%Z then (Raised (ValueError separator_not_found), [])
      else if eof then (Done buf, [])
      else (Blocked, buf)
  end.

(** ** Operations *)

(** Run an operation on the process [pid] of the table. *)
Definition with_proc {A} (pid : nat) (f : proc -> outcome exn A * proc) : stm exn os A :=
  fun o => match os_procs o !! pid with
           | None => (Raised ProcessLookupError, o)
           | Some p => let (r, p') := f p in (r, set_procs o (<[pid := p']> (os_procs o)))
           end.

(** A child that has just started. *)
Definition new_proc (srv : server) : proc :=
  {| p_srv := srv; p_lines := []; p_inbuf := [];
     p_out := reply_out (srv_start srv); p_rc := reply_rc (srv_start srv) |}.

Fixpoint argv_strs (argv : list json) : option (list pystr) :=
  match argv with
  | [] => Some []
  | JStr s :: r => cons s <$> argv_strs r
  | _ :: _ => None
  end.

(** [await asyncio.create_subprocess_exec] on the argument list, with
    [stdin], [stdout] and [stderr] piped: the handle of the new process.
    An argument that is not a string raises [TypeError] when [Popen]
    converts it ([os.fspath], the first such argument); a command that
    does not name an executable raises [FileNotFoundError] naming it. *)
Definition spawn (argv : list json) : stm exn os nat :=
  fun o =>
    match argv_strs argv with
    | None =>
        (Raised (TypeError (str "expected str, bytes or os.PathLike object, not " ++
                            default [] (type_name <$> find (fun v => negb (bool_decide (is_Some (argv_strs [v])))) argv))), o)
    | Some args =>
        match os_programs o args with
        | None => (Raised (FileNotFoundError (default [] (head args))), o)
        | Some srv =>
            (Done (os_next o),
             {| os_procs := <[os_next o := new_proc srv]> (os_procs o); os_next := S (os_next o);
                os_programs := os_programs o |})
        end
    end.

(** [process.stdin.write(data)]: dropped once the pipe is closed. *)
Definition proc_write (pid : nat) (data : list Z) : stm exn os unit :=
  with_proc pid (fun p =>
    match p_rc p with
    | Some _ => (Done tt, p)
    | None => (Done tt, set_inbuf p (p_inbuf p ++ data))
    end).

(** [await process.stdin.drain()]: the child reads the complete lines. *)
Definition proc_drain (pid : nat) : stm exn os unit :=
  with_proc pid (fun p =>
    match p_rc p with
    | Some _ => (Raised ConnectionResetError, p)
    | None => (Done tt, child_runs p)
    end).

(** [await process.stdout.readline()] *)
Definition proc_readline (pid : nat) : stm exn os (list Z) :=
  with_proc pid (fun p =>
    let (r, buf) := readline_buf (p_out p) (bool_decide (is_Some (p_rc p))) in
    (r, set_out p buf)).

(** [process.terminate()]: SIGTERM ends the child (return code [-15]). *)
Definition proc_terminate (pid : nat) : stm exn os unit :=
  with_proc pid (fun p =>
    match p_rc p with
    | Some _ => (Raised ProcessLookupError, p)
    | None => (Done tt, set_rc p (Some (-15)%Z))
    end).

(** [await process.wait()] *)
Definition proc_wait (pid : nat) : stm exn os Z :=
  with_proc pid (fun p =>
    match p_rc p with
    | Some c => (Done c, p)
    | None => (Blocked, p)
    end).

(** The child after it read the line [l] (a live child, nothing pending). *)
Definition read_line (p : proc) (l : list Z) : proc :=
  let r := srv_answer (p_srv p) (p_lines p) l in
  {| p_srv := p_srv p; p_lines := p_lines p ++ [l]; p_inbuf := [];
     p_out := p_out p ++ reply_out r; p_rc := reply_rc r |}.

(** One request line [l] through a live child with nothing pending: it
    reads the line and answers, then [readline()] takes from its output. *)
Definition exchange (p : proc) (l : list Z) : outcome exn (list Z) * proc :=
  let p1 := read_line p l in
  let (r, buf) := readline_buf (p_out p1) (bool_decide (is_Some (p_rc p1))) in
  (r, set_out p1 buf).

(** An operation that changes no process of the table but [q]. *)
Definition keeps_others {A} (q : nat) (m : stm exn os A) : Prop :=
  forall o pid, pid <> q -> os_procs (m o).2 !! pid = os_procs o !! pid.

(** Every handle of the table is below the next free one. *)
Definition os_wf (o : os) : Prop := forall pid, is_Some (os_procs o !! pid) -> pid < os_next o.

(** ** Lemmas *)

Lemma split_lines_line (l rest : list Z) : 10%Z ∉ l ->
  split_lines (l ++ 10%Z :: rest) = let '(ls, r) := split_lines rest in (l :: ls, r).
Proof.
  intros Hl%no_nl_forall. induction Hl as [|b l Hb _ IH]; simpl.
  - by destruct (split_lines rest).
  - rewrite IH, Hb. by destruct (split_lines rest).
Qed.

Lemma split_lines_partial (l : list Z) : 10%Z ∉ l -> split_lines l = ([], l).
Proof.
  intros Hl%no_nl_forall. induction Hl as [|b l Hb _ IH]; simpl; [done|].
  by rewrite IH, Hb.
Qed.

Lemma child_runs_line (p : proc) (l : list Z) :
  p_inbuf p = l ++ [10%Z] -> 10%Z ∉ l -> child_runs p = read_line p l.
Proof.
  intros Hin Hl. unfold child_runs, read_line. rewrite Hin, split_lines_line by done.
  simpl. by destruct (reply_rc _).
Qed.

Lemma readline_buf_line (l rest : list Z) (eof : bool) : 10%Z ∉ l ->
  readline_buf (l ++ 10%Z :: rest) eof =
    (if (stream_limit <? Z.of_nat (length l))%Z then Raised (ValueError separator_found) else Done (l ++ [10%Z]), rest).
Proof.
  intros Hl. unfold readline_buf.
  rewrite find_index_app_r by by apply no_nl_forall. simpl. rewrite Nat.add_0_r.
  replace (l ++ 10%Z :: rest) with ((l ++ [10%Z]) ++ rest) by by rewrite <- app_assoc.
  rewrite drop_app_length' by len_lia. rewrite take_app_length' by len_lia.
  by destruct (_ <? _)%Z.
Qed.

Lemma readline_buf_partial (l : list Z) : 10%Z ∉ l ->
  readline_buf l false =
    if (stream_limit <? Z.of_nat (length l))%Z then (Raised (ValueError separator_not_found), []) else (Blocked, l).
Proof.
  intros Hl. unfold readline_buf. rewrite find_index_None by by apply no_nl_forall. done.
Qed.

Section Table.
Context {A : Type}.

Lemma with_proc_run (pid : nat) (f : proc -> outcome exn A * proc) (o : os) (p : proc) :
  os_procs o !! pid = Some p ->
  with_proc pid f o = ((f p).1, set_procs o (<[pid := (f p).2]> (os_procs o))).
Proof. intros Hp. unfold with_proc. rewrite Hp. by destruct (f p). Qed.

Lemma with_proc_missing (pid : nat) (f : proc -> outcome exn A * proc) (o : os) :
  os_procs o !! pid = None -> with_proc pid f o = (Raised ProcessLookupError, o).
Proof. intros Hp. unfold with_proc. by rewrite Hp. Qed.

Lemma with_proc_wf (pid : nat) (f : proc -> outcome exn A * proc) (o : os) :
  os_wf o -> os_wf (with_proc pid f o).2.
Proof.
  intros Hwf. destruct (os_procs o !! pid) as [p|] eqn:Hp.
  - rewrite (with_proc_run _ _ _ p Hp). intros q. simpl.
    destruct (decide (q = pid)) as [->|Hne]; [by intros _; apply Hwf; rewrite Hp|].
    rewrite lookup_insert_ne by congruence. apply Hwf.
  - by rewrite with_proc_missing.
Qed.

Lemma with_proc_other (pid q : nat) (f : proc -> outcome exn A * proc) (o : os) :
  q <> pid -> os_procs (with_proc pid f o).2 !! q = os_procs o !! q.
Proof.
  intros Hne. unfold with_proc. destruct (os_procs o !! pid); [|done].
  destruct (f p). simpl. by rewrite lookup_insert_ne by congruence.
Qed.

Lemma with_proc_next (pid : nat) (f : proc -> outcome exn A * proc) (o : os) :
  os_next (with_proc pid f o).2 = os_next o /\ os_programs (with_proc pid f o).2 = os_programs o.
Proof. unfold with_proc. destruct (os_procs o !! pid); [destruct (f p)|]; done. Qed.
End Table.

Lemma spawn_wf argv o : os_wf o -> os_wf (spawn argv o).2.
Proof.
  intros Hwf. unfold spawn. destruct (argv_strs argv); [|done].
  destruct (os_programs o l); [|done]. intros q. simpl.
  destruct (decide (q = os_next o)) as [->|Hne]; [lia|].
  rewrite lookup_insert_ne by congruence. intros Hq%Hwf. lia.
Qed.

(** A new process gets a handle that no process had. *)
Lemma spawn_fresh argv o pid o' : os_wf o -> spawn argv o = (Done pid, o') ->
  os_procs o !! pid = None /\ os_next o' = S pid /\ is_Some (os_procs o' !! pid).
Proof.
  intros Hwf. unfold spawn. destruct (argv_strs argv); [|done].
  destruct (os_programs o l); [|done]. intros [= <- <-]. simpl.
  rewrite lookup_insert_eq. split; [|by eauto].
  destruct (os_procs o !! os_next o) eqn:Hn; [|done].
  assert (os_next o < os_next o) by (apply Hwf; by rewrite Hn). lia.
Qed.

(** ** Running the operations on a process of the table *)

Section Run.
Context (o : os) (pid : nat) (p : proc) (Hp : os_procs o !! pid = Some p).

Lemma proc_write_live data : p_rc p = None ->
  proc_write pid data o = (Done tt, set_procs o (<[pid := set_inbuf p (p_inbuf p ++ data)]> (os_procs o))).
Proof. intros Hrc. unfold proc_write. rewrite (with_proc_run _ _ _ p Hp), Hrc. done. Qed.

Lemma proc_write_dead data c : p_rc p = Some c ->
  proc_write pid data o = (Done tt, set_procs o (<[pid := p]> (os_procs o))).
Proof. intros Hrc. unfold proc_write. rewrite (with_proc_run _ _ _ p Hp), Hrc. done. Qed.

Lemma proc_drain_live : p_rc p = None ->
  proc_drain pid o = (Done tt, set_procs o (<[pid := child_runs p]> (os_procs o))).
Proof. intros Hrc. unfold proc_drain. rewrite (with_proc_run _ _ _ p Hp), Hrc. done. Qed.

Lemma proc_drain_dead c : p_rc p = Some c ->
  proc_drain pid o = (Raised ConnectionResetError, set_procs o (<[pid := p]> (os_procs o))).
Proof. intros Hrc. unfold proc_drain. rewrite (with_proc_run _ _ _ p Hp), Hrc. done. Qed.

Lemma proc_readline_run :
  proc_readline pid o =
    ((readline_buf (p_out p) (bool_decide (is_Some (p_rc p)))).1,
     set_procs o (<[pid := set_out p (readline_buf (p_out p) (bool_decide (is_Some (p_rc p)))).2]>
                    (os_procs o))).
Proof. unfold proc_readline. rewrite (with_proc_run _ _ _ p Hp). by destruct (readline_buf _ _). Qed.

Lemma proc_terminate_live : p_rc p = None ->
  proc_terminate pid o = (Done tt, set_procs o (<[pid := set_rc p (Some (-15)%Z)]> (os_procs o))).
Proof. intros Hrc. unfold proc_terminate. rewrite (with_proc_run _ _ _ p Hp), Hrc. done. Qed.

Lemma proc_terminate_dead c : p_rc p = Some c ->
  proc_terminate pid o = (Raised ProcessLookupError, set_procs o (<[pid := p]> (os_procs o))).
Proof. intros Hrc. unfold proc_terminate. rewrite (with_proc_run _ _ _ p Hp), Hrc. done. Qed.

Lemma proc_wait_exited c : p_rc p = Some c ->
  proc_wait pid o = (Done c, set_procs o (<[pid := p]> (os_procs o))).
Proof. intros Hrc. unfold proc_wait. rewrite (with_proc_run _ _ _ p Hp), Hrc. done. Qed.
End Run.

Lemma set_procs_twice o m m' : set_procs (set_procs o m) m' = set_procs o m'.
Proof. done. Qed.

Lemma set_procs_lookup o m : os_procs (set_procs o m) = m.
Proof. done. Qed.

Lemma insert_self (o : os) pid p : os_procs o !! pid = Some p ->
  set_procs o (<[pid := p]> (os_procs o)) = o.
Proof. intros Hp. destruct o. unfold set_procs. simpl in *. by rewrite insert_id. Qed.

(** Writing a line, draining and reading: one [exchange]. *)
Lemma write_drain_readline o pid p l :
  os_procs o !! pid = Some p -> p_rc p = None -> p_inbuf p = [] -> 10%Z ∉ l ->
  (proc_write pid (l ++ [10%Z]) ;; proc_drain pid ;; proc_readline pid) o =
    ((exchange p l).1, set_procs o (<[pid := (exchange p l).2]> (os_procs o))).
Proof.
  intros Hp Hrc Hin Hl. rewrite bind_run, (proc_write_live o pid p Hp) by done.
  rewrite bind_run, (proc_drain_live _ pid (set_inbuf p (p_inbuf p ++ l ++ [10%Z]))) by
    (rewrite ?set_procs_lookup, ?lookup_insert_eq; done).
  rewrite (proc_readline_run _ pid (child_runs (set_inbuf p (p_inbuf p ++ l ++ [10%Z])))) by
    (rewrite set_procs_lookup, lookup_insert_eq; done).
  rewrite (child_runs_line _ l) by (rewrite ?Hin; done).
  assert (read_line (set_inbuf p (p_inbuf p ++ l ++ [10%Z])) l = read_line p l) as -> by done.
  unfold exchange. destruct (readline_buf _ _) as [r buf]. simpl.
  by rewrite !set_procs_twice, !insert_insert_eq.
Qed.

Lemma spawn_run argv args o srv :
  argv_strs argv = Some args -> os_programs o args = Some srv ->
  spawn argv o = (Done (os_next o),
    {| os_procs := <[os_next o := new_proc srv]> (os_procs o); os_next := S (os_next o);
       os_programs := os_programs o |}).
Proof. intros Ha Hs. unfold spawn. by rewrite Ha, Hs. Qed.

(** C9. The 64 KiB limit of [StreamReader.readline]: a line whose text
    before the newline has at most 65536 bytes is returned whole, newline
    included; a longer one raises [ValueError].  Either way the line is
    consumed and the reader's buffer keeps what follows it. *)
Theorem readline_limit (l rest : list Z) (eof : bool) : 10%Z ∉ l ->
  readline_buf (l ++ 10%Z :: rest) eof =
    (if (Z.of_nat (length l) <=? 65536)%Z then Done (l ++ [10%Z]) else Raised (ValueError separator_found), rest).
Proof.
  intros Hl. rewrite readline_buf_line by done. unfold stream_limit.
  by destruct (Z.leb_spec (Z.of_nat (length l)) 65536), (Z.ltb_spec 65536 (Z.of_nat (length l))); try lia.
Qed.

Lemma readline_limit_witness :
  readline_buf ([104; 105] ++ 10%Z :: [120])%Z true = (Done [104; 105; 10]%Z, [120%Z]).
Proof. rewrite (readline_limit _ _ true); [reflexivity|]. intros Hin. set_solver. Defined.

Lemma os_wf_insert o pid p : os_wf o -> is_Some (os_procs o !! pid) ->
  os_wf (set_procs o (<[pid := p]> (os_procs o))).
Proof.
  intros Hwf Hpid q. cbn. destruct (decide (q = pid)) as [->|Hne]; [intros _; by apply Hwf|].
  rewrite lookup_insert_ne by congruence. apply Hwf.
Qed.

Lemma spawn_raised argv o e o' : spawn argv o = (Raised e, o') -> o' = o.
Proof. unfold spawn. destruct (argv_strs argv); [destruct (os_programs o l)|]; by intros [= _ <-]. Qed.

Lemma spawn_not_blocked argv o o' : spawn argv o <> (Blocked, o').
Proof. unfold spawn. destruct (argv_strs argv); [destruct (os_programs o l)|]; done. Qed.

Lemma spawn_done argv o pid o' : spawn argv o = (Done pid, o') ->
  exists srv, pid = os_next o /\
    o' = {| os_procs := <[os_next o := new_proc srv]> (os_procs o); os_next := S (os_next o);
            os_programs := os_programs o |}.
Proof.
  unfold spawn. destruct (argv_strs argv); [destruct (os_programs o l) as [srv|]|]; try done.
  intros [= <- <-]. by exists srv.
Qed.

Lemma exchange_inbuf p l : p_inbuf (exchange p l).2 = [].
Proof. unfold exchange. by destruct (readline_buf _ _). Qed.

Lemma os_wf_add o p : os_wf o ->
  os_wf {| os_procs := <[os_next o := p]> (os_procs o); os_next := S (os_next o);
           os_programs := os_programs o |}.
Proof.
  intros Hwf q. cbn. destruct (decide (q = os_next o)) as [->|Hne]; [lia|].
  rewrite lookup_insert_ne by congruence. intros Hq%Hwf. lia.
Qed.

Lemma proc_terminate_raises pid o e o' : proc_terminate pid o = (Raised e, o') -> e = ProcessLookupError.
Proof.
  unfold proc_terminate, with_proc. destruct (os_procs o !! pid) as [p|]; [|by intros [= <- _]].
  destruct (p_rc p); by intros [= <- _].
Qed.

Lemma proc_wait_raises pid o e o' : proc_wait pid o = (Raised e, o') -> e = ProcessLookupError.
Proof.
  unfold proc_wait, with_proc. destruct (os_procs o !! pid) as [p|]; [|by intros [= <- _]].
  by destruct (p_rc p).
Qed.

Lemma keeps_others_with_proc {A} q (f : proc -> outcome exn A * proc) : keeps_others q (with_proc q f).
Proof. intros o pid Hne. by apply with_proc_other. Qed.

Lemma keeps_others_bind {A B} q (m : stm exn os A) (f : A -> stm exn os B) :
  keeps_others q m -> (forall a, keeps_others q (f a)) -> keeps_others q (m ≫= f).
Proof.
  intros Hm Hf o pid Hne. rewrite bind_run.
  pose proof (Hm o pid Hne) as H1. destruct (m o) as [[a| |] o1]; cbn in *; [|done..].
  by rewrite Hf.
Qed.

Lemma keeps_others_exchange q data :
  keeps_others q (proc_write q data ;; proc_drain q ;; proc_readline q).
Proof.
  apply keeps_others_bind; [apply keeps_others_with_proc|intros _].
  apply keeps_others_bind; [apply keeps_others_with_proc|intros _]. apply keeps_others_with_proc.
Qed.
