(* ===== verification/Client.v ===== *)
(** * [MCPClient] (lines 55-139)

    The client is the record [client] with the two attributes of
    [MCPClient.__init__]: [process] (the handle of the child, [None] until
    the first successful spawn) and [connected].  A coroutine of the client
    runs in the [world]: the configuration [mcp_config.config], the client
    and the operating system of [Process].  [os_op] runs an operation of
    the operating system on its part of the world.

    [send_request], [connect] and [disconnect] are the three methods, with
    their [try]/[except ...: raise] blocks ([catch ... raise]).  The
    exception raised by [connect] is the one raised inside it (the [except]
    logs and re-raises), and [self.process] is assigned only once
    [create_subprocess_exec] returned.

    The theorems: [send_request] on a live child is one exchange of lines
    and returns the child's answer, or a stale line already waiting; the
    handshake of [connect] and its three failures (no configuration, a
    child that exits at once, a reply that is not JSON); [disconnect]
    keeps the handle; a child that exits never leaves a call waiting, one
    that stays silent does; a reconnection leaves the old child running;
    and the invariant [client_wf], preserved by the three methods. *)

From S2P Require Import Prelude Json Utf8 JsonDump JsonLoad Codec Config Process.
From stdpp Require Import gmap.
Local Open Scope py_scope.

Record client : Type := {
  process : option nat;
  connected : bool
}.

(** [MCPClient.__init__] *)
Definition client_init : client := {| process := None; connected := false |}.

Record world : Type := {
  w_config : json;
  w_client : client;
  w_os : os
}.

Definition set_os (w : world) (o : os) : world :=
  {| w_config := w_config w; w_client := w_client w; w_os := o |}.
Definition set_client (w : world) (c : client) : world :=
  {| w_config := w_config w; w_client := c; w_os := w_os w |}.

Definition set_process (c : client) (pid : nat) : client :=
  {| process := Some pid; connected := connected c |}.
Definition set_connected (c : client) (b : bool) : client :=
  {| process := process c; connected := b |}.

(** An operation of the operating system, run from a coroutine. *)
Definition os_op {A} (m : stm exn os A) : stm exn world A :=
  focus w_os (fun o w => set_os w o) m.

Definition not_connected : exn := Exception "MCP server not connected"%string.

(** [MCPClient.send_request] *)
Definition send_request (request : json) : stm exn world json :=
  c ← gets w_client;
  match process c with
  | None => raise not_connected
  | Some proc =>
      catch (
        request_bytes ← lift_res (encode_request_line request);
        os_op (proc_write proc request_bytes) ;;
        os_op (proc_drain proc) ;;
        response_line ← os_op (proc_readline proc);
        lift_res (decode_response_line response_line))
      raise
  end.

(** The [initialize] request of [connect] (lines 88-103). *)
Definition init_request : json :=
  JObj [kv "jsonrpc" (jstr "2.0"); kv "id" (JInt 1); kv "method" (jstr "initialize");
        kv "params" (JObj [
          kv "protocolVersion" (jstr "2024-11-05");
          kv "capabilities" (JObj [kv "roots" (JObj [kv "listChanged" (JBool true)]);
                                   kv "sampling" (JObj [])]);
          kv "clientInfo" (JObj [kv "name" (jstr "fastapi-mcp-bridge");
                                 kv "version" (jstr "1.0.0")])])].

(** [MCPClient.connect] *)
Definition connect : stm exn world unit :=
  catch (
    config ← gets w_config;
    full_command ← lift_res (connect_command config);
    pid ← os_op (spawn full_command);
    modify (fun w => set_client w (set_process (w_client w) pid)) ;;
    _ ← send_request init_request;
    modify (fun w => set_client w (set_connected (w_client w) true)))
  raise.

(** [MCPClient.disconnect] *)
Definition disconnect : stm exn world unit :=
  c ← gets w_client;
  match process c with
  | None => mret tt
  | Some proc =>
      os_op (proc_terminate proc) ;;
      _ ← os_op (proc_wait proc);
      modify (fun w => set_client w (set_connected (w_client w) false))
  end.

(** The world when the module is imported (lines 53 and 142): the
    configuration file, if it could be read, and the operating system. *)
Definition world_init (file : option (list Z)) (o : os) : world :=
  {| w_config := load_config file; w_client := client_init; w_os := o |}.

(** What [send_request] makes of the outcome of [readline()]. *)
Definition decode_outcome (r : outcome exn (list Z)) : outcome exn json :=
  match r with
  | Done line => match decode_response_line line with Ok v => Done v | Err e => Raised e end
  | Raised e => Raised e
  | Blocked => Blocked
  end.

(** The client's invariant: the process table is well formed, the
    client's handle is in it, a live child has read everything written to
    it (every write is a whole line), and a connected client has a
    handle. *)
Definition client_wf (w : world) : Prop :=
  os_wf (w_os w) /\
  (forall pid, process (w_client w) = Some pid ->
     exists p, os_procs (w_os w) !! pid = Some p /\ (p_rc p = None -> p_inbuf p = [])) /\
  (connected (w_client w) = true -> is_Some (process (w_client w))).

(** ** A concrete world

    The configuration of the scenario of the specification, one server
    [echo-server] without arguments, and an operating system where that
    command runs a child that answers each line with the line itself. *)

Definition demo_config : json :=
  JObj [kv "mcpServers" (JObj [kv "echo" (JObj [kv "command" (jstr "echo-server");
                                               kv "args" (JArr [])])])].

Definition echo_server : server :=
  {| srv_start := Emit []; srv_answer := fun _ l => Emit (l ++ [10%Z]) |}.

(** No process yet; the command [echo-server] runs [srv]. *)
Definition demo_os (srv : server) : os :=
  {| os_procs := ∅; os_next := 0;
     os_programs := fun args => if bool_decide (args = [str "echo-server"]) then Some srv else None |}.

(** A server that writes a notification when it starts, then echoes. *)
Definition notification : json :=
  JObj [kv "jsonrpc" (jstr "2.0"); kv "method" (jstr "notifications/message");
        kv "params" (JObj [kv "level" (jstr "info"); kv "data" (jstr "server started")])].

Definition chatty_server : server :=
  {| srv_start := Emit (dumps notification ++ [10%Z]); srv_answer := fun _ l => Emit (l ++ [10%Z]) |}.

(** A server that answers every line with [hello], which is not JSON. *)
Definition hello_server : server :=
  {| srv_start := Emit []; srv_answer := fun _ _ => Emit [104; 101; 108; 108; 111; 10]%Z |}.

(** A server that exits as soon as it starts. *)
Definition dead_server : server := {| srv_start := EmitExit [] 127; srv_answer := fun _ _ => Emit [] |}.

(** A server that exits, without a word, on the first line it reads; and
    one that never answers. *)
Definition exit_server : server :=
  {| srv_start := Emit []; srv_answer := fun _ _ => EmitExit [] 1 |}.

Definition silent_server : server :=
  {| srv_start := Emit []; srv_answer := fun _ _ => Emit [] |}.

(** A client attached to child 0, which runs [srv]. *)
Definition attached_world (srv : server) : world :=
  {| w_config := demo_config; w_client := {| process := Some 0; connected := true |};
     w_os := {| os_procs := {[0 := new_proc srv]}; os_next := 1; os_programs := fun _ => None |} |}.

Definition demo_world (srv : server) : world :=
  {| w_config := demo_config; w_client := client_init; w_os := demo_os srv |}.

(** ** Running the client's coroutines *)

Lemma w_os_set_os w o : w_os (set_os w o) = o.
Proof. done. Qed.
Lemma w_os_set_client w c : w_os (set_client w c) = w_os w.
Proof. done. Qed.
Lemma w_client_set_os w o : w_client (set_os w o) = w_client w.
Proof. done. Qed.
Lemma w_client_set_client w c : w_client (set_client w c) = c.
Proof. done. Qed.

Lemma lookup_insert_proc (m : gmap nat proc) pid p : <[pid := p]> m !! pid = Some p.
Proof. apply lookup_insert_eq. Qed.

Create Rewrite HintDb world.
#[export] Hint Rewrite w_os_set_os w_os_set_client w_client_set_os w_client_set_client
  set_procs_lookup lookup_insert_proc : world.

(** Read a field of a world built by the setters. *)
Ltac world := do 2 (autorewrite with world; cbn [os_procs]); try done.


Lemma os_op_run {A} (m : stm exn os A) w r o' :
  m (w_os w) = (r, o') -> os_op m w = (r, set_os w o').
Proof. intros H. unfold os_op, focus. by rewrite H. Qed.


Lemma os_op_seq {A B C} (m : stm exn os A) (m' : stm exn os B) (k : B -> stm exn world C) w :
  (os_op m ;; (os_op m' ≫= k)) w = (os_op (m ;; m') ≫= k) w.
Proof.
  unfold os_op, focus. rewrite !bind_run. destruct (m (w_os w)) as [[a|e|] o1]; [|done..].
  cbn -[mbind]. rewrite bind_run. change (w_os (set_os w o1)) with o1. by destruct (m' o1) as [[| |] ?].
Qed.

Lemma set_os_twice w o o' : set_os (set_os w o) o' = set_os w o'.
Proof. done. Qed.

Lemma set_os_self w : set_os w (w_os w) = w.
Proof. by destruct w. Qed.

Lemma lift_decode_run (r : outcome exn (list Z)) (w : world) :
  (match (r, w) with
   | (Done a, s') => lift_res (decode_response_line a) s'
   | (Raised e, s') => (Raised e, s')
   | (Blocked, s') => (Blocked, s')
   end) = (decode_outcome r, w).
Proof. destruct r as [l| |]; [|done..]. simpl. by destruct (decode_response_line l). Qed.

(** [send_request] on a live child with nothing pending is one [exchange]
    of the request's text. *)
Lemma send_request_live w pid p request :
  process (w_client w) = Some pid -> os_procs (w_os w) !! pid = Some p ->
  p_rc p = None -> p_inbuf p = [] ->
  send_request request w =
    (decode_outcome (exchange p (dumps request)).1,
     set_os w (set_procs (w_os w) (<[pid := (exchange p (dumps request)).2]> (os_procs (w_os w))))).
Proof.
  intros Hc Hp Hrc Hin. pose proof (encode_request_line_ok request) as Henc. pose proof (dumps_no_newline request).
  unfold send_request. run. rewrite Hc. run. rewrite Henc. run.
  rewrite os_op_seq, os_op_seq, bind_run.
  rewrite (os_op_run _ _ (exchange p (dumps request)).1
             (set_procs (w_os w) (<[pid := (exchange p (dumps request)).2]> (os_procs (w_os w))))).
  - apply lift_decode_run.
  - rewrite bind_assoc. by apply write_drain_readline.
Qed.

(** On a child that has exited, the write is dropped and [drain()]
    raises. *)
Lemma send_request_dead w pid p request c :
  process (w_client w) = Some pid -> os_procs (w_os w) !! pid = Some p -> p_rc p = Some c ->
  send_request request w = (Raised ConnectionResetError, w).
Proof.
  intros Hc Hp Hrc. pose proof (encode_request_line_ok request) as Henc.
  unfold send_request. run. rewrite Hc. run. rewrite Henc. run.
  rewrite os_op_seq, bind_run.
  rewrite (os_op_run _ _ (Raised ConnectionResetError) (w_os w)); [by rewrite set_os_self|].
  rewrite bind_run, (proc_write_dead _ pid p Hp _ c Hrc).
  rewrite (proc_drain_dead _ pid p) with (c := c) by (rewrite ?set_procs_lookup, ?lookup_insert_eq; done).
  by rewrite set_procs_lookup, set_procs_twice, insert_insert_eq, (insert_self _ pid p Hp).
Qed.

Lemma send_request_no_process w request :
  process (w_client w) = None -> send_request request w = (Raised not_connected, w).
Proof. intros Hc. unfold send_request. run. by rewrite Hc. Qed.

(** A complete line at the head of the child's output that fits the
    reader's limit is what [readline()] returns. *)
Lemma exchange_line p l line old :
  p_out (read_line p l) = line ++ 10%Z :: old -> 10%Z ∉ line ->
  (Z.of_nat (length line) <= stream_limit)%Z ->
  exchange p l = (Done (line ++ [10%Z]), set_out (read_line p l) old).
Proof.
  intros Hout Hnl Hlen. unfold exchange. rewrite Hout, readline_buf_line by done.
  by rewrite (proj2 (Z.ltb_ge _ _) Hlen).
Qed.

(** After the child exited, [readline()] sees the end of the file and
    never waits. *)
Lemma exchange_exit_not_blocked p l :
  is_Some (p_rc (read_line p l)) -> (exchange p l).1 <> Blocked.
Proof.
  intros Hrc. unfold exchange. rewrite bool_decide_eq_true_2 by done.
  unfold readline_buf. destruct (find_index _ _); [by destruct (_ <? _)%Z|].
  by destruct (_ <? _)%Z.
Qed.

Lemma send_request_readline w pid p request line old :
  process (w_client w) = Some pid -> os_procs (w_os w) !! pid = Some p ->
  p_rc p = None -> p_inbuf p = [] ->
  p_out (read_line p (dumps request)) = line ++ 10%Z :: old -> 10%Z ∉ line ->
  (Z.of_nat (length line) <= stream_limit)%Z ->
  send_request request w =
    (decode_outcome (Done (line ++ [10%Z])), set_os w (set_procs (w_os w)
       (<[pid := set_out (read_line p (dumps request)) old]> (os_procs (w_os w))))).
Proof.
  intros Hc Hp Hrc Hin Hout Hnl Hlen. rewrite (send_request_live w pid p) by done.
  by rewrite (exchange_line p _ line old).
Qed.

Lemma send_request_line w pid p request v old :
  process (w_client w) = Some pid -> os_procs (w_os w) !! pid = Some p ->
  p_rc p = None -> p_inbuf p = [] ->
  p_out (read_line p (dumps request)) = dumps v ++ 10%Z :: old ->
  json_wf v = true -> (Z.of_nat (length (dumps v)) <= stream_limit)%Z ->
  send_request request w =
    (Done v, set_os w (set_procs (w_os w)
       (<[pid := set_out (read_line p (dumps request)) old]> (os_procs (w_os w))))).
Proof.
  intros Hc Hp Hrc Hin Hout Hw Hlen.
  rewrite (send_request_readline w pid p request (dumps v) old) by (done || apply dumps_no_newline).
  cbn. by rewrite decode_dumps_line.
Qed.

Lemma send_request_reply w pid p request v rest :
  process (w_client w) = Some pid -> os_procs (w_os w) !! pid = Some p ->
  p_rc p = None -> p_inbuf p = [] -> p_out p = [] ->
  srv_answer (p_srv p) (p_lines p) (dumps request) = Emit (dumps v ++ 10%Z :: rest) ->
  json_wf v = true -> (Z.of_nat (length (dumps v)) <= stream_limit)%Z ->
  send_request request w =
    (Done v, set_os w (set_procs (w_os w)
       (<[pid := set_out (read_line p (dumps request)) rest]> (os_procs (w_os w))))).
Proof.
  intros Hc Hp Hrc Hin Hout Hans Hw Hlen. apply send_request_line; try done.
  unfold read_line. cbn. by rewrite Hans, Hout.
Qed.

(** ** Running [connect] *)

Lemma connect_config_error w e :
  connect_command (w_config w) = Err e -> connect w = (Raised e, w).
Proof. intros Hc. unfold connect. run. by rewrite bind_run, Hc. Qed.

Lemma connect_spawn_error w argv e o1 :
  connect_command (w_config w) = Ok argv -> spawn argv (w_os w) = (Raised e, o1) ->
  connect w = (Raised e, set_os w o1).
Proof.
  intros Hc Hs. unfold connect. run. rewrite Hc. run.
  rewrite bind_run. by rewrite (os_op_run _ _ _ _ Hs).
Qed.

Lemma connect_spawned w argv pid o1 :
  connect_command (w_config w) = Ok argv -> spawn argv (w_os w) = (Done pid, o1) ->
  connect w =
    match send_request init_request (set_client (set_os w o1) (set_process (w_client w) pid)) with
    | (Done _, w2) => (Done tt, set_client w2 (set_connected (w_client w2) true))
    | (Raised e, w2) => (Raised e, w2)
    | (Blocked, w2) => (Blocked, w2)
    end.
Proof.
  intros Hc Hs. unfold connect. run. rewrite Hc. run.
  rewrite bind_run, (os_op_run _ _ _ _ Hs).
  rewrite bind_run. cbn [modify]. rewrite bind_run.
  by destruct (send_request _ _) as [[| |] ?].
Qed.

(** ** Running [disconnect] *)

Lemma disconnect_live w pid p :
  process (w_client w) = Some pid -> os_procs (w_os w) !! pid = Some p -> p_rc p = None ->
  disconnect w = (Done tt, set_client (set_os w (set_procs (w_os w)
                    (<[pid := set_rc p (Some (-15)%Z)]> (os_procs (w_os w)))))
                    (set_connected (w_client w) false)).
Proof.
  intros Hc Hp Hrc. unfold disconnect. run. rewrite Hc.
  rewrite os_op_seq, bind_run, (os_op_run _ _ (Done (-15)%Z)
    (set_procs (w_os w) (<[pid := set_rc p (Some (-15)%Z)]> (os_procs (w_os w))))); [done|].
  rewrite bind_run, (proc_terminate_live _ pid p Hp Hrc).
  rewrite (proc_wait_exited _ pid (set_rc p (Some (-15)%Z))) with (c := (-15)%Z)
    by (rewrite ?set_procs_lookup, ?lookup_insert_eq; done).
  by rewrite set_procs_twice, set_procs_lookup, insert_insert_eq.
Qed.

Lemma disconnect_dead w pid p c :
  process (w_client w) = Some pid -> os_procs (w_os w) !! pid = Some p -> p_rc p = Some c ->
  disconnect w = (Raised ProcessLookupError, w).
Proof.
  intros Hc Hp Hrc. unfold disconnect. run. rewrite Hc.
  rewrite bind_run, (os_op_run _ _ _ _ (proc_terminate_dead _ pid p Hp c Hrc)).
  by rewrite insert_self, set_os_self.
Qed.

Lemma disconnect_no_process w : process (w_client w) = None -> disconnect w = (Done tt, w).
Proof. intros Hc. unfold disconnect. run. by rewrite Hc. Qed.

(** ** Properties of [MCPClient] *)

(** C5. The handshake: when the configuration names a command that the
    system runs, and the child answers the [initialize] line with any JSON
    value on one line, [connect] returns with [process] set to the new
    child and [connected] true, and the child has read exactly the
    [initialize] request.  Nothing of the reply is checked: an error
    response, or one with another id, connects as well. *)
Theorem connect_ready w argv args srv v rest :
  connect_command (w_config w) = Ok argv -> argv_strs argv = Some args ->
  os_programs (w_os w) args = Some srv -> srv_start srv = Emit [] ->
  srv_answer srv [] (dumps init_request) = Emit (dumps v ++ 10%Z :: rest) ->
  json_wf v = true -> (Z.of_nat (length (dumps v)) <= stream_limit)%Z ->
  exists w', connect w = (Done tt, w') /\
    w_client w' = {| process := Some (os_next (w_os w)); connected := true |} /\
    exists p', os_procs (w_os w') !! os_next (w_os w) = Some p' /\
               p_lines p' = [dumps init_request] /\ p_rc p' = None.
Proof.
  intros Hc Ha Hs Hstart Hans Hw Hlen.
  assert (new_proc srv = {| p_srv := srv; p_lines := []; p_inbuf := []; p_out := []; p_rc := None |})
    as Hnew by (unfold new_proc; by rewrite Hstart).
  rewrite (connect_spawned w argv _ _ Hc (spawn_run _ _ _ _ Ha Hs)).
  rewrite (send_request_reply _ (os_next (w_os w)) (new_proc srv) init_request v rest);
    rewrite ?Hnew; [|done|by world|done..].
  eexists. split; [reflexivity|]. split; [reflexivity|].
  eexists. split; [by world|].
  unfold read_line, set_out. cbn [p_lines p_rc p_srv app]. by rewrite Hans.
Qed.

Lemma connect_ready_witness :
  exists w', connect (demo_world echo_server) = (Done tt, w') /\
    w_client w' = {| process := Some 0; connected := true |} /\
    exists p', os_procs (w_os w') !! 0 = Some p' /\ p_lines p' = [dumps init_request] /\ p_rc p' = None.
Proof.
  apply (connect_ready (demo_world echo_server) [jstr "echo-server"] [str "echo-server"] echo_server init_request []);
    concrete.
Defined.

(** C2. [send_request] returns what the child answers: when the child
    answers the request's line with one line holding a JSON value [v] (of
    at most 64 KiB), [send_request] returns [v]; the child has read
    exactly the text of [json.dumps(request)], and the client's state is
    unchanged. *)
Theorem send_request_answer w pid p request v :
  process (w_client w) = Some pid -> os_procs (w_os w) !! pid = Some p ->
  p_rc p = None -> p_inbuf p = [] -> p_out p = [] ->
  srv_answer (p_srv p) (p_lines p) (dumps request) = Emit (dumps v ++ [10%Z]) ->
  json_wf v = true -> (Z.of_nat (length (dumps v)) <= stream_limit)%Z ->
  exists w', send_request request w = (Done v, w') /\ w_client w' = w_client w /\
    exists p', os_procs (w_os w') !! pid = Some p' /\ p_lines p' = p_lines p ++ [dumps request] /\
               p_out p' = [] /\ p_rc p' = None.
Proof.
  intros Hc Hp Hrc Hin Hout Hans Hw Hlen.
  rewrite (send_request_reply w pid p request v []) by done.
  eexists. split; [reflexivity|]. split; [done|]. eexists. split; [apply lookup_insert_eq|].
  unfold read_line. cbn. by rewrite Hans.
Qed.

Lemma send_request_answer_witness :
  exists w', send_request init_request (attached_world echo_server) = (Done init_request, w') /\
    w_client w' = {| process := Some 0; connected := true |} /\
    exists p', os_procs (w_os w') !! 0 = Some p' /\ p_lines p' = [] ++ [dumps init_request] /\
               p_out p' = [] /\ p_rc p' = None.
Proof.
  apply (send_request_answer (attached_world echo_server) 0 (new_proc echo_server));
    concrete.
Defined.

(** C3. Responses are not matched to requests: when a complete line is
    already waiting in the child's output (a notification, or the second
    line of an earlier answer), [send_request] returns the value on that
    line, whatever the child answers to the new request, and the answer
    stays in the buffer for the next call. *)
Theorem send_request_stale w pid p request v old out :
  process (w_client w) = Some pid -> os_procs (w_os w) !! pid = Some p ->
  p_rc p = None -> p_inbuf p = [] -> p_out p = dumps v ++ 10%Z :: old ->
  srv_answer (p_srv p) (p_lines p) (dumps request) = Emit out ->
  json_wf v = true -> (Z.of_nat (length (dumps v)) <= stream_limit)%Z ->
  exists w', send_request request w = (Done v, w') /\
    exists p', os_procs (w_os w') !! pid = Some p' /\ p_out p' = old ++ out.
Proof.
  intros Hc Hp Hrc Hin Hout Hans Hw Hlen.
  rewrite (send_request_line w pid p request v (old ++ out)); try done.
  - eexists. split; [reflexivity|]. eexists. split; [apply lookup_insert_eq|done].
  - unfold read_line. cbn. by rewrite Hans, Hout, <- app_assoc.
Qed.

Lemma send_request_stale_witness :
  exists w', send_request init_request (attached_world chatty_server) = (Done notification, w') /\
    exists p', os_procs (w_os w') !! 0 = Some p' /\ p_out p' = [] ++ dumps init_request ++ [10%Z].
Proof.
  apply (send_request_stale (attached_world chatty_server) 0 (new_proc chatty_server));
    concrete.
Defined.

(** C13. [disconnect] does not forget the child: after it stopped a live
    child, [connected] is false but [process] still holds the handle, so
    a second [disconnect] raises [ProcessLookupError] (the process is
    gone) and [send_request] does not raise its [not connected] error but
    [ConnectionResetError] from [drain()]. *)
Theorem disconnect_keeps_process w pid p request :
  process (w_client w) = Some pid -> os_procs (w_os w) !! pid = Some p -> p_rc p = None ->
  exists w1, disconnect w = (Done tt, w1) /\
    w_client w1 = {| process := Some pid; connected := false |} /\
    disconnect w1 = (Raised ProcessLookupError, w1) /\
    send_request request w1 = (Raised ConnectionResetError, w1).
Proof.
  intros Hc Hp Hrc. rewrite (disconnect_live w pid p) by done.
  eexists. split; [reflexivity|]. split; [unfold set_client, set_connected; cbn; by rewrite Hc|].
  split; [eapply disconnect_dead|eapply send_request_dead];
    unfold set_client, set_connected, set_os; cbn; solve [by rewrite Hc | by rewrite lookup_insert_eq | done].
Qed.

Lemma disconnect_keeps_process_witness :
  exists w1, disconnect (attached_world echo_server) = (Done tt, w1) /\
    w_client w1 = {| process := Some 0; connected := false |} /\
    disconnect w1 = (Raised ProcessLookupError, w1) /\
    send_request init_request w1 = (Raised ConnectionResetError, w1).
Proof. apply (disconnect_keeps_process _ 0 (new_proc echo_server)); reflexivity. Defined.

(** C17. A child that exits while answering never leaves [send_request]
    waiting: [readline()] sees the end of the file, so the call returns
    or raises. *)
Theorem send_request_exit_no_block w pid p request :
  process (w_client w) = Some pid -> os_procs (w_os w) !! pid = Some p ->
  p_rc p = None -> p_inbuf p = [] ->
  is_Some (reply_rc (srv_answer (p_srv p) (p_lines p) (dumps request))) ->
  (send_request request w).1 <> Blocked.
Proof.
  intros Hc Hp Hrc Hin Hexit. rewrite (send_request_live w pid p) by done. cbn [fst].
  pose proof (exchange_exit_not_blocked p (dumps request) Hexit) as Hnb.
  destruct (exchange p (dumps request)) as [[l| |] ?]; cbn in *; [|done..].
  by destruct (decode_response_line l).
Qed.

(** C18. A child that stays alive and writes no complete line in answer
    (up to 64 KiB) leaves [send_request] waiting for ever: there is no
    timeout. *)
Theorem send_request_hangs w pid p request out :
  process (w_client w) = Some pid -> os_procs (w_os w) !! pid = Some p ->
  p_rc p = None -> p_inbuf p = [] ->
  srv_answer (p_srv p) (p_lines p) (dumps request) = Emit out ->
  10%Z ∉ p_out p ++ out -> (Z.of_nat (length (p_out p ++ out)) <= stream_limit)%Z ->
  (send_request request w).1 = Blocked.
Proof.
  intros Hc Hp Hrc Hin Hans Hnl Hlen. rewrite (send_request_live w pid p) by done.
  unfold exchange, read_line. cbn [fst]. rewrite Hans. cbn [p_out p_rc reply_out reply_rc].
  rewrite bool_decide_eq_false_2 by (intros []; discriminate).
  rewrite readline_buf_partial by done. by rewrite (proj2 (Z.ltb_ge _ _) Hlen).
Qed.

Lemma send_request_exit_no_block_witness :
  (send_request init_request (attached_world exit_server)).1 <> Blocked.
Proof. apply (send_request_exit_no_block _ 0 (new_proc exit_server)); reflexivity || by eexists. Defined.

Lemma send_request_hangs_witness :
  (send_request init_request (attached_world silent_server)).1 = Blocked.
Proof.
  apply (send_request_hangs _ 0 (new_proc silent_server) _ []);
    concrete.
Defined.

(** C19. A child that exits as soon as it starts makes [connect] raise
    [ConnectionResetError] (from [drain()]) instead of waiting; [process]
    then holds the dead child's handle and [connected] is unchanged. *)
Theorem connect_child_exited w argv args srv out c :
  connect_command (w_config w) = Ok argv -> argv_strs argv = Some args ->
  os_programs (w_os w) args = Some srv -> srv_start srv = EmitExit out c ->
  exists w', connect w = (Raised ConnectionResetError, w') /\
    w_client w' = {| process := Some (os_next (w_os w)); connected := connected (w_client w) |}.
Proof.
  intros Hc Ha Hs Hstart.
  rewrite (connect_spawned w argv _ _ Hc (spawn_run _ _ _ _ Ha Hs)).
  rewrite (send_request_dead _ (os_next (w_os w)) (new_proc srv) init_request c);
    [by eexists|done|by world|by unfold new_proc; rewrite Hstart].
Qed.

Lemma connect_child_exited_witness :
  exists w', connect (demo_world dead_server) = (Raised ConnectionResetError, w') /\
    w_client w' = {| process := Some 0; connected := false |}.
Proof.
  apply (connect_child_exited (demo_world dead_server) [jstr "echo-server"] [str "echo-server"]
           dead_server [] 127); reflexivity.
Defined.

(** C15. A handshake answered by a line that is not JSON makes [connect]
    raise the decoder's exception, but the child it started keeps
    running and [process] keeps its handle: nothing terminates it, and
    [connected] keeps its previous value. *)
Theorem connect_bad_handshake w argv args srv line rest e :
  connect_command (w_config w) = Ok argv -> argv_strs argv = Some args ->
  os_programs (w_os w) args = Some srv -> srv_start srv = Emit [] ->
  srv_answer srv [] (dumps init_request) = Emit (line ++ 10%Z :: rest) ->
  10%Z ∉ line -> (Z.of_nat (length line) <= stream_limit)%Z ->
  decode_response_line (line ++ [10%Z]) = Err e ->
  exists w', connect w = (Raised e, w') /\
    w_client w' = {| process := Some (os_next (w_os w)); connected := connected (w_client w) |} /\
    exists p', os_procs (w_os w') !! os_next (w_os w) = Some p' /\ p_rc p' = None.
Proof.
  intros Hc Ha Hs Hstart Hans Hnl Hlen Hdec.
  assert (new_proc srv = {| p_srv := srv; p_lines := []; p_inbuf := []; p_out := []; p_rc := None |})
    as Hnew by (unfold new_proc; by rewrite Hstart).
  rewrite (connect_spawned w argv _ _ Hc (spawn_run _ _ _ _ Ha Hs)).
  rewrite (send_request_readline _ (os_next (w_os w)) (new_proc srv) init_request line rest);
    rewrite ?Hnew; [|done|by world|done|done|by unfold read_line; cbn [p_out p_srv p_lines]; rewrite Hans|done|done].
  cbn [decode_outcome]. rewrite Hdec. eexists. split; [reflexivity|]. split; [reflexivity|].
  eexists. split; [by world|].
  unfold read_line, set_out. cbn [p_rc p_srv p_lines]. by rewrite Hans.
Qed.

Lemma connect_bad_handshake_witness :
  exists w', connect (demo_world hello_server) = (Raised (JSONDecodeError "Expecting value" (str "hello") 0%Z), w') /\
    w_client w' = {| process := Some 0; connected := false |} /\
    exists p', os_procs (w_os w') !! 0 = Some p' /\ p_rc p' = None.
Proof.
  apply (connect_bad_handshake (demo_world hello_server) [jstr "echo-server"] [str "echo-server"]
           hello_server [104; 101; 108; 108; 111]%Z []);
    concrete.
Defined.

(** ** The invariant *)

Lemma send_request_client request w : w_client (send_request request w).2 = w_client w.
Proof.
  unfold send_request. run. destruct (process (w_client w)) as [pid|]; [|done].
  run. rewrite encode_request_line_ok. run. rewrite os_op_seq, os_op_seq, bind_run.
  unfold os_op at 1, focus.
  destruct (((proc_write pid (dumps request ++ [10%Z]) ;; proc_drain pid) ;; proc_readline pid) (w_os w))
    as [[l| |] o']; cbn; [|done..].
  by destruct (decode_response_line l).
Qed.

Lemma client_wf_set_os w o : client_wf w -> os_wf o ->
  (forall pid p, process (w_client w) = Some pid -> os_procs (w_os w) !! pid = Some p ->
     exists p', os_procs o !! pid = Some p' /\ (p_rc p' = None -> p_inbuf p' = [])) ->
  client_wf (set_os w o).
Proof.
  intros (Hos & Hpid & Hconn) Ho Hkeep. split; [done|]. split; [|done].
  intros pid Hc. destruct (Hpid pid Hc) as (p & Hp & _). by apply (Hkeep pid p).
Qed.

Lemma send_request_wf request w : client_wf w -> client_wf (send_request request w).2.
Proof.
  intros Hwf. pose proof Hwf as (Hos & Hpid & Hconn).
  destruct (process (w_client w)) as [pid|] eqn:Hc; [|by rewrite send_request_no_process].
  destruct (Hpid pid eq_refl) as (p & Hp & Hin).
  destruct (p_rc p) as [c|] eqn:Hrc; [by erewrite send_request_dead|].
  rewrite (send_request_live w pid p) by auto. apply client_wf_set_os; [done|by apply os_wf_insert|].
  intros q p' Hq _. rewrite Hc in Hq. injection Hq as <-.
  exists (exchange p (dumps request)).2. rewrite set_procs_lookup, lookup_insert_eq.
  split; [done|intros _; apply exchange_inbuf].
Qed.

Lemma connect_wf w : client_wf w -> client_wf (connect w).2.
Proof.
  intros Hwf. destruct (connect_command (w_config w)) as [argv|e] eqn:Hc;
    [|by rewrite (connect_config_error w e Hc)].
  destruct (spawn argv (w_os w)) as [[pid|e|] o1] eqn:Hs.
  - rewrite (connect_spawned w argv pid o1 Hc Hs).
    apply spawn_done in Hs as (srv & -> & ->).
    set (w1 := set_client _ _).
    assert (client_wf w1) as Hw1.
    { destruct Hwf as (Hos & _ & _). split; [by apply os_wf_add|].
      split; [|by eexists]. intros q [= <-]. exists (new_proc srv). cbn. rewrite lookup_insert_eq.
      split; [done|by intros _]. }
    pose proof (send_request_wf init_request w1 Hw1) as Hw2. pose proof (send_request_client init_request w1) as Hcl.
    destruct (send_request init_request w1) as [[| |] w2]; [|done..].
    destruct Hw2 as (Hos2 & Hpid2 & _). split; [done|]. split; [done|].
    intros _. cbn in Hcl |- *. rewrite Hcl. by eexists.
  - rewrite (connect_spawn_error w argv e o1 Hc Hs). apply spawn_raised in Hs as ->. by rewrite set_os_self.
  - by apply spawn_not_blocked in Hs.
Qed.

Lemma disconnect_wf w : client_wf w -> client_wf (disconnect w).2.
Proof.
  intros Hwf. pose proof Hwf as (Hos & Hpid & Hconn).
  destruct (process (w_client w)) as [pid|] eqn:Hc; [|by rewrite disconnect_no_process].
  destruct (Hpid pid eq_refl) as (p & Hp & Hin).
  destruct (p_rc p) as [c|] eqn:Hrc; [by erewrite disconnect_dead|].
  rewrite (disconnect_live w pid p) by done.
  split; [by apply os_wf_insert|]. split; [|done].
  intros q Hq. cbn in Hq. rewrite Hc in Hq. injection Hq as <-.
  exists (set_rc p (Some (-15)%Z)). cbn. rewrite lookup_insert_eq. split; [done|discriminate].
Qed.

(** [disconnect] can only raise [ProcessLookupError]. *)
Lemma disconnect_raises w e w' : disconnect w = (Raised e, w') -> e = ProcessLookupError.
Proof.
  unfold disconnect. run. destruct (process (w_client w)) as [pid|]; [|done].
  rewrite os_op_seq, bind_run. unfold os_op at 1, focus.
  destruct ((proc_terminate pid ;; proc_wait pid) (w_os w)) as [[|e'|] o'] eqn:H; cbn; try done.
  intros [= <- _]. rewrite bind_run in H.
  destruct (proc_terminate pid (w_os w)) as [[|e''|] o''] eqn:Ht.
  - by eapply proc_wait_raises.
  - injection H as <- _. by eapply proc_terminate_raises.
  - discriminate.
Qed.

(** [send_request] changes no process but the client's. *)
Lemma send_request_other request w pid :
  process (w_client w) <> Some pid ->
  os_procs (w_os (send_request request w).2) !! pid = os_procs (w_os w) !! pid.
Proof.
  intros Hne. unfold send_request. run.
  destruct (process (w_client w)) as [q|]; [|done].
  run. rewrite encode_request_line_ok. run. rewrite os_op_seq, os_op_seq, bind_run.
  unfold os_op at 1, focus. rewrite <- (keeps_others_exchange q (dumps request ++ [10%Z]) (w_os w) pid)
    by congruence. rewrite bind_assoc.
  destruct ((proc_write q _ ;; proc_drain q ;; proc_readline q) (w_os w)) as [[l| |] o']; cbn; [|done..].
  by destruct (decode_response_line l).
Qed.

(** C14. [connect] does not stop the child it replaces: when the client
    already holds a child [pid] and [connect] succeeds again, the old
    child is left in the table exactly as it was (running, if it was
    running), and the client no longer holds its handle. *)
Theorem connect_leaks_old_child w pid p w' :
  client_wf w -> process (w_client w) = Some pid -> os_procs (w_os w) !! pid = Some p ->
  connect w = (Done tt, w') ->
  os_procs (w_os w') !! pid = Some p /\ process (w_client w') <> Some pid.
Proof.
  intros Hwf Hc Hp Hconn. pose proof Hwf as (Hos & _ & _).
  assert (pid < os_next (w_os w)) as Hlt by (apply Hos; by rewrite Hp).
  destruct (connect_command (w_config w)) as [argv|e] eqn:Hcmd;
    [|by rewrite (connect_config_error w e Hcmd) in Hconn].
  destruct (spawn argv (w_os w)) as [[pid'|e|] o1] eqn:Hs.
  - rewrite (connect_spawned w argv pid' o1 Hcmd Hs) in Hconn.
    apply spawn_done in Hs as (srv & -> & ->). set (w1 := set_client _ _) in Hconn.
    assert (process (w_client w1) = Some (os_next (w_os w))) as Hc1 by done.
    pose proof (send_request_other init_request w1 pid) as Hother.
    pose proof (send_request_client init_request w1) as Hcl.
    destruct (send_request init_request w1) as [[| |] w2]; [|done..]. injection Hconn as <-.
    cbn [snd] in Hother, Hcl. unfold set_client, set_connected. cbn [w_os w_client process].
    rewrite Hother by (rewrite Hc1; intros [=]; lia). rewrite Hcl, Hc1.
    split; [|intros [=]; lia]. unfold w1, set_client, set_os. cbn [w_os os_procs].
    by rewrite lookup_insert_ne by lia.
  - by rewrite (connect_spawn_error w argv e o1 Hcmd Hs) in Hconn.
  - by apply spawn_not_blocked in Hs.
Qed.

Lemma connect_leaks_old_child_witness :
  let w0 := (connect (demo_world echo_server)).2 in
  exists p, os_procs (w_os w0) !! 0 = Some p /\
    os_procs (w_os (connect w0).2) !! 0 = Some p /\ process (w_client (connect w0).2) <> Some 0.
Proof.
  intros w0. destruct (os_procs (w_os w0) !! 0) as [p|] eqn:Hp; [|vm_compute in Hp; discriminate].
  exists p. split; [done|]. apply (connect_leaks_old_child w0 0 p).
  - apply connect_wf. split; [intros q [? Hq]; discriminate|]. split; [done|done].
  - vm_compute. reflexivity.
  - exact Hp.
  - vm_compute. reflexivity.
Defined.
