(* ===== verification/Response.v ===== *)
(** * What a route answers: [str(e)] and the [MCPResponse] body

    The three routes that call the server end in
    [MCPResponse(success=False, error=str(e))] on every exception (lines
    178-179, 202-203, 223-224); [FastAPI] sends the model's fields as a
    JSON object [{success, result, error}].  This file models the text
    [str(e)] of the exceptions the model raises and the body of a
    response:

    - [HTTPException.__str__] of Starlette is [f"{status_code}: {detail}"],
      where a [detail] of [None] has been replaced by the status phrase;
      [f"{detail}"] is [str(detail)], which for a dict or a list is its
      [repr()], for a [str] the string itself;
    - [unicode_repr] of [Objects/unicodeobject.c] writes a string between
      single quotes, or double quotes when it holds a single quote and no
      double one, with [\\] escapes for the quote, the backslash, [\t \n
      \r] and the non-printable characters.  Whether a non-ASCII code point
      is printable is a property of the Unicode database
      ([Py_UNICODE_ISPRINTABLE]); it is the Section variable [isprintable],
      and every theorem holds for any choice of it;
    - the exceptions with a fixed text ([Exception(msg)], asyncio's
      [ValueError] and [RuntimeError] of [readline()], [ConnectionResetError('Connection
      lost')], [ProcessLookupError()], [IndexError]) have it; a
      [JSONDecodeError] has [JSONDecodeError.__init__]'s
      ['%s: line %d column %d (char %d)'] ([decode_error_text]); the codec
      errors have [UnicodeEncodeError_str] and [UnicodeDecodeError_str] of
      [Objects/exceptions.c] ([unicode_error_str]); [FileNotFoundError]
      has [OSError_str]'s ['[Errno 2] No such file or directory: ' +
      repr(filename)], [KeyError] the [repr] of its key, [TypeError] and
      [AttributeError] the message built where they are raised, and the
      [ValueError] of an integer over 4300 digits [PyLong_FromString]'s
      text. *)

From S2P Require Import Prelude Json Utf8 JsonDump JsonLoad Codec Config Process Client Bridge.
From stdpp Require Import gmap.

(** The members of [http.HTTPStatus] ([Lib/http/__init__.py]): each
    status code with its phrase. *)
Definition http_status_phrases : list (Z * String.string) :=
  [(100%Z, "Continue"); (101%Z, "Switching Protocols"); (102%Z, "Processing");
   (103%Z, "Early Hints"); (200%Z, "OK"); (201%Z, "Created"); (202%Z, "Accepted");
   (203%Z, "Non-Authoritative Information"); (204%Z, "No Content"); (205%Z, "Reset Content");
   (206%Z, "Partial Content"); (207%Z, "Multi-Status"); (208%Z, "Already Reported");
   (226%Z, "IM Used"); (300%Z, "Multiple Choices"); (301%Z, "Moved Permanently"); (302%Z, "Found");
   (303%Z, "See Other"); (304%Z, "Not Modified"); (305%Z, "Use Proxy");
   (307%Z, "Temporary Redirect"); (308%Z, "Permanent Redirect"); (400%Z, "Bad Request");
   (401%Z, "Unauthorized"); (402%Z, "Payment Required"); (403%Z, "Forbidden");
   (404%Z, "Not Found"); (405%Z, "Method Not Allowed"); (406%Z, "Not Acceptable");
   (407%Z, "Proxy Authentication Required"); (408%Z, "Request Timeout"); (409%Z, "Conflict");
   (410%Z, "Gone"); (411%Z, "Length Required"); (412%Z, "Precondition Failed");
   (413%Z, "Request Entity Too Large"); (414%Z, "Request-URI Too Long");
   (415%Z, "Unsupported Media Type"); (416%Z, "Requested Range Not Satisfiable");
   (417%Z, "Expectation Failed"); (418%Z, "I'm a Teapot"); (421%Z, "Misdirected Request");
   (422%Z, "Unprocessable Entity"); (423%Z, "Locked"); (424%Z, "Failed Dependency");
   (425%Z, "Too Early"); (426%Z, "Upgrade Required"); (428%Z, "Precondition Required");
   (429%Z, "Too Many Requests"); (431%Z, "Request Header Fields Too Large");
   (451%Z, "Unavailable For Legal Reasons"); (500%Z, "Internal Server Error");
   (501%Z, "Not Implemented"); (502%Z, "Bad Gateway"); (503%Z, "Service Unavailable");
   (504%Z, "Gateway Timeout"); (505%Z, "HTTP Version Not Supported");
   (506%Z, "Variant Also Negotiates"); (507%Z, "Insufficient Storage"); (508%Z, "Loop Detected");
   (510%Z, "Not Extended"); (511%Z, "Network Authentication Required")]%string.

(** [http.HTTPStatus(code).phrase]; [None] when [code] is not a member,
    where [HTTPStatus(code)] raises [ValueError]. *)
Definition http_phrase (code : Z) : option pystr :=
  str ∘ snd <$> find (fun cp => (cp.1 =? code)%Z) http_status_phrases.

Section Repr.
(** [Py_UNICODE_ISPRINTABLE] of a non-ASCII code point. *)
Variable isprintable : Z -> bool.

(** [n] lowercase hex digits of [v], the most significant first. *)
Definition hex_digits (n : nat) (v : Z) : pystr :=
  map (fun k => hexdigit (Z.land (Z.shiftr v (4 * Z.of_nat k)) 0xF)) (rev (seq 0 n)).

(** The characters [unicode_repr] writes for [ch] inside [quote]s. *)
Definition repr_char (quote ch : Z) : pystr :=
  (if (ch =? quote) || (ch =? 92) then [92; ch]
   else if ch =? 9 then [92; 116]
   else if ch =? 10 then [92; 110]
   else if ch =? 13 then [92; 114]
   else if (ch <? 32) || (ch =? 0x7F) then [92; 120] ++ hex_digits 2 ch
   else if ch <? 0x7F then [ch]
   else if isprintable ch then [ch]
   else if ch <=? 0xFF then [92; 120] ++ hex_digits 2 ch
   else if ch <=? 0xFFFF then [92; 117] ++ hex_digits 4 ch
   else [92; 85] ++ hex_digits 8 ch)%Z.

(** [unicode_repr(s)]: single quotes unless [s] holds a single quote and
    no double quote. *)
Definition unicode_repr (s : pystr) : pystr :=
  let quote := if bool_decide (39%Z ∈ s) && negb (bool_decide (34%Z ∈ s)) then 34%Z else 39%Z in
  [quote] ++ flat_map (repr_char quote) s ++ [quote].

(** [", ".join(parts)] *)
Definition join_comma (parts : list pystr) : pystr :=
  match parts with
  | [] => []
  | p :: ps => p ++ flat_map (fun q => str ", " ++ q) ps
  end.

(** [repr(v)] of a decoded value: [None], [True], [False], an [int], a
    [str], a [list] and a [dict] (in insertion order). *)
Fixpoint py_repr (v : json) : pystr :=
  match v with
  | JNull => str "None"
  | JBool true => str "True"
  | JBool false => str "False"
  | JInt z => int_repr z
  | JStr s => unicode_repr s
  | JArr l => str "[" ++ join_comma (map py_repr l) ++ str "]"
  | JObj kvs => str "{" ++ join_comma (map (fun kv => unicode_repr kv.1 ++ str ": " ++ py_repr kv.2) kvs) ++ str "}"
  end.

(** [str(v)]: a [str] is itself, anything else its [repr]. *)
Definition py_str (v : json) : pystr :=
  match v with JStr s => s | _ => py_repr v end.

(** The character of [UnicodeEncodeError_str]: ['\xNN'], ['\uNNNN'] or
    ['\UNNNNNNNN'] by the size of the code point. *)
Definition encode_error_char (c : Z) : pystr :=
  [39%Z; 92%Z] ++
    (if (c <=? 0xFF)%Z then 120%Z :: hex_digits 2 c
     else if (c <=? 0xFFFF)%Z then 117%Z :: hex_digits 4 c
     else 85%Z :: hex_digits 8 c) ++ [39%Z].

(** [UnicodeEncodeError_str] and [UnicodeDecodeError_str] of
    [Objects/exceptions.c]: one character (byte) when [end == start+1] and
    [start] is inside the object, a range [start-(end-1)] otherwise. *)
Definition unicode_error_str (decode : bool) (enc : String.string) (obj : list Z) (start end_ : Z)
    (reason : String.string) : pystr :=
  let verb := if decode then str "' codec can't decode " else str "' codec can't encode " in
  let one := if decode then str "byte 0x" ++ hex_digits 2 (nth (Z.to_nat start) obj 0%Z)
             else str "character " ++ encode_error_char (nth (Z.to_nat start) obj 0%Z) in
  let many := if decode then str "bytes" else str "characters" in
  [39%Z] ++ str enc ++ verb ++
    (if (start <? Z.of_nat (length obj))%Z && (end_ =? start + 1)%Z
     then one ++ str " in position " ++ int_repr start
     else many ++ str " in position " ++ int_repr start ++ str "-" ++ int_repr (end_ - 1))
    ++ str ": " ++ str reason.

(** [str(e)]: the [__str__] of each exception class. *)
Definition exn_str (e : exn) : pystr :=
  match e with
  | Exception msg => str msg
  | HTTPException code detail =>
      int_repr code ++ str ": " ++
        match detail with
        | JNull => default [] (http_phrase code)
        | d => py_str d
        end
  | ValueError msg => str msg
  | IntDigitsError n =>
      str "Exceeds the limit (" ++ int_repr (Z.of_nat int_max_str_digits) ++
      str " digits) for integer string conversion: value has " ++ int_repr (Z.of_nat n) ++
      str " digits; use sys.set_int_max_str_digits() to increase the limit"
  | RuntimeError => str "readuntil() called while another coroutine is already waiting for incoming data"
  | ConnectionResetError => str "Connection lost"
  | ProcessLookupError => []
  | IndexError => str "list index out of range"
  | JSONDecodeError msg doc pos => decode_error_text msg doc pos
  | UnicodeDecodeError enc obj start end_ reason => unicode_error_str true enc obj start end_ reason
  | UnicodeEncodeError enc obj start end_ reason => unicode_error_str false enc obj start end_ reason
  | FileNotFoundError filename => str "[Errno 2] No such file or directory: " ++ unicode_repr filename
  | TypeError msg => msg
  | AttributeError msg => msg
  | KeyError key => unicode_repr key
  | FloatNotModelled => []
  end.

(** The JSON body of an [MCPResponse]: its fields in their order, the
    error as [str(e)]. *)
Definition response_body (r : mcp_response) : json :=
  JObj [kv "success" (JBool (success r)); kv "result" (result r);
        kv "error" (match error r with None => JNull | Some e => JStr (exn_str e) end)].

(** The content [FastAPI] sends for what a handler returns
    ([jsonable_encoder] of the model's fields, or of the dict). *)
Definition route_body (a : answer) : json :=
  match a with
  | AResp r => response_body r
  | AJson j => j
  | ANone => JNull
  end.
End Repr.

(** The routes that call the server. *)
Definition calls_server (ev : event) : bool :=
  match ev with GetTools | PostToolsCall _ | PostMcpRequest _ => true | _ => false end.

(** The body of a failed call. *)
Definition failure_body (text : pystr) : json :=
  JObj [kv "success" (JBool false); kv "result" JNull; kv "error" (JStr text)].

(** A server that answers every line with [{"id" 2}], where the colon is
    missing. *)
Definition colon_server : server :=
  {| srv_start := Emit []; srv_answer := fun _ _ => Emit (jtext "{'id' 2}" ++ [10%Z]) |}.

(** ** Lemmas *)

(** The text of the [HTTPException] the routes raise on an [error] key. *)
Lemma remote_error_text isprintable d :
  exn_str isprintable (HTTPException 500 d) =
    str "500: " ++ match d with JNull => str "Internal Server Error" | _ => py_str isprintable d end.
Proof. by destruct d. Qed.

Lemma handle_call_tool tc w :
  handle (PostToolsCall tc) w = match call_tool tc w with
                                | (Done r, w') => (Done (AResp r), w')
                                | (Raised e, w') => (Raised e, w')
                                | (Blocked, w') => (Blocked, w') end.
Proof. unfold handle. rewrite bind_run. by destruct (call_tool tc w) as [[| |] ?]. Qed.

(** C32. The text of a remote error: when the child answers
    [POST /tools/call] with an [error] member [d], the route returns
    normally (so [FastAPI] answers with status 200) the body
    [{success: false, result: null, error: "500: " + str(d)}], and with
    [error: "500: Internal Server Error"] when [d] is [null], whatever
    [result] the answer also holds: the error object reaches the caller as
    the Python [repr] of a dict, not as the object. *)
Theorem call_tool_error_body isprintable w pid p tc kvs d rest :
  process (w_client w) = Some pid -> os_procs (w_os w) !! pid = Some p ->
  p_rc p = None -> p_inbuf p = [] -> p_out p = [] ->
  srv_answer (p_srv p) (p_lines p) (dumps (call_tool_request tc)) = Emit (dumps (JObj kvs) ++ 10%Z :: rest) ->
  json_wf (JObj kvs) = true -> (Z.of_nat (length (dumps (JObj kvs))) <= stream_limit)%Z ->
  dict_get (str "error") kvs = Some d ->
  exists a w', handle (PostToolsCall tc) w = (Done a, w') /\ w_client w' = w_client w /\
    route_body isprintable a =
      failure_body (str "500: " ++ match d with JNull => str "Internal Server Error"
                                          | _ => py_str isprintable d end).
Proof.
  intros Hc Hp Hrc Hin Hout Hans Hw Hlen Hd. rewrite handle_call_tool. unfold call_tool.
  rewrite endpoint_run, (send_request_reply w pid p _ (JObj kvs) rest) by done.
  rewrite (respond_remote_error _ d) by done. do 2 eexists. split; [reflexivity|]. split; [done|].
  unfold route_body, response_body, failure_body. cbn [error success result]. by rewrite remote_error_text.
Qed.

Lemma call_tool_error_body_witness :
  exists a w', handle (PostToolsCall demo_tool_call) (attached_world (reply_server error_reply)) = (Done a, w') /\
    w_client w' = w_client (attached_world (reply_server error_reply)) /\
    route_body (fun _ => true) a =
      failure_body (str "500: {'code': -32601, 'message': 'Method not found'}").
Proof.
  destruct (call_tool_error_body (fun _ => true) (attached_world (reply_server error_reply)) 0
              (new_proc (reply_server error_reply)) demo_tool_call
              (match error_reply with JObj l => l | _ => [] end) method_not_found [])
    as (a & w' & H1 & H2 & H3); [concrete..|].
  exists a, w'. split; [exact H1|]. split; [exact H2|]. rewrite H3. reflexivity.
Defined.

(** C33. The routes without a server: when the client has no process (no
    configuration, or [connect] failed at startup), each of [GET /tools],
    [POST /tools/call] and [POST /mcp/request] returns normally, leaves
    the world as it is, and answers
    [{success: false, result: null, error: "MCP server not connected"}]. *)
Theorem routes_not_connected isprintable ev w :
  calls_server ev = true -> process (w_client w) = None ->
  exists a, handle ev w = (Done a, w) /\
    route_body isprintable a = failure_body (str "MCP server not connected").
Proof.
  intros Hev Hc. destruct ev; try discriminate; unfold handle; rewrite bind_run;
    unfold list_tools, call_tool, send_mcp_request;
    rewrite endpoint_run, send_request_no_process by done; eexists; split; reflexivity.
Qed.

Lemma routes_not_connected_witness :
  exists a, handle GetTools (demo_world echo_server) = (Done a, demo_world echo_server) /\
    route_body (fun _ => false) a = failure_body (str "MCP server not connected").
Proof. apply routes_not_connected; reflexivity. Defined.

(** C25. The text of a reply that is not JSON: when the child answers
    [GET /tools] with a line that decodes as UTF-8 but that [json.loads]
    rejects with [msg] at the position [pos], the route returns normally
    (status 200), the client is unchanged, and the body is
    [{success: false, result: null, error: "<msg>: line 1 column <pos+1>
    (char <pos>)"}]: the reply is one line, so [JSONDecodeError] always
    counts line 1, and its column is the position plus one. *)
Theorem list_tools_json_error_text isprintable w pid p line rest msg doc pos :
  process (w_client w) = Some pid -> os_procs (w_os w) !! pid = Some p ->
  p_rc p = None -> p_inbuf p = [] -> p_out p = [] ->
  srv_answer (p_srv p) (p_lines p) (dumps list_tools_request) = Emit (line ++ 10%Z :: rest) ->
  10%Z ∉ line -> (Z.of_nat (length line) <= stream_limit)%Z ->
  decode_response_line (line ++ [10%Z]) = Err (JSONDecodeError msg doc pos) ->
  exists a w', handle GetTools w = (Done a, w') /\ w_client w' = w_client w /\
    route_body isprintable a =
      failure_body (str msg ++ str ": line 1 column " ++ int_repr (pos + 1) ++ str " (char " ++ int_repr pos ++ str ")").
Proof.
  intros Hc Hp Hrc Hin Hout Hans Hnl Hlen Hdec. unfold handle. rewrite bind_run. unfold list_tools.
  rewrite endpoint_run, (send_request_readline w pid p _ line rest) by
    (try done; unfold read_line; by rewrite Hout, Hans).
  cbn [decode_outcome]. rewrite Hdec. do 2 eexists. split; [reflexivity|]. split; [done|].
  cbn [route_body response_body error success result exn_str].
  unfold response_body. cbn [error success result exn_str]. rewrite decode_error_one_line; [reflexivity|]. by eapply decode_response_line_one_line.
Qed.

Lemma list_tools_json_error_text_witness :
  exists a w', handle GetTools (attached_world colon_server) = (Done a, w') /\
    w_client w' = w_client (attached_world colon_server) /\
    route_body (fun _ => true) a =
      failure_body (str "Expecting ':' delimiter: line 1 column 7 (char 6)").
Proof.
  destruct (list_tools_json_error_text (fun _ => true) (attached_world colon_server) 0 (new_proc colon_server)
              (jtext "{'id' 2}") [] "Expecting ':' delimiter"%string (jtext "{'id' 2}") 6)
    as (a & w' & H1 & H2 & H3); [concrete..|].
  exists a, w'. split; [exact H1|]. split; [exact H2|]. rewrite H3. reflexivity.
Defined.
