(* ===== verification/Cors.v ===== *)
(** * The CORS middleware (lines 17-23)

    [app.add_middleware(CORSMiddleware, allow_origins=["*"],
    allow_credentials=True, allow_methods=["*"], allow_headers=["*"])]
    wraps every route in Starlette's [CORSMiddleware]
    ([starlette/middleware/cors.py]):

    - [__init__] ([cors_init]) expands ["*"] in [allow_methods] to all
      methods, and precomputes the headers of the simple and of the
      preflight responses; with [allow_credentials] the preflight echoes
      the request's origin ([preflight_explicit_allow_origin]);
    - [__call__] ([cors_call]) passes a request without [Origin] to the
      application, answers a preflight ([OPTIONS] with
      [Access-Control-Request-Method]) itself ([preflight_response]), and
      adds headers to the application's answer otherwise ([cors_send]),
      with the origin itself when the request carries a cookie;
    - headers are Starlette's [Headers]: a list of (lowercased name, value)
      pairs, read by the first entry of a name, written by
      [MutableHeaders.__setitem__] ([hset]).

    The application is any coroutine from requests to responses over any
    state: the middleware does not look into it.  A preflight is answered
    without running it.  The defaults of the arguments the
    code does not pass ([allow_origin_regex=None], [expose_headers=()],
    [max_age=600]) are written out.  Header text is decoded as latin-1, so
    [str.lower] is written for code points up to [0xFF]. *)

From S2P Require Import Prelude Json JsonDump Codec.

(** ** Strings *)

(** [str.lower()] on latin-1 text. *)
Definition latin1_lower (c : Z) : Z :=
  (if ((65 <=? c) && (c <=? 90)) || ((0xC0 <=? c) && (c <=? 0xDE) && negb (c =? 0xD7)) then c + 32 else c)%Z.

Definition py_lower (s : pystr) : pystr := map latin1_lower s.

(** [sep.join(parts)] *)
Definition join (sep : pystr) (parts : list pystr) : pystr :=
  match parts with
  | [] => []
  | p :: ps => p ++ flat_map (fun q => sep ++ q) ps
  end.

(** [s.split(",")] *)
Fixpoint split_comma (s : pystr) : list pystr :=
  match s with
  | [] => [[]]
  | c :: r =>
      if (c =? 44)%Z then [] :: split_comma r
      else match split_comma r with
           | w :: ws => (c :: w) :: ws
           | [] => [[c]]
           end
  end.

(** Python's [<] on [str]: code points, lexicographically. *)
Fixpoint str_ltb (a b : pystr) : bool :=
  match a, b with
  | _, [] => false
  | [], _ :: _ => true
  | x :: a', y :: b' => if (x <? y)%Z then true else if (y <? x)%Z then false else str_ltb a' b'
  end.

Fixpoint insert_str (x : pystr) (l : list pystr) : list pystr :=
  match l with
  | [] => [x]
  | y :: l' => if str_ltb y x then y :: insert_str x l' else x :: l
  end.

(** [sorted(set(l))] *)
Definition sorted_set (l : list pystr) : list pystr := fold_right insert_str [] (remove_dups l).

(** ** Headers *)

(** [Headers.get(k)]: the first entry of the (lowercased) name. *)
Definition hget (k : pystr) (hs : list (pystr * pystr)) : option pystr :=
  snd <$> find (fun kv => bool_decide (kv.1 = py_lower k)) hs.

(** [k in headers] *)
Definition hhas (k : pystr) (hs : list (pystr * pystr)) : bool := bool_decide (is_Some (hget k hs)).

(** The loop of [MutableHeaders.__setitem__] over the entries: the first
    one named [k] takes the value [v], the later ones are deleted. *)
Fixpoint hset_go (k v : pystr) (l : list (pystr * pystr)) (seen : bool) : list (pystr * pystr) :=
  match l with
  | [] => []
  | kv :: l' =>
      if bool_decide (kv.1 = k) then (if seen then hset_go k v l' true else (k, v) :: hset_go k v l' true)
      else kv :: hset_go k v l' seen
  end.

(** [MutableHeaders.__setitem__]: a name not present is appended. *)
Definition hset (k v : pystr) (hs : list (pystr * pystr)) : list (pystr * pystr) :=
  let k' := py_lower k in
  if bool_decide (k' ∈ map fst hs) then hset_go k' v hs false else hs ++ [(k', v)].

(** [d[k] = v] on a Python dict of headers (keys as written). *)
Fixpoint dset (k v : pystr) (d : list (pystr * pystr)) : list (pystr * pystr) :=
  match d with
  | [] => [(k, v)]
  | (k', v') :: d' => if bool_decide (k = k') then (k', v) :: d' else (k', v') :: dset k v d'
  end.

Definition ACAO : pystr := str "Access-Control-Allow-Origin".
Definition ACAC : pystr := str "Access-Control-Allow-Credentials".
Definition ACAM : pystr := str "Access-Control-Allow-Methods".
Definition ACAH : pystr := str "Access-Control-Allow-Headers".
Definition ACMA : pystr := str "Access-Control-Max-Age".

Definition ALL_METHODS : list pystr :=
  map str ["DELETE"; "GET"; "HEAD"; "OPTIONS"; "PATCH"; "POST"; "PUT"]%string.

Definition SAFELISTED_HEADERS : list pystr :=
  map str ["Accept"; "Accept-Language"; "Content-Language"; "Content-Type"]%string.

(** ** The middleware *)

(** The attributes [__init__] sets. *)
Record cors_mw : Type := {
  mw_allow_origins : list pystr;
  mw_allow_methods : list pystr;
  mw_allow_headers : list pystr;
  mw_allow_all_origins : bool;
  mw_allow_all_headers : bool;
  mw_preflight_explicit_allow_origin : bool;
  mw_simple_headers : list (pystr * pystr);
  mw_preflight_headers : list (pystr * pystr)
}.

(** [CORSMiddleware.__init__] with [allow_origin_regex=None],
    [expose_headers=()] and [max_age=600]. *)
Definition cors_init (allow_origins allow_methods allow_headers : list pystr) (allow_credentials : bool) : cors_mw :=
  let allow_methods := if bool_decide (str "*" ∈ allow_methods) then ALL_METHODS else allow_methods in
  let allow_all_origins := bool_decide (str "*" ∈ allow_origins) in
  let allow_all_headers := bool_decide (str "*" ∈ allow_headers) in
  let explicit := negb allow_all_origins || allow_credentials in
  let simple := (if allow_all_origins then [(ACAO, str "*")] else []) ++
                (if allow_credentials then [(ACAC, str "true")] else []) in
  let pre := if explicit then [(str "Vary", str "Origin")] else [(ACAO, str "*")] in
  let pre := dset ACMA (str "600") (dset ACAM (join (str ", ") allow_methods) pre) in
  let headers := sorted_set (SAFELISTED_HEADERS ++ allow_headers) in
  let pre := if bool_decide (headers <> []) && negb allow_all_headers
             then dset ACAH (join (str ", ") headers) pre else pre in
  let pre := if allow_credentials then dset ACAC (str "true") pre else pre in
  {| mw_allow_origins := allow_origins; mw_allow_methods := allow_methods;
     mw_allow_headers := map py_lower headers; mw_allow_all_origins := allow_all_origins;
     mw_allow_all_headers := allow_all_headers; mw_preflight_explicit_allow_origin := explicit;
     mw_simple_headers := simple; mw_preflight_headers := pre |}.

(** Lines 17-23. *)
Definition app_cors : cors_mw := cors_init [str "*"] [str "*"] [str "*"] true.

(** An HTTP request: the method, the path ([scope["path"]], decoded), the
    headers (names lowercased, values decoded as latin-1, as the server
    passes them) and the body bytes. *)
Record http_request : Type := {
  rq_method : pystr;
  rq_path : pystr;
  rq_headers : list (pystr * pystr);
  rq_body : list Z
}.

Record http_response : Type := {
  rs_status : Z;
  rs_headers : list (pystr * pystr);
  rs_body : pystr
}.

Definition is_allowed_origin (mw : cors_mw) (origin : pystr) : bool :=
  mw_allow_all_origins mw || bool_decide (origin ∈ mw_allow_origins mw).

(** [needle in s] on strings. *)
Definition str_contains (needle s : pystr) : bool :=
  existsb (fun i => bool_decide (needle `prefix_of` drop i s)) (seq 0 (S (length s))).

(** [Response.__init__] with [init_headers]: the given headers with
    lowercased names, then [content-length] (not for a status below 200,
    204 or 304) and the [content-type] of the class's [media_type], with
    [; charset=utf-8] after a [text/] type that names no charset; each only
    when not given. *)
Definition make_response (media_type : option pystr) (body : list Z) (status : Z)
    (headers : list (pystr * pystr)) : http_response :=
  let raw := map (fun kv => (py_lower kv.1, kv.2)) headers in
  let raw := if bool_decide (str "content-length" ∈ map fst raw) || (status <? 200)%Z
                || (status =? 204)%Z || (status =? 304)%Z then raw
             else raw ++ [(str "content-length", int_repr (Z.of_nat (length body)))] in
  let raw := match media_type with
             | Some mt =>
                 if bool_decide (str "content-type" ∈ map fst raw) then raw
                 else raw ++ [(str "content-type",
                               if bool_decide (str "text/" `prefix_of` mt) && negb (str_contains (str "charset=") (py_lower mt))
                               then mt ++ str "; charset=utf-8" else mt)]
             | None => raw
             end in
  {| rs_status := status; rs_headers := raw; rs_body := body |}.

(** [PlainTextResponse(text, status_code, headers)]; the texts the
    application sends this way are ASCII, whose UTF-8 bytes are their code
    points. *)
Definition plain_text_response (text : pystr) (status : Z) (headers : list (pystr * pystr)) : http_response :=
  make_response (Some (str "text/plain")) text status headers.

(** [preflight_response] *)
Definition preflight_response (mw : cors_mw) (hs : list (pystr * pystr)) : http_response :=
  let requested_origin := default [] (hget (str "origin") hs) in
  let requested_method := default [] (hget (str "access-control-request-method") hs) in
  let requested_headers := hget (str "access-control-request-headers") hs in
  let headers := mw_preflight_headers mw in
  let '(headers, f_origin) :=
    if is_allowed_origin mw requested_origin then
      ((if mw_preflight_explicit_allow_origin mw then dset ACAO requested_origin headers else headers), [])
    else (headers, [str "origin"]) in
  let f_method := if bool_decide (requested_method ∈ mw_allow_methods mw) then [] else [str "method"] in
  let '(headers, f_headers) :=
    match requested_headers with
    | Some rh =>
        if mw_allow_all_headers mw then (dset ACAH rh headers, [])
        else if existsb (fun h => negb (bool_decide (py_strip h ∈ mw_allow_headers mw)))
                        (map py_lower (split_comma rh))
             then (headers, [str "headers"]) else (headers, [])
    | None => (headers, [])
    end in
  let failures := f_origin ++ f_method ++ f_headers in
  if bool_decide (failures <> [])
  then plain_text_response (str "Disallowed CORS " ++ join (str ", ") failures) 400 headers
  else plain_text_response (str "OK") 200 headers.

(** [allow_explicit_origin]: the origin, and [Origin] added to [Vary]. *)
Definition allow_explicit_origin (hs : list (pystr * pystr)) (origin : pystr) : list (pystr * pystr) :=
  let hs := hset ACAO origin hs in
  hset (str "vary") (match hget (str "vary") hs with
                     | Some v => v ++ str ", " ++ str "Origin"
                     | None => str "Origin" end) hs.

(** [send]: the headers of the application's answer. *)
Definition cors_send (mw : cors_mw) (req_hs : list (pystr * pystr)) (r : http_response) : http_response :=
  let hs := fold_left (fun hs kv => hset kv.1 kv.2 hs) (mw_simple_headers mw) (rs_headers r) in
  let origin := default [] (hget (str "Origin") req_hs) in
  let has_cookie := hhas (str "cookie") req_hs in
  let hs := if mw_allow_all_origins mw && has_cookie then allow_explicit_origin hs origin
            else if negb (mw_allow_all_origins mw) && is_allowed_origin mw origin
            then allow_explicit_origin hs origin else hs in
  {| rs_status := rs_status r; rs_headers := hs; rs_body := rs_body r |}.

(** [__call__] around the application [app]. *)
Definition cors_call {S} (mw : cors_mw) (app : http_request -> stm exn S http_response)
    (req : http_request) : stm exn S http_response :=
  match hget (str "origin") (rq_headers req) with
  | None => app req
  | Some _ =>
      if bool_decide (rq_method req = str "OPTIONS") && hhas (str "access-control-request-method") (rq_headers req)
      then mret (preflight_response mw (rq_headers req))
      else r ← app req; mret (cors_send mw (rq_headers req) r)
  end.

(** ** Concrete requests

    A page of another site asks, before a [POST /tools/call] with a JSON
    body, whether it may send it; then sends it with a cookie. *)
Definition other_origin : pystr := str "https://other.example".

Definition preflight_demo : list (pystr * pystr) :=
  [(str "origin", other_origin); (str "access-control-request-method", str "POST");
   (str "access-control-request-headers", str "content-type")].

Definition cookie_demo : list (pystr * pystr) :=
  [(str "origin", other_origin); (str "cookie", str "session=1"); (str "content-type", str "application/json")].

Definition demo_request (m : String.string) (hs : list (pystr * pystr)) : http_request :=
  {| rq_method := str m; rq_path := str "/tools/call"; rq_headers := hs; rq_body := str "{}" |}.

Definition demo_response : http_response :=
  {| rs_status := 200; rs_headers := [(str "content-type", str "application/json")]; rs_body := str "{}" |}.

(** An application answering every request with [{}]. *)
Definition demo_app (req : http_request) : stm exn unit http_response := mret demo_response.

(** ** Lemmas *)

Lemma find_key_app (k : pystr) (l r : list (pystr * pystr)) :
  find (fun kv => bool_decide (kv.1 = k)) (l ++ r) =
    match find (fun kv => bool_decide (kv.1 = k)) l with Some x => Some x | None => find (fun kv => bool_decide (kv.1 = k)) r end.
Proof. induction l as [|[a b] l IH]; simpl; [done|]. case_bool_decide; [done|apply IH]. Qed.

Lemma find_key_None (k : pystr) (l : list (pystr * pystr)) :
  k ∉ map fst l -> find (fun kv => bool_decide (kv.1 = k)) l = None.
Proof.
  intros Hk. apply find_None, Forall_forall. intros [a b] Hab. apply bool_decide_eq_false_2.
  cbn. intros ->. apply Hk. exact (list_elem_of_fmap_2 fst l (_, b) Hab).
Qed.

Lemma hset_go_seen k v l : find (fun kv => bool_decide (kv.1 = k)) (hset_go k v l true) = None.
Proof. induction l as [|[a b] l IH]; simpl; [done|]. by case_bool_decide; simpl; [|rewrite bool_decide_eq_false_2]. Qed.

Lemma hset_go_first k v l : k ∈ map fst l -> find (fun kv => bool_decide (kv.1 = k)) (hset_go k v l false) = Some (k, v).
Proof.
  induction l as [|[a b] l IH]; simpl; [set_solver|]. intros Hk.
  case_bool_decide as Ha; simpl; [by rewrite bool_decide_eq_true_2|].
  rewrite bool_decide_eq_false_2 by done. apply IH. set_solver.
Qed.

Lemma hset_go_other k k' v l seen : k' <> k ->
  find (fun kv => bool_decide (kv.1 = k')) (hset_go k v l seen) = find (fun kv => bool_decide (kv.1 = k')) l.
Proof.
  intros Hne. revert seen. induction l as [|[a b] l IH]; intros seen; simpl; [done|].
  case_bool_decide as Ha; simpl.
  - subst a. rewrite (bool_decide_eq_false_2 (k = k')) by congruence.
    destruct seen; simpl; [|rewrite bool_decide_eq_false_2 by congruence]; apply IH.
  - case_bool_decide; [done|apply IH].
Qed.

Lemma hget_hset_eq k v hs : hget k (hset k v hs) = Some v.
Proof.
  unfold hget, hset. case_bool_decide as Hk.
  - by rewrite hset_go_first.
  - rewrite find_key_app, find_key_None by done. simpl. by rewrite bool_decide_eq_true_2.
Qed.

Lemma hget_hset_ne k k' v hs : py_lower k' <> py_lower k -> hget k' (hset k v hs) = hget k' hs.
Proof.
  intros Hne. unfold hget, hset. case_bool_decide.
  - by rewrite hset_go_other.
  - rewrite find_key_app. destruct (find _ hs); [done|]. simpl. by rewrite bool_decide_eq_false_2.
Qed.

Lemma hget_Origin hs : hget (str "Origin") hs = hget (str "origin") hs.
Proof. reflexivity. Qed.

Lemma app_cors_preflight o m rh hs :
  hget (str "origin") hs = Some o -> hget (str "access-control-request-method") hs = Some m ->
  m ∈ ALL_METHODS -> hget (str "access-control-request-headers") hs = rh ->
  let r := preflight_response app_cors hs in
  rs_status r = 200%Z /\ hget ACAO (rs_headers r) = Some o /\ hget ACAC (rs_headers r) = Some (str "true").
Proof.
  intros Ho Hm HM Hrh. unfold preflight_response. rewrite Ho, Hm, Hrh. cbn [default].
  change (mw_allow_methods app_cors) with ALL_METHODS.
  rewrite (bool_decide_eq_true_2 (m ∈ ALL_METHODS)) by done.
  destruct rh; vm_compute; auto.
Qed.

(** A request that is not [OPTIONS] runs the application, whose answer
    gets the CORS headers when the request names an origin. *)
Lemma cors_call_simple {S} mw (app : http_request -> stm exn S http_response) req (s : S) :
  rq_method req <> str "OPTIONS" ->
  cors_call mw app req s =
    match app req s with
    | (Done r, s') =>
        (Done (match hget (str "origin") (rq_headers req) with
               | Some _ => cors_send mw (rq_headers req) r
               | None => r
               end), s')
    | o => o
    end.
Proof.
  intros Hm. unfold cors_call. destruct (hget _ _).
  - rewrite bool_decide_eq_false_2 by done. cbn [andb]. rewrite bind_run. by destruct (app req s) as [[| |] ?].
  - by destruct (app req s) as [[| |] ?].
Qed.

(** The state after [cors_call] is the application's, or the one it
    started from when the middleware answers itself. *)
Lemma cors_call_state {S} mw (app : http_request -> stm exn S http_response) req (s : S) :
  (cors_call mw app req s).2 = s \/ (cors_call mw app req s).2 = (app req s).2.
Proof.
  unfold cors_call. destruct (hget _ _); [|by right].
  destruct (_ && _); [by left|]. right. rewrite bind_run. by destruct (app req s) as [[| |] ?].
Qed.

(** Distinct header names, decided on their lowercased text. *)
Ltac hname_ne := intros ?Heq; vm_compute in Heq; congruence.

(** C34. The CORS policy of lines 17-23 lets every origin in, with
    credentials: a page of any site that asks before an [OPTIONS]-guarded
    request with any of the methods gets a 200 preflight that names its
    own origin and allows credentials, without the application running;
    any other request of it is answered by the application unchanged,
    with [Access-Control-Allow-Origin] its origin (with a cookie) or [*]
    (without) and [Access-Control-Allow-Credentials: true]. So any web
    page the user opens can call [POST /tools/call] and read the answer. *)
Theorem cors_any_origin {S} (app : http_request -> stm exn S http_response) req o (s : S) :
  hget (str "origin") (rq_headers req) = Some o ->
  (forall m, rq_method req = str "OPTIONS" ->
     hget (str "access-control-request-method") (rq_headers req) = Some m -> m ∈ ALL_METHODS ->
     exists r, cors_call app_cors app req s = (Done r, s) /\
       rs_status r = 200%Z /\ hget ACAO (rs_headers r) = Some o /\ hget ACAC (rs_headers r) = Some (str "true")) /\
  (forall r s', rq_method req <> str "OPTIONS" -> app req s = (Done r, s') ->
     exists r', cors_call app_cors app req s = (Done r', s') /\
       rs_status r' = rs_status r /\ rs_body r' = rs_body r /\
       hget ACAO (rs_headers r') = Some (if hhas (str "cookie") (rq_headers req) then o else str "*") /\
       hget ACAC (rs_headers r') = Some (str "true")).
Proof.
  intros Ho. split.
  - intros m Hopt Hm HM. unfold cors_call. rewrite Ho, Hopt.
    unfold hhas. rewrite Hm, !bool_decide_eq_true_2 by (done || eauto). eexists. split; [reflexivity|].
    by apply (app_cors_preflight o m (hget (str "access-control-request-headers") (rq_headers req))).
  - intros r s' Hopt Happ. unfold cors_call. rewrite Ho, bool_decide_eq_false_2 by done. cbn [andb].
    rewrite (bind_done _ _ _ _ _ Happ). eexists. split; [reflexivity|].
    unfold cors_send. change (mw_simple_headers app_cors) with [(ACAO, str "*"); (ACAC, str "true")].
    change (mw_allow_all_origins app_cors) with true. cbn [fold_left andb negb fst snd rs_status rs_body rs_headers].
    rewrite hget_Origin, Ho. cbn [default id].
    destruct (hhas (str "cookie") (rq_headers req)); unfold allow_explicit_origin; repeat split;
      repeat first [rewrite hget_hset_eq | rewrite hget_hset_ne by hname_ne]; done.
Qed.

Lemma cors_any_origin_witness :
  (exists r, cors_call app_cors demo_app (demo_request "OPTIONS"%string preflight_demo) tt = (Done r, tt) /\
     rs_status r = 200%Z /\ hget ACAO (rs_headers r) = Some other_origin /\
     hget ACAC (rs_headers r) = Some (str "true")) /\
  (exists r', cors_call app_cors demo_app (demo_request "POST"%string cookie_demo) tt = (Done r', tt) /\
     rs_status r' = 200%Z /\ rs_body r' = str "{}" /\
     hget ACAO (rs_headers r') = Some other_origin /\ hget ACAC (rs_headers r') = Some (str "true")).
Proof.
  destruct (cors_any_origin demo_app (demo_request "OPTIONS"%string preflight_demo) other_origin tt eq_refl) as [H1 _].
  destruct (cors_any_origin demo_app (demo_request "POST"%string cookie_demo) other_origin tt eq_refl) as [_ H2].
  split.
  - apply (H1 (str "POST")); [reflexivity|reflexivity|].
    apply (bool_decide_eq_true_1 (str "POST" ∈ ALL_METHODS)). vm_compute. reflexivity.
  - destruct (H2 demo_response tt) as (r' & Hc & Hs & Hb & Ha & Hcr); [hname_ne|reflexivity|].
    exists r'. rewrite Hs, Hb. repeat split; [exact Hc|exact Ha|exact Hcr].
Defined.
