(* ===== verification/Session.v ===== *)
(** * The session seen as a queue of messages

    An abstract specification of what [MCPClient.send_request] does, one
    level above the bytes: the child's output is a queue of JSON messages,
    the child answers each request with a list of messages appended to the
    queue, and [send_request] returns the message at the head of the queue,
    whichever request it answers.  An empty queue blocks the call for ever.

    [asend] is that specification; [refines] relates a child process of
    [Process] to an abstract session (the lines it read are the requests'
    texts, its output buffer is the framing of the queue); [implements]
    says that a child program writes, for every request, the framing of
    what the abstract server answers.  The refinement theorem shows that
    [send_request] on the bytes computes exactly [asend], for one call and
    for any sequence of calls; the FIFO theorem shows that when the server
    answers every request with exactly one message, the [n]-th call
    returns the answer to the [n]-th request. *)

From S2P Require Import Prelude Json Utf8 JsonDump JsonLoad Codec Config Process Client.
From stdpp Require Import gmap.

(** An abstract server: the messages it writes for a request, given the
    earlier requests. *)
Definition aserver : Type := list json -> json -> list json.

Record asession : Type := {
  a_seen : list json;    (** the requests the child has read *)
  a_queue : list json    (** the messages written and not yet read *)
}.

(** One call of [send_request], abstractly. *)
Definition asend (srv : aserver) (s : asession) (req : json) : outcome exn json * asession :=
  match a_queue s ++ srv (a_seen s) req with
  | v :: q => (Done v, {| a_seen := a_seen s ++ [req]; a_queue := q |})
  | [] => (Blocked, {| a_seen := a_seen s ++ [req]; a_queue := [] |})
  end.

(** A sequence of calls, stopping at the first that does not return. *)
Fixpoint asend_all (srv : aserver) (s : asession) (reqs : list json)
    : outcome exn (list json) * asession :=
  match reqs with
  | [] => (Done [], s)
  | r :: rs =>
      match asend srv s r with
      | (Done v, s1) =>
          match asend_all srv s1 rs with
          | (Done vs, s2) => (Done (v :: vs), s2)
          | o => o
          end
      | (Raised e, s1) => (Raised e, s1)
      | (Blocked, s1) => (Blocked, s1)
      end
  end.

(** The same sequence of calls of [send_request] on the world. *)
Fixpoint send_all (reqs : list json) : stm exn world (list json) :=
  match reqs with
  | [] => mret []
  | r :: rs => v ← send_request r; vs ← send_all rs; mret (v :: vs)
  end.

(** One message per line. *)
Definition frame (vs : list json) : list Z := flat_map (fun v => dumps v ++ [10%Z]) vs.

(** A message the reader takes back: well formed, within the limit. *)
Definition msg_ok (v : json) : bool :=
  json_wf v && (Z.of_nat (length (dumps v)) <=? stream_limit)%Z.

(** The child program [srv] writes what [asrv] answers. *)
Definition implements (srv : server) (asrv : aserver) : Prop :=
  forall seen req, srv_answer srv (map dumps seen) (dumps req) = Emit (frame (asrv seen req)).

(** A live child in the state of the abstract session [s]. *)
Definition refines (p : proc) (s : asession) : Prop :=
  p_lines p = map dumps (a_seen s) /\ p_inbuf p = [] /\ p_out p = frame (a_queue s) /\ p_rc p = None.

(** The abstraction of a world: the session of the client's child. *)
Definition world_refines (srv : aserver) (w : world) (s : asession) : Prop :=
  exists pid p, process (w_client w) = Some pid /\ os_procs (w_os w) !! pid = Some p /\
    implements (p_srv p) srv /\ refines p s.

(** Every message the server ever writes is read back. *)
Definition server_ok (srv : aserver) : Prop := forall seen req, Forall (fun v => msg_ok v = true) (srv seen req).

(** An abstract server that answers each request with one message. *)
Definition single (f : list json -> json -> json) : aserver := fun seen req => [f seen req].

(** What the FIFO theorem expects: the answers to the requests, in order. *)
Fixpoint answers (f : list json -> json -> json) (seen reqs : list json) : list json :=
  match reqs with
  | [] => []
  | r :: rs => f seen r :: answers f (seen ++ [r]) rs
  end.

(** A server that answers each request with [true] or [false] by the
    parity of the number of requests it read before. *)
Definition parity : list json -> json -> json := fun seen _ => JBool (Nat.even (length seen)).

Definition parity_server : server :=
  {| srv_start := Emit [];
     srv_answer := fun seen _ => Emit (dumps (JBool (Nat.even (length seen))) ++ [10%Z]) |}.

(** ** Lemmas *)

Lemma frame_app vs ws : frame (vs ++ ws) = frame vs ++ frame ws.
Proof. apply flat_map_app. Qed.

Lemma frame_cons v vs : frame (v :: vs) = dumps v ++ 10%Z :: frame vs.
Proof. cbn [frame flat_map]. by rewrite <- app_assoc. Qed.

(** [readline()] on a live child whose output is the framing of [vs]. *)
Lemma readline_frame vs :
  Forall (fun v => msg_ok v = true) vs ->
  readline_buf (frame vs) false =
    match vs with
    | v :: q => (Done (dumps v ++ [10%Z]), frame q)
    | [] => (Blocked, [])
    end.
Proof.
  destruct vs as [|v q]; [done|]. intros [Hv _]%Forall_cons.
  apply andb_true_iff in Hv as [_ Hlen]. apply Z.leb_le in Hlen.
  rewrite frame_cons, readline_buf_line by apply dumps_no_newline.
  by rewrite (proj2 (Z.ltb_ge _ _) Hlen).
Qed.

Lemma asend_queue_ok srv s req :
  server_ok srv -> Forall (fun v => msg_ok v = true) (a_queue s) ->
  Forall (fun v => msg_ok v = true) (a_queue (asend srv s req).2).
Proof.
  intros Hsrv Hq. unfold asend. pose proof (Forall_app_2 _ _ _ Hq (Hsrv (a_seen s) req)) as Hall.
  destruct (a_queue s ++ srv (a_seen s) req) as [|v q]; [done|]. by apply Forall_cons in Hall as [_ ?].
Qed.

Lemma asend_seen srv s req : a_seen (asend srv s req).2 = a_seen s ++ [req].
Proof. unfold asend. by destruct (a_queue s ++ srv (a_seen s) req). Qed.

(** One exchange with a child in the state of [s]. *)
Lemma exchange_refines p s srv req :
  implements (p_srv p) srv -> refines p s ->
  Forall (fun v => msg_ok v = true) (a_queue s ++ srv (a_seen s) req) ->
  exchange p (dumps req) =
    match a_queue s ++ srv (a_seen s) req with
    | v :: q => (Done (dumps v ++ [10%Z]), set_out (read_line p (dumps req)) (frame q))
    | [] => (Blocked, set_out (read_line p (dumps req)) (frame []))
    end.
Proof.
  intros Himpl (Hl & Hin & Hout & Hrc) Hall.
  assert (p_out (read_line p (dumps req)) = frame (a_queue s ++ srv (a_seen s) req) /\
          p_rc (read_line p (dumps req)) = None) as [Ho Hr].
  { unfold read_line. cbn [p_out p_rc]. rewrite Hl, Himpl, Hout, frame_app. done. }
  unfold exchange. rewrite Ho, Hr, bool_decide_eq_false_2 by (intros []; discriminate).
  rewrite readline_frame by done. by destruct (a_queue s ++ srv (a_seen s) req).
Qed.

Lemma refines_after p s srv req q :
  implements (p_srv p) srv -> refines p s ->
  refines (set_out (read_line p (dumps req)) (frame q)) {| a_seen := a_seen s ++ [req]; a_queue := q |}.
Proof.
  intros Himpl (Hl & Hin & Hout & Hrc). unfold refines, read_line, set_out. cbn.
  rewrite Hl, map_app, Himpl. done.
Qed.

Lemma world_refines_after srv w s pid p req q :
  process (w_client w) = Some pid -> os_procs (w_os w) !! pid = Some p ->
  implements (p_srv p) srv -> refines p s ->
  world_refines srv (set_os w (set_procs (w_os w)
      (<[pid := set_out (read_line p (dumps req)) (frame q)]> (os_procs (w_os w)))))
    {| a_seen := a_seen s ++ [req]; a_queue := q |}.
Proof.
  intros Hc Hp Himpl Hr. exists pid, (set_out (read_line p (dumps req)) (frame q)).
  split; [done|]. split; [apply lookup_insert_eq|]. split; [done|]. by apply (refines_after p s srv).
Qed.

(** C22. Refinement of one call: on a world whose child is in the state
    of the abstract session [s], [send_request] has the outcome of the
    abstract [asend] (the head of the queue of messages, or blocking on an
    empty queue), leaves the child in the state of the abstract session
    after the call, and does not change the client. *)
Theorem send_request_refines srv w s req :
  server_ok srv -> Forall (fun v => msg_ok v = true) (a_queue s) -> world_refines srv w s ->
  (send_request req w).1 = (asend srv s req).1 /\
  world_refines srv (send_request req w).2 (asend srv s req).2 /\
  w_client (send_request req w).2 = w_client w.
Proof.
  intros Hsrv Hq (pid & p & Hc & Hp & Himpl & Hr).
  split; [|split; [|apply send_request_client]];
    rewrite (send_request_live w pid p) by (by destruct Hr as (_ & ? & _ & ?));
    rewrite (exchange_refines p s srv req) by (done || by apply Forall_app_2);
    pose proof (Forall_app_2 _ _ _ Hq (Hsrv (a_seen s) req)) as Hall;
    unfold asend; destruct (a_queue s ++ srv (a_seen s) req) as [|v q]; cbn [fst snd];
    try (by apply world_refines_after).
  - done.
  - apply Forall_cons in Hall as [Hv _]. apply andb_true_iff in Hv as [Hw _].
    cbn. by rewrite decode_dumps_line.
Qed.

(** C23. Refinement of a session: for any sequence of requests,
    [send_request] called on each in turn has the outcome of the abstract
    sequence [asend_all] and ends in the state of the abstract session. *)
Theorem send_all_refines srv reqs w s :
  server_ok srv -> Forall (fun v => msg_ok v = true) (a_queue s) -> world_refines srv w s ->
  (send_all reqs w).1 = (asend_all srv s reqs).1 /\
  world_refines srv (send_all reqs w).2 (asend_all srv s reqs).2.
Proof.
  intros Hsrv. revert w s. induction reqs as [|r rs IH]; intros w s Hq Hw; [done|].
  cbn [send_all asend_all]. rewrite bind_run.
  destruct (send_request_refines srv w s r Hsrv Hq Hw) as (H1 & H2 & _).
  pose proof (asend_queue_ok srv s r Hsrv Hq) as Hq1.
  destruct (send_request r w) as [o w1], (asend srv s r) as [o' s1]; cbn in H1, H2, Hq1; subst o'.
  destruct o as [v| |]; [|done..]. rewrite bind_run.
  destruct (IH w1 s1 Hq1 H2) as [H3 H4].
  destruct (send_all rs w1) as [o2 w2], (asend_all srv s1 rs) as [o2' s2]; cbn in H3, H4 |- *.
  subst o2'. by destruct o2.
Qed.

(** With one message per request and nothing pending, the abstract
    session answers the requests in order. *)
Lemma asend_all_single f seen reqs :
  asend_all (single f) {| a_seen := seen; a_queue := [] |} reqs =
    (Done (answers f seen reqs), {| a_seen := seen ++ reqs; a_queue := [] |}).
Proof.
  revert seen. induction reqs as [|r rs IH]; intros seen; cbn; [by rewrite app_nil_r|].
  rewrite IH. by rewrite <- app_assoc.
Qed.

(** C24. Strict FIFO: when the child answers every request with exactly
    one message and nothing is pending, the [n]-th of a sequence of
    [send_request] calls returns the answer to the [n]-th request. *)
Theorem send_all_fifo f w seen reqs :
  (forall seen r, msg_ok (f seen r) = true) ->
  world_refines (single f) w {| a_seen := seen; a_queue := [] |} ->
  (send_all reqs w).1 = Done (answers f seen reqs).
Proof.
  intros Hf Hw.
  assert (server_ok (single f)) as Hsrv by (intros s r; constructor; [apply Hf|constructor]).
  rewrite (proj1 (send_all_refines (single f) reqs w {| a_seen := seen; a_queue := [] |} Hsrv
                    (List.Forall_nil _) Hw)).
  by rewrite asend_all_single.
Qed.

Lemma parity_msg_ok seen r : msg_ok (parity seen r) = true.
Proof. unfold parity. by destruct (Nat.even _). Qed.

Lemma parity_attached : world_refines (single parity) (attached_world parity_server) {| a_seen := []; a_queue := [] |}.
Proof.
  exists 0, (new_proc parity_server). split; [done|]. split; [done|].
  split; [|done]. intros seen req. cbn. by rewrite length_map, app_nil_r.
Qed.

Lemma send_all_fifo_witness :
  (send_all [jstr "a"; jstr "b"; jstr "c"] (attached_world parity_server)).1 =
    Done [JBool true; JBool false; JBool true].
Proof. apply (send_all_fifo parity (attached_world parity_server) []); [apply parity_msg_ok|apply parity_attached]. Defined.

Lemma send_request_refines_witness :
  let s := {| a_seen := []; a_queue := [] |} in
  (send_request (jstr "a") (attached_world parity_server)).1 = (asend (single parity) s (jstr "a")).1 /\
  world_refines (single parity) (send_request (jstr "a") (attached_world parity_server)).2
    (asend (single parity) s (jstr "a")).2 /\
  w_client (send_request (jstr "a") (attached_world parity_server)).2 = w_client (attached_world parity_server).
Proof.
  apply send_request_refines; [|constructor|apply parity_attached].
  intros seen r. constructor; [apply parity_msg_ok|constructor].
Defined.

Lemma send_all_refines_witness :
  let s := {| a_seen := []; a_queue := [] |} in
  (send_all [jstr "a"; jstr "b"] (attached_world parity_server)).1 =
    (asend_all (single parity) s [jstr "a"; jstr "b"]).1 /\
  world_refines (single parity) (send_all [jstr "a"; jstr "b"] (attached_world parity_server)).2
    (asend_all (single parity) s [jstr "a"; jstr "b"]).2.
Proof.
  apply send_all_refines; [|constructor|apply parity_attached].
  intros seen r. constructor; [apply parity_msg_ok|constructor].
Defined.
