(* ===== verification/Async.v ===== *)
(** * Route handlers interleaved on the event loop

    Uvicorn runs every request in a coroutine of one asyncio event loop, and
    nothing in [MCPClient] serialises the calls of [send_request]: two
    handlers can be in [send_request] at once, on the one pipe of the one
    child.  The sequential model of [Client] lets the child answer at
    [drain()]; here the child is a separate actor and [send_request] is cut
    at its only suspension point, the wait for data in
    [StreamReader.readline] ([Lib/asyncio/streams.py]):

    - [Start]: [write] and [drain] (which does not suspend for a line), then
      [readuntil]'s look at the buffer ([read_attempt], [readline_buf]): a
      complete line, an overrun of the limit or the end of the file ends the
      call at once; otherwise [_wait_for_data] raises [RuntimeError] if the
      reader already has a waiter ([c_waiter]), and otherwise makes the
      coroutine the waiter and suspends it ([Waiting]);
    - the child reads the complete lines written to it and answers
      ([child_step]); when its answer or its exit reaches the reader,
      [feed_data] or [feed_eof] runs [_wakeup_waiter], which completes the
      waiter's future and forgets it ([wakeup_waiter]: the coroutine is
      [Woken], the reader has no waiter);
    - a [Woken] coroutine resumes: the [finally] of [_wait_for_data] sets
      the reader's waiter to [None], whoever it is by then, and
      [readuntil] looks at the buffer again, and may wait again.

    [astep] is the step relation of a configuration (the world, the reader's
    waiter, the coroutines); [run_schedule] runs a given interleaving.  The
    theorems are stated for any child and any requests: two calls can swap
    their answers (C26), the second can fail with [RuntimeError] and leave
    its answer for the next call (C27), or, when an answer reaches the
    reader in pieces, the second can wait for ever (C28).
    [sequential_schedule] shows that the sequential model of [Client] is
    one of these interleavings. *)

From S2P Require Import Prelude Json Utf8 JsonDump JsonLoad Codec Config Process Client Bridge.
From stdpp Require Import gmap.
Local Open Scope py_scope.

(** Where a coroutine running [send_request] is. *)
Inductive pc : Type :=
| Start
| Waiting (pid : nat)     (** suspended on its future in [_wait_for_data] *)
| Woken (pid : nat)       (** its future is done; it has not resumed yet *)
| Finished (r : res exn json).

Record thread : Type := {
  t_req : json;
  t_pc : pc
}.

Record config : Type := {
  c_world : world;
  c_waiter : option nat;     (** the reader's [_waiter]: the coroutine it wakes, if any *)
  c_threads : list thread
}.

Definition set_waiter (c : config) (waiter : option nat) : config :=
  {| c_world := c_world c; c_waiter := waiter; c_threads := c_threads c |}.

(** [readuntil]'s look at the buffer: [None] when it has to wait. *)
Definition read_attempt (p : proc) : option (res exn (list Z) * list Z) :=
  match readline_buf (p_out p) (bool_decide (is_Some (p_rc p))) with
  | (Done l, b) => Some (Ok l, b)
  | (Raised e, b) => Some (Err e, b)
  | (Blocked, _) => None
  end.

Definition with_proc_world (w : world) (pid : nat) (p : proc) : world :=
  set_os w (set_procs (w_os w) (<[pid := p]> (os_procs (w_os w)))).

(** Coroutine [i] returns (or raises) [r]. *)
Definition finish (c : config) (i : nat) (req : json) (r : res exn json) (w : world)
    (waiter : option nat) : config :=
  {| c_world := w; c_waiter := waiter; c_threads := <[i := {| t_req := req; t_pc := Finished r |}]> (c_threads c) |}.

(** The loop of [readuntil] for coroutine [i] on the child [pid] in the
    state [p]: take a line (or raise) if the buffer allows it; otherwise
    [_wait_for_data], which raises [RuntimeError] when the reader already
    has a waiter and makes [i] the waiter otherwise. *)
Definition read_or_wait (c : config) (i : nat) (req : json) (pid : nat) (p : proc) : config :=
  match read_attempt p with
  | Some (r, buf) =>
      finish c i req (let? line := r in decode_response_line line)
        (with_proc_world (c_world c) pid (set_out p buf)) (c_waiter c)
  | None =>
      match c_waiter c with
      | Some _ => finish c i req (Err RuntimeError) (with_proc_world (c_world c) pid p) (c_waiter c)
      | None =>
          {| c_world := with_proc_world (c_world c) pid p; c_waiter := Some i;
             c_threads := <[i := {| t_req := req; t_pc := Waiting pid |}]> (c_threads c) |}
      end
  end.

(** One step of coroutine [i], if it can move: from [Start], [write],
    [drain] and the first look at the buffer; once woken, the [finally]
    of [_wait_for_data] ([self._waiter = None]) and the next turn of the
    loop.  A waiting coroutine does not move. *)
Definition thread_step (c : config) (i : nat) : option config :=
  match c_threads c !! i with
  | Some {| t_req := req; t_pc := Start |} =>
      let w := c_world c in
      match process (w_client w) with
      | None => Some (finish c i req (Err not_connected) w (c_waiter c))
      | Some pid =>
          match os_procs (w_os w) !! pid with
          | None => Some (finish c i req (Err ProcessLookupError) w (c_waiter c))
          | Some p =>
              match encode_request_line req with
              | Err e => Some (finish c i req (Err e) w (c_waiter c))
              | Ok bytes =>
                  match p_rc p with
                  | Some _ => Some (finish c i req (Err ConnectionResetError) w (c_waiter c))
                  | None => Some (read_or_wait c i req pid (set_inbuf p (p_inbuf p ++ bytes)))
                  end
              end
          end
      end
  | Some {| t_req := req; t_pc := Woken pid |} =>
      match os_procs (w_os (c_world c)) !! pid with
      | Some p => Some (read_or_wait (set_waiter c None) i req pid p)
      | None => None
      end
  | _ => None
  end.

(** [_wakeup_waiter]: the reader's waiter, if any, is woken and
    forgotten. *)
Definition wakeup_waiter (c : config) : config :=
  match c_waiter c with
  | Some j =>
      {| c_world := c_world c; c_waiter := None;
         c_threads := match c_threads c !! j with
                      | Some {| t_req := req; t_pc := Waiting pid |} =>
                          <[j := {| t_req := req; t_pc := Woken pid |}]> (c_threads c)
                      | _ => c_threads c
                      end |}
  | None => c
  end.

(** Whether the child's step reaches the reader: [feed_data] with new
    output ([feed_data(b'')] does nothing), or [feed_eof] when it exits. *)
Definition feeds (p p' : proc) : bool :=
  bool_decide (p_out p' <> p_out p) || bool_decide (is_Some (p_rc p')).

(** The child [pid] reads the complete lines written to it and answers;
    the reader wakes its waiter when the answer reaches it. *)
Definition child_step (c : config) (pid : nat) : option config :=
  match os_procs (w_os (c_world c)) !! pid with
  | Some p =>
      if bool_decide (p_rc p = None /\ 10%Z ∈ p_inbuf p) then
        let p' := child_runs p in
        let c1 := {| c_world := with_proc_world (c_world c) pid p';
                     c_waiter := c_waiter c; c_threads := c_threads c |} in
        Some (if feeds p p' then wakeup_waiter c1 else c1)
      else None
  | None => None
  end.

Inductive astep : config -> config -> Prop :=
| astep_thread c i c' : thread_step c i = Some c' -> astep c c'
| astep_child c pid c' : child_step c pid = Some c' -> astep c c'.

(** Handlers that all call [send_request], started together. *)
Definition start (w : world) (reqs : list json) : config :=
  {| c_world := w; c_waiter := None; c_threads := map (fun r => {| t_req := r; t_pc := Start |}) reqs |}.

(** An interleaving: which coroutine or which child moves next. *)
Inductive actor : Type :=
| T (i : nat)
| C (pid : nat).

Fixpoint run_schedule (c : config) (sched : list actor) : option config :=
  match sched with
  | [] => Some c
  | T i :: s => c' ← thread_step c i; run_schedule c' s
  | C pid :: s => c' ← child_step c pid; run_schedule c' s
  end.

(** Coroutine [i] waits on its future while the reader's waiter is
    another coroutine or none: no [feed_data] will wake it. *)
Definition orphaned (c : config) (i : nat) (req : json) (pid : nat) : Prop :=
  c_threads c !! i = Some {| t_req := req; t_pc := Waiting pid |} /\ c_waiter c <> Some i.

(** The results of the coroutines, [None] for those that did not finish. *)
Definition results (c : config) : list (option (res exn json)) :=
  map (fun t => match t_pc t with Finished r => Some r | _ => None end) (c_threads c).

(** The result a coroutine finishes with, for an outcome of the
    sequential model. *)
Definition outcome_res (o : outcome exn json) : option (res exn json) :=
  match o with Done v => Some (Ok v) | Raised e => Some (Err e) | Blocked => None end.

(** A child whose answer to the first line arrives in two pieces: its
    first two characters, then the rest of the line with the answer to
    the next line. *)
Definition partial_server : server :=
  {| srv_start := Emit [];
     srv_answer := fun seen _ => match seen with
                                 | [] => Emit [123; 34]%Z
                                 | _ => Emit (jtext "a': 1}" ++ [10%Z])
                                 end |}.

(** ** Lemmas *)

Lemma run_schedule_rtc c s c' : run_schedule c s = Some c' -> rtc astep c c'.
Proof.
  revert c. induction s as [|[i|pid] s IH]; intros c; cbn.
  - by intros [= <-].
  - destruct (thread_step c i) as [c1|] eqn:H; [|done]. intros Hs.
    eapply rtc_l; [by eapply astep_thread|]. by apply IH.
  - destruct (child_step c pid) as [c1|] eqn:H; [|done]. intros Hs.
    eapply rtc_l; [by eapply astep_child|]. by apply IH.
Qed.

(** *** One step at a time *)

Lemma with_proc_lookup w pid p : os_procs (w_os (with_proc_world w pid p)) !! pid = Some p.
Proof. apply lookup_insert_eq. Qed.

Lemma with_proc_world_twice w pid p p' :
  with_proc_world (with_proc_world w pid p) pid p' = with_proc_world w pid p'.
Proof. unfold with_proc_world. cbn. by rewrite insert_insert_eq. Qed.

Lemma read_attempt_wait p : p_rc p = None -> 10%Z ∉ p_out p ->
  (Z.of_nat (length (p_out p)) <= stream_limit)%Z -> read_attempt p = None.
Proof.
  intros Hrc Hnl Hlen. unfold read_attempt. rewrite Hrc, readline_buf_partial by done.
  by destruct (Z.ltb_spec stream_limit (Z.of_nat (length (p_out p)))); [lia|].
Qed.

Lemma read_attempt_line p l rest : p_out p = l ++ 10%Z :: rest -> 10%Z ∉ l ->
  (Z.of_nat (length l) <= stream_limit)%Z -> read_attempt p = Some (Ok (l ++ [10%Z]), rest).
Proof.
  intros Ho Hnl Hlen. unfold read_attempt. rewrite Ho, readline_buf_line by done.
  by destruct (Z.ltb_spec stream_limit (Z.of_nat (length l))); [lia|].
Qed.

Lemma thread_step_start c i r pid p :
  c_threads c !! i = Some {| t_req := r; t_pc := Start |} -> process (w_client (c_world c)) = Some pid ->
  os_procs (w_os (c_world c)) !! pid = Some p -> p_rc p = None ->
  thread_step c i = Some (read_or_wait c i r pid (set_inbuf p (p_inbuf p ++ dumps r ++ [10%Z]))).
Proof. intros Hi Hc Hp Hrc. unfold thread_step. by rewrite Hi, Hc, Hp, encode_request_line_ok, Hrc. Qed.

Lemma thread_step_woken c i r pid p :
  c_threads c !! i = Some {| t_req := r; t_pc := Woken pid |} -> os_procs (w_os (c_world c)) !! pid = Some p ->
  thread_step c i = Some (read_or_wait (set_waiter c None) i r pid p).
Proof. intros Hi Hp. unfold thread_step. by rewrite Hi, Hp. Qed.

Lemma read_or_wait_read c i r pid p res buf : read_attempt p = Some (res, buf) ->
  read_or_wait c i r pid p =
    finish c i r (let? line := res in decode_response_line line) (with_proc_world (c_world c) pid (set_out p buf))
      (c_waiter c).
Proof. intros Hr. unfold read_or_wait. by rewrite Hr. Qed.

Lemma read_or_wait_wait c i r pid p :
  read_attempt p = None -> c_waiter c = None ->
  read_or_wait c i r pid p =
    {| c_world := with_proc_world (c_world c) pid p; c_waiter := Some i;
       c_threads := <[i := {| t_req := r; t_pc := Waiting pid |}]> (c_threads c) |}.
Proof. intros Hr Hw. unfold read_or_wait. by rewrite Hr, Hw. Qed.

Lemma read_or_wait_busy c i r pid p j :
  read_attempt p = None -> c_waiter c = Some j ->
  read_or_wait c i r pid p = finish c i r (Err RuntimeError) (with_proc_world (c_world c) pid p) (c_waiter c).
Proof. intros Hr Hw. unfold read_or_wait. by rewrite Hr, Hw. Qed.

Lemma child_step_run c pid p :
  os_procs (w_os (c_world c)) !! pid = Some p -> p_rc p = None -> 10%Z ∈ p_inbuf p ->
  child_step c pid =
    Some (let c1 := {| c_world := with_proc_world (c_world c) pid (child_runs p);
                       c_waiter := c_waiter c; c_threads := c_threads c |} in
          if feeds p (child_runs p) then wakeup_waiter c1 else c1).
Proof. intros Hp Hrc Hnl. unfold child_step. rewrite Hp, bool_decide_eq_true_2; done. Qed.

(** A line written to a live child with nothing pending is read by it,
    and its answer reaches the reader. *)
Lemma child_answers p l o : p_rc p = None -> p_inbuf p = l ++ [10%Z] -> 10%Z ∉ l ->
  srv_answer (p_srv p) (p_lines p) l = Emit o -> o <> [] ->
  child_runs p = {| p_srv := p_srv p; p_lines := p_lines p ++ [l]; p_inbuf := []; p_out := p_out p ++ o;
                    p_rc := None |} /\ feeds p (child_runs p) = true.
Proof.
  intros Hrc Hin Hnl Ha Ho. rewrite (child_runs_line p l) by done.
  unfold read_line. rewrite Ha. split; [done|]. unfold feeds. cbn.
  rewrite bool_decide_eq_true_2; [done|]. intros Heq.
  apply Ho, (app_inv_head (p_out p)). by rewrite app_nil_r.
Qed.


(** Two lines written to a live child are both read, and both answers
    reach the reader. *)
Lemma child_answers_two p l1 l2 o1 o2 : p_rc p = None -> p_inbuf p = l1 ++ 10%Z :: l2 ++ [10%Z] ->
  10%Z ∉ l1 -> 10%Z ∉ l2 ->
  srv_answer (p_srv p) (p_lines p) l1 = Emit o1 -> srv_answer (p_srv p) (p_lines p ++ [l1]) l2 = Emit o2 ->
  o1 <> [] ->
  child_runs p = {| p_srv := p_srv p; p_lines := p_lines p ++ [l1; l2]; p_inbuf := [];
                    p_out := p_out p ++ o1 ++ o2; p_rc := None |} /\ feeds p (child_runs p) = true.
Proof.
  intros Hrc Hin Hn1 Hn2 Ha1 Ha2 Ho.
  assert (child_runs p = {| p_srv := p_srv p; p_lines := p_lines p ++ [l1; l2]; p_inbuf := [];
                            p_out := p_out p ++ o1 ++ o2; p_rc := None |}) as E.
  { unfold child_runs. rewrite Hin, split_lines_line, split_lines_line by done. cbn.
    rewrite Ha1. cbn. rewrite Ha2. cbn. by rewrite <- !app_assoc. }
  split; [done|]. unfold feeds. rewrite E. cbn. rewrite bool_decide_eq_true_2; [done|].
  intros Heq. apply Ho, (app_inv_head (p_out p)). rewrite app_nil_r.
  destruct o1; [done|]. apply (f_equal length) in Heq. rewrite !length_app in Heq. cbn in Heq. lia.
Qed.

Lemma run_schedule_T c i s c1 : thread_step c i = Some c1 -> run_schedule c (T i :: s) = run_schedule c1 s.
Proof. intros H. cbn. by rewrite H. Qed.

Lemma run_schedule_C c pid s c1 : child_step c pid = Some c1 -> run_schedule c (C pid :: s) = run_schedule c1 s.
Proof. intros H. cbn. by rewrite H. Qed.

Lemma dumps_line_ne v : dumps v ++ [10%Z] <> [].
Proof. by destruct (dumps v). Qed.

(** *** A coroutine nothing will wake *)

Lemma finish_orphaned c i req pid j req' r w waiter :
  orphaned c i req pid -> j <> i -> waiter <> Some i -> orphaned (finish c j req' r w waiter) i req pid.
Proof. intros [Hi _] Hj Hw. split; [|done]. cbn. by rewrite list_lookup_insert_ne. Qed.

Lemma read_or_wait_orphaned c i req pid j req' pid' p :
  orphaned c i req pid -> j <> i -> orphaned (read_or_wait c j req' pid' p) i req pid.
Proof.
  intros Ho Hj. unfold read_or_wait.
  destruct (read_attempt p) as [[r buf]|]; [apply finish_orphaned; [done|done|apply Ho]|].
  destruct (c_waiter c) eqn:Hw; [apply finish_orphaned; [done|done|destruct Ho; congruence]|].
  destruct Ho as [Hi _]. split; cbn; [by rewrite list_lookup_insert_ne|congruence].
Qed.

Lemma thread_step_orphaned c i req pid j c' :
  orphaned c i req pid -> thread_step c j = Some c' -> orphaned c' i req pid.
Proof.
  intros Ho. destruct (decide (j = i)) as [->|Hj].
  { unfold thread_step. by rewrite (proj1 Ho). }
  unfold thread_step. repeat case_match; intros [= <-];
    first [apply finish_orphaned; [done|done|apply Ho]
          | apply read_or_wait_orphaned; [|done]; first [exact Ho | split; [apply Ho|done]]].
Qed.

Lemma wakeup_waiter_orphaned c i req pid : orphaned c i req pid -> orphaned (wakeup_waiter c) i req pid.
Proof.
  intros [Hi Hw]. unfold wakeup_waiter. destruct (c_waiter c) as [j|] eqn:Hj; [|split; [done|by rewrite Hj]].
  assert (j <> i) by congruence. split; [|done]. cbn.
  repeat case_match; try done; by rewrite list_lookup_insert_ne.
Qed.

Lemma child_step_orphaned c i req pid q c' :
  orphaned c i req pid -> child_step c q = Some c' -> orphaned c' i req pid.
Proof.
  intros Ho. unfold child_step. repeat case_match; intros [= <-]; [apply wakeup_waiter_orphaned|]; apply Ho.
Qed.

(** Once orphaned, a coroutine waits in every later configuration. *)
Lemma rtc_orphaned c c' i req pid : orphaned c i req pid -> rtc astep c c' -> orphaned c' i req pid.
Proof.
  intros Ho Hr. induction Hr as [|c1 c2 c3 Hs _ IH]; [done|]. apply IH.
  destruct Hs; [by eapply thread_step_orphaned|by eapply child_step_orphaned].
Qed.

(** ** Concurrent calls of [send_request] *)

(** The live child [pid] of the world, started, with nothing written to it
    and nothing written by it yet. *)
Section Interleavings.
Variables (w : world) (pid : nat) (p : proc) (r1 r2 : json).
Hypothesis Hc : process (w_client w) = Some pid.
Hypothesis Hp : os_procs (w_os w) !! pid = Some p.
Hypothesis Hrc : p_rc p = None.
Hypothesis Hin : p_inbuf p = [].
Hypothesis Hout : p_out p = [].

(** The first coroutine writes its request and waits. *)
Lemma first_waits s :
  run_schedule (start w [r1; r2]) (T 0 :: s) =
    run_schedule {| c_world := with_proc_world w pid (set_inbuf p (dumps r1 ++ [10%Z])); c_waiter := Some 0;
                    c_threads := [{| t_req := r1; t_pc := Waiting pid |}; {| t_req := r2; t_pc := Start |}] |} s.
Proof.
  erewrite run_schedule_T by (eapply thread_step_start; [reflexivity|eassumption..]).
  rewrite read_or_wait_wait; [|apply read_attempt_wait; cbn; rewrite ?Hrc, ?Hout; [done|set_solver|unfold stream_limit; cbn; lia]|done].
  by rewrite Hin.
Qed.

(** C26. Two handlers in [send_request] at once can receive each other's
    answers: for any child that answers the first request [r1] with the
    line of [v1] and then the second [r2] with the line of [v2], the
    coroutines of [r1] and [r2] started together can end with [v2] for
    [r1] and [v1] for [r2] (the first writes and waits, the child
    answers, the second writes and takes the line in the buffer, the child
    answers again, the first resumes). *)
Theorem concurrent_calls_swap v1 v2 :
  srv_answer (p_srv p) (p_lines p) (dumps r1) = Emit (dumps v1 ++ [10%Z]) ->
  srv_answer (p_srv p) (p_lines p ++ [dumps r1]) (dumps r2) = Emit (dumps v2 ++ [10%Z]) ->
  json_wf v1 = true -> json_wf v2 = true ->
  (Z.of_nat (length (dumps v1)) <= stream_limit)%Z -> (Z.of_nat (length (dumps v2)) <= stream_limit)%Z ->
  exists c', rtc astep (start w [r1; r2]) c' /\ results c' = [Some (Ok v2); Some (Ok v1)].
Proof.
  intros Ha1 Ha2 Hw1 Hw2 Hl1 Hl2.
  eexists. split; [apply (run_schedule_rtc _ [T 0; C pid; T 1; C pid; T 0]); rewrite first_waits|].
  - destruct (child_answers (set_inbuf p (dumps r1 ++ [10%Z])) (dumps r1) (dumps v1 ++ [10%Z]))
      as [E1 F1]; [done|done|apply dumps_no_newline|done|apply dumps_line_ne|].
    erewrite run_schedule_C by (apply child_step_run; [apply with_proc_lookup|done|cbn; set_solver]).
    cbv zeta. rewrite F1, E1. cbn [wakeup_waiter c_waiter c_threads c_world lookup list_lookup insert list_insert].
    cbn [set_inbuf p_inbuf p_out p_rc p_srv p_lines]. rewrite Hout. cbn [app].
    erewrite run_schedule_T by (eapply thread_step_start; [reflexivity|eassumption|apply with_proc_lookup|done]).
    cbn [p_inbuf app]. rewrite (read_or_wait_read _ _ _ _ _ (Ok (dumps v1 ++ [10%Z])) []);
      [|apply read_attempt_line; [done|apply dumps_no_newline|done]].
    unfold finish. cbn [c_world c_waiter c_threads res_bind insert list_insert].
    rewrite decode_dumps_line by done. rewrite with_proc_world_twice.
    match goal with |- context [with_proc_world _ pid (set_out ?q [])] =>
      destruct (child_answers (set_out q []) (dumps r2) (dumps v2 ++ [10%Z])) as [E2 F2];
        [cbn; done|cbn; done|apply dumps_no_newline|cbn [set_out set_inbuf p_srv p_lines]; exact Ha2
        |apply dumps_line_ne|] end.
    erewrite run_schedule_C by (apply child_step_run; [apply with_proc_lookup|done|cbn; set_solver]).
    cbv zeta. rewrite F2, E2. cbn [wakeup_waiter c_waiter c_threads c_world set_out set_inbuf p_inbuf p_out p_rc].
    erewrite run_schedule_T by (eapply thread_step_woken; [reflexivity|apply with_proc_lookup]).
    rewrite (read_or_wait_read _ _ _ _ _ (Ok (dumps v2 ++ [10%Z])) []);
      [|apply read_attempt_line; [done|apply dumps_no_newline|done]].
    reflexivity.
  - cbn. rewrite decode_dumps_line by done. reflexivity.
Qed.
(** C27. Or the second handler fails: while the first waits for its
    answer, the second's [readline()] raises [RuntimeError]; its request
    has reached the child all the same, which reads it and answers, and
    that answer [o2] stays in the reader's buffer, where the next call
    will read it.  This holds for any child that answers [r1] with the
    line of [v1] and [r2] with any output [o2]. *)
Theorem concurrent_call_runtime_error v1 o2 :
  srv_answer (p_srv p) (p_lines p) (dumps r1) = Emit (dumps v1 ++ [10%Z]) ->
  srv_answer (p_srv p) (p_lines p ++ [dumps r1]) (dumps r2) = Emit o2 ->
  json_wf v1 = true -> (Z.of_nat (length (dumps v1)) <= stream_limit)%Z ->
  exists c', rtc astep (start w [r1; r2]) c' /\
    results c' = [Some (Ok v1); Some (Err RuntimeError)] /\ c_waiter c' = None /\
    option_map (fun q => (p_lines q, p_out q)) (os_procs (w_os (c_world c')) !! pid) =
      Some (p_lines p ++ [dumps r1; dumps r2], o2).
Proof.
  intros Ha1 Ha2 Hw1 Hl1.
  eexists. split; [apply (run_schedule_rtc _ [T 0; T 1; C pid; T 0]); rewrite first_waits|].
  - erewrite run_schedule_T by (eapply thread_step_start; [reflexivity|eassumption|apply with_proc_lookup|done]).
    rewrite read_or_wait_busy with (j := 0%nat);
      [|apply read_attempt_wait; cbn; rewrite ?Hrc, ?Hout; [done|set_solver|unfold stream_limit; cbn; lia]|done].
    unfold finish. cbn [c_world c_waiter c_threads insert list_insert]. rewrite with_proc_world_twice.
    destruct (child_answers_two (set_inbuf (set_inbuf p (dumps r1 ++ [10%Z])) ((dumps r1 ++ [10%Z]) ++ dumps r2 ++ [10%Z]))
                (dumps r1) (dumps r2) (dumps v1 ++ [10%Z]) o2) as [E F];
      [done|cbn; by rewrite <- app_assoc|apply dumps_no_newline|apply dumps_no_newline|done|done|apply dumps_line_ne|].
    cbn [p_inbuf set_inbuf].
    erewrite run_schedule_C by (apply child_step_run; [apply with_proc_lookup|done|cbn; set_solver]).
    cbv zeta. rewrite F, E. cbn [wakeup_waiter c_waiter c_threads c_world lookup list_lookup insert list_insert].
    cbn [set_inbuf p_inbuf p_out p_rc p_srv p_lines]. rewrite Hout. cbn [app].
    erewrite run_schedule_T by (eapply thread_step_woken; [reflexivity|apply with_proc_lookup]).
    rewrite (read_or_wait_read _ _ _ _ _ (Ok (dumps v1 ++ [10%Z])) o2);
      [|apply read_attempt_line; [by rewrite <- app_assoc|apply dumps_no_newline|done]].
    reflexivity.
  - cbn. rewrite decode_dumps_line by done. split; [reflexivity|]. split; [reflexivity|].
    unfold with_proc_world. cbn. by rewrite lookup_insert_eq.
Qed.

(** C28. Two handlers can leave one of them waiting for ever: when the
    child's first output after the first request is part of a line (a
    large answer arrives in several pieces), [feed_data] wakes the first
    coroutine and forgets it as the reader's waiter; the second, started
    before the first resumes, finds no line and becomes the waiter; the
    first resumes, clears the waiter in the [finally] of
    [_wait_for_data], finds no line either and becomes the waiter again.
    From then on [feed_data] only ever wakes the first: in every
    configuration reachable afterwards, whatever the child writes and
    whichever coroutine moves, the second handler is still waiting. *)
Theorem concurrent_call_hangs a1 :
  srv_answer (p_srv p) (p_lines p) (dumps r1) = Emit a1 -> a1 <> [] -> 10%Z ∉ a1 ->
  (Z.of_nat (length a1) <= stream_limit)%Z ->
  exists c, rtc astep (start w [r1; r2]) c /\
    forall c', rtc astep c c' -> c_threads c' !! 1 = Some {| t_req := r2; t_pc := Waiting pid |}.
Proof.
  intros Ha1 Hne Hnl Hl1.
  eexists. split; [apply (run_schedule_rtc _ [T 0; C pid; T 1; T 0]); rewrite first_waits|].
  - destruct (child_answers (set_inbuf p (dumps r1 ++ [10%Z])) (dumps r1) a1) as [E1 F1];
      [done|done|apply dumps_no_newline|done|done|].
    erewrite run_schedule_C by (apply child_step_run; [apply with_proc_lookup|done|cbn; set_solver]).
    cbv zeta. rewrite F1, E1. cbn [wakeup_waiter c_waiter c_threads c_world lookup list_lookup insert list_insert].
    cbn [set_inbuf p_inbuf p_out p_rc p_srv p_lines]. rewrite Hout. cbn [app].
    erewrite run_schedule_T by (eapply thread_step_start; [reflexivity|eassumption|apply with_proc_lookup|done]).
    rewrite read_or_wait_wait; [|by apply read_attempt_wait|done].
    cbn [c_world c_waiter c_threads insert list_insert]. rewrite with_proc_world_twice.
    erewrite run_schedule_T by (eapply thread_step_woken; [reflexivity|apply with_proc_lookup]).
    rewrite read_or_wait_wait; [reflexivity|by apply read_attempt_wait|done].
  - intros c' Hr. refine (proj1 (rtc_orphaned _ c' 1 r2 pid _ Hr)). split; [reflexivity|]. cbn. congruence.
Qed.
End Interleavings.

Lemma concurrent_calls_swap_witness :
  exists c', rtc astep (start (attached_world echo_server) [list_tools_request; call_tool_request demo_tool_call]) c' /\
    results c' = [Some (Ok (call_tool_request demo_tool_call)); Some (Ok list_tools_request)].
Proof.
  apply (concurrent_calls_swap (attached_world echo_server) 0 (new_proc echo_server)); concrete.
Defined.

Lemma concurrent_call_runtime_error_witness :
  exists c', rtc astep (start (attached_world echo_server) [list_tools_request; call_tool_request demo_tool_call]) c' /\
    results c' = [Some (Ok list_tools_request); Some (Err RuntimeError)] /\ c_waiter c' = None /\
    option_map (fun q => (p_lines q, p_out q)) (os_procs (w_os (c_world c')) !! 0) =
      Some ([] ++ [dumps list_tools_request; dumps (call_tool_request demo_tool_call)],
            dumps (call_tool_request demo_tool_call) ++ [10%Z]).
Proof.
  apply (concurrent_call_runtime_error (attached_world echo_server) 0 (new_proc echo_server)); concrete.
Defined.

Lemma concurrent_call_hangs_witness :
  exists c, rtc astep (start (attached_world partial_server) [list_tools_request; call_tool_request demo_tool_call]) c /\
    forall c', rtc astep c c' ->
      c_threads c' !! 1 = Some {| t_req := call_tool_request demo_tool_call; t_pc := Waiting 0 |}.
Proof.
  eapply (concurrent_call_hangs (attached_world partial_server) 0 (new_proc partial_server)); concrete.
Defined.

(** ** The sequential model is one schedule *)

Lemma read_attempt_exchange p l :
  decode_outcome (exchange p l).1 =
    match read_attempt (read_line p l) with
    | Some (r, _) => match (let? line := r in decode_response_line line) with Ok v => Done v | Err e => Raised e end
    | None => Blocked
    end /\
  (exchange p l).2 = set_out (read_line p l) (match read_attempt (read_line p l) with
                                             | Some (_, buf) => buf | None => p_out (read_line p l) end).
Proof.
  unfold exchange, read_attempt.
  destruct (readline_buf _ _) as [[line|e|] buf] eqn:Hb; cbn; [|done|].
  - by destruct (decode_response_line line).
  - split; [done|]. f_equal. unfold readline_buf in Hb.
    destruct (find_index _ _); [by destruct (_ <? _)%Z|].
    destruct (_ <? _)%Z; [done|]. by destruct (bool_decide _); injection Hb.
Qed.

(** What the reader can act on has reached it: new output or the end of
    the file. *)
Lemma read_attempt_feeds p q x : p_out p = [] -> read_attempt q = Some x -> feeds p q = true.
Proof.
  intros Hout Hr. unfold feeds. destruct (p_rc q) as [rc|] eqn:Hrc.
  { by rewrite orb_true_r. }
  rewrite orb_false_r. apply bool_decide_eq_true_2. rewrite Hout. intros Hq.
  unfold read_attempt in Hr. rewrite Hq, Hrc in Hr. done.
Qed.

(** The sequential model of [Client] is one interleaving of this one: a
    call of [send_request] started alone on a live child with nothing
    pending, run as write, child's answer, resumption, ends with the world
    and the result of the sequential [send_request], whenever that one
    returns or raises. *)
Lemma sequential_schedule w pid p r :
  process (w_client w) = Some pid -> os_procs (w_os w) !! pid = Some p ->
  p_rc p = None -> p_inbuf p = [] -> p_out p = [] -> (send_request r w).1 <> Blocked ->
  exists c', rtc astep (start w [r]) c' /\ c_world c' = (send_request r w).2 /\
    results c' = [outcome_res (send_request r w).1].
Proof.
  intros Hc Hp Hrc Hin Hout Hnb.
  rewrite (send_request_live w pid p) in Hnb |- * by done.
  destruct (read_attempt_exchange p (dumps r)) as [Ho Hst]. cbn [fst snd] in *.
  rewrite Ho in Hnb |- *. rewrite Hst.
  destruct (read_attempt (read_line p (dumps r))) as [[res buf]|] eqn:Hra; [|done].
  set (p1 := set_inbuf p (p_inbuf p ++ dumps r ++ [10%Z])).
  assert (read_attempt p1 = None) as Hr1.
  { unfold read_attempt, p1. cbn [p_out p_rc set_inbuf]. rewrite Hout, Hrc. done. }
  assert (child_runs p1 = read_line p (dumps r)) as Hch.
  { rewrite (child_runs_line p1 (dumps r)); [done| |apply dumps_no_newline]. cbn. by rewrite Hin. }
  assert (feeds p1 (child_runs p1) = true) as Hf.
  { rewrite Hch. apply (read_attempt_feeds _ _ _ Hout Hra). }
  eexists. split; [|split].
  - eapply rtc_l.
    { eapply astep_thread, (thread_step_start _ 0 r pid p); done. }
    rewrite (read_or_wait_wait _ _ _ _ _ Hr1) by done.
    eapply rtc_l.
    { eapply astep_child, (child_step_run _ pid p1).
      - cbn. unfold with_proc_world. cbn. apply lookup_insert_eq.
      - done.
      - cbn. rewrite Hin. set_solver. }
    cbv zeta. rewrite Hf. cbn [wakeup_waiter c_waiter c_threads lookup list_lookup insert list_insert start map].
    eapply rtc_l.
    { eapply astep_thread, (thread_step_woken _ 0 r pid (child_runs p1)); [done|apply with_proc_lookup]. }
    rewrite (read_or_wait_read _ _ _ _ _ res buf) by (by rewrite Hch).
    apply rtc_refl.
  - cbn. rewrite !with_proc_world_twice, Hch. unfold with_proc_world. done.
  - cbn. by destruct (res_bind res decode_response_line).
Qed.
