(* ===== verification/Http.v ===== *)
(** * The HTTP application: routing, the request body, the answer's bytes

    [app = FastAPI(...)] (line 14) and the decorators [@app.get] and
    [@app.post] (lines 157-226) make the program an ASGI application whose
    layers, from the outside in, are Starlette's [ServerErrorMiddleware],
    the [CORSMiddleware] of lines 17-23 ([Cors]), the [ExceptionMiddleware]
    with FastAPI's two handlers, and the router ([starlette/routing.py],
    [fastapi/routing.py]).  This file models them:

    - the routes, in the order they are added: the four documentation
      routes of [FastAPI.setup] ([GET] and [HEAD]), then the five routes of
      the program, each with exactly the method of its decorator
      ([app_routes]);
    - [Router.app] ([router]): the first route whose path matches and
      method is allowed handles the request; a path that matches with
      another method gets 405 with [Allow]; otherwise the path with its
      trailing slash added or removed is tried and a match is redirected
      with 307; anything else is 404;
    - [get_request_handler] ([api_route]): the body of the two [POST]
      routes is read, parsed as JSON when the [Content-Type] is missing or
      is [application/json] or [+json] ([read_body], with [json.loads] on
      bytes: [detect_encoding] and [surrogatepass]), validated against
      [ToolCall] or [MCPRequest] in pydantic's lax mode ([validate_tool_call],
      [validate_mcp_request]), and the handler of [Bridge] runs; its result
      is rendered by [JSONResponse] ([json_response]);
    - the responses of [http_exception_handler] and
      [request_validation_exception_handler] are built where the router or
      the handler raises ([http_exception_response],
      [validation_error_response]); an exception that escapes every layer
      becomes [ServerErrorMiddleware]'s 500 [Internal Server Error]
      ([serve]).

    What the program leaves to libraries it does not configure is the
    [platform] record: the UTF-16 and UTF-32 codecs, the order of a [set] of methods in an
    [Allow] header, the absolute URL of a redirect, the documentation
    pages, and the Unicode database's printable property that [repr]
    consults ([Response]).  Every theorem holds for any
    platform.  A float in a body is outside the model ([FloatNotModelled]
    passes through [serve]). *)

From S2P Require Import Prelude Json Utf8 JsonDump JsonLoad Codec Config Process Client Bridge Response Cors.
From stdpp Require Import gmap.
Local Open Scope py_scope.

(** ** The platform *)

Record platform : Type := {
  (** [Py_UNICODE_ISPRINTABLE] of a non-ASCII code point *)
  pf_isprintable : Z -> bool;
  (** [bytes.decode(enc, 'surrogatepass')] for the UTF-16 and UTF-32 codecs *)
  pf_decode_wide : pystr -> list Z -> res exn pystr;
  (** [", ".join(methods)] over a [set] of two or more methods *)
  pf_set_join : list pystr -> pystr;
  (** [str(URL(scope=redirect_scope))], quoted, for a request and a path *)
  pf_redirect_url : http_request -> pystr -> pystr;
  (** the response of a documentation route ([/openapi.json], [/docs], ...) *)
  pf_docs : pystr -> http_request -> http_response
}.

(** ** Routes *)

(** The endpoint functions of the program. *)
Inductive endpoint : Type :=
| EpRoot                (** [root], line 157 *)
| EpListTools           (** [list_tools], line 161 *)
| EpCallTool            (** [call_tool], line 181 *)
| EpSendMcpRequest      (** [send_mcp_request], line 205 *)
| EpHealthCheck.        (** [health_check], line 226 *)

(** What handles a route: an [APIRoute] of the program, or one of
    FastAPI's documentation pages ([openapi], [swagger_ui_html], ...). *)
Inductive route_app : Type :=
| AppApi (ep : endpoint)
| AppDocs (page : pystr).

Record route : Type := {
  rt_path : pystr;
  rt_methods : list pystr;
  rt_app : route_app
}.

(** [FastAPI.setup]: [add_route] without methods is [GET], to which a
    [Route] adds [HEAD]. *)
Definition docs_routes : list route :=
  map (fun p => {| rt_path := str p; rt_methods := [str "GET"; str "HEAD"]; rt_app := AppDocs (str p) |})
    ["/openapi.json"; "/docs"; "/docs/oauth2-redirect"; "/redoc"]%string.

(** The decorators: an [APIRoute] has exactly the methods it is given. *)
Definition user_routes : list route :=
  [ {| rt_path := str "/"; rt_methods := [str "GET"]; rt_app := AppApi EpRoot |};
    {| rt_path := str "/tools"; rt_methods := [str "GET"]; rt_app := AppApi EpListTools |};
    {| rt_path := str "/tools/call"; rt_methods := [str "POST"]; rt_app := AppApi EpCallTool |};
    {| rt_path := str "/mcp/request"; rt_methods := [str "POST"]; rt_app := AppApi EpSendMcpRequest |};
    {| rt_path := str "/health"; rt_methods := [str "GET"]; rt_app := AppApi EpHealthCheck |} ].

Definition app_routes : list route := docs_routes ++ user_routes.

(** [path_regex.match(route_path)] with [path_regex = "^" + re.escape(path)
    + "$"]: [$] also matches before a newline that ends the string. *)
Definition path_matches (path route_path : pystr) : bool :=
  bool_decide (route_path = path) || bool_decide (route_path = path ++ [10%Z]).

Inductive match_kind : Type := MatchNone | MatchPartial | MatchFull.

(** [Route.matches] *)
Definition route_matches (rt : route) (method path : pystr) : match_kind :=
  if path_matches (rt_path rt) path then
    if bool_decide (method ∈ rt_methods rt) then MatchFull else MatchPartial
  else MatchNone.

Inductive dispatch : Type :=
| DFull (rt : route)
| DPartial (rt : route)
| DNone.

(** The loop of [Router.app]: the first full match, else the first
    partial one. *)
Fixpoint scan_routes (routes : list route) (method path : pystr) (partial : option route) : dispatch :=
  match routes with
  | [] => match partial with Some rt => DPartial rt | None => DNone end
  | rt :: rs =>
      match route_matches rt method path with
      | MatchFull => DFull rt
      | MatchPartial => scan_routes rs method path (match partial with None => Some rt | Some _ => partial end)
      | MatchNone => scan_routes rs method path partial
      end
  end.

Fixpoint drop_slashes (p : pystr) : pystr :=
  match p with 47%Z :: p' => drop_slashes p' | _ => p end.

(** [path.rstrip("/")] if it ends with ["/"], else [path + "/"]. *)
Definition redirect_path (p : pystr) : pystr :=
  if bool_decide (last p = Some 47%Z) then rev (drop_slashes (rev p)) else p ++ [47%Z].

(** ** Bodies *)

(** What the endpoint's body parameter receives: the parsed JSON ([None]
    is [JNull]: an empty body, or the text [null]) or the raw bytes. *)
Inductive body_value : Type :=
| BodyJson (j : json)
| BodyBytes (b : list Z).

(** An error of pydantic's [errors(include_url=False)], with FastAPI's
    [loc] prefix: [{type, loc, msg, input, ctx}]. *)
Record verror : Type := {
  ve_type : pystr;
  ve_loc : list json;
  ve_msg : pystr;
  ve_input : body_value;
  ve_ctx : option pystr
}.

(** [missing]: [get_missing_field_error], or pydantic's for a field. *)
Definition missing_error (loc : list json) (input : body_value) : verror :=
  {| ve_type := str "missing"; ve_loc := loc; ve_msg := str "Field required"; ve_input := input; ve_ctx := None |}.

Definition body_loc (names : list pystr) : list json := JStr (str "body") :: map JStr names.

(** The error of lines 267-280: [json_invalid] at the decoder's position,
    with its message. *)
Definition json_invalid (pos_msg : Z * pystr) : verror :=
  {| ve_type := str "json_invalid"; ve_loc := [JStr (str "body"); JInt pos_msg.1];
     ve_msg := str "JSON decode error"; ve_input := BodyJson (JObj []); ve_ctx := Some pos_msg.2 |}.

(** ** Content types and encodings *)

(** The text before the first [c] ([s.partition(c)[0]]), and after it. *)
Fixpoint until_char (c : Z) (s : pystr) : pystr :=
  match s with
  | [] => []
  | x :: s' => if (x =? c)%Z then [] else x :: until_char c s'
  end.
Definition after_char (c : Z) (s : pystr) : pystr := drop (S (length (until_char c s))) s.

(** [Message.get_content_type()] after [message["content-type"] = value]:
    [_splitparam(value)[0].lower()], and [text/plain] unless it holds
    exactly one ['/']. *)
Definition get_content_type (value : pystr) : pystr :=
  let ctype := py_lower (py_strip (until_char 59 value)) in
  if bool_decide (length (filter (fun c => (c =? 47)%Z) ctype) = 1) then ctype else str "text/plain".

(** Lines 253-262: the body is parsed when there is no [Content-Type], or
    an empty one, or an [application/json] or [application/...+json] one. *)
Definition body_is_json (hs : list (pystr * pystr)) : bool :=
  match hget (str "content-type") hs with
  | None | Some [] => true
  | Some value =>
      let ctype := get_content_type value in
      let subtype := after_char 47 ctype in
      bool_decide (until_char 47 ctype = str "application") &&
      (bool_decide (subtype = str "json") || bool_decide (str "+json" `suffix_of` subtype))
  end.

Definition BOM_UTF8 : list Z := [0xEF; 0xBB; 0xBF]%Z.
Definition BOM_UTF16_BE : list Z := [0xFE; 0xFF]%Z.
Definition BOM_UTF16_LE : list Z := [0xFF; 0xFE]%Z.
Definition BOM_UTF32_BE : list Z := [0; 0; 0xFE; 0xFF]%Z.
Definition BOM_UTF32_LE : list Z := [0xFF; 0xFE; 0; 0]%Z.

Definition starts_with (p b : list Z) : bool := bool_decide (p `prefix_of` b).

(** [json.detect_encoding] *)
Definition detect_encoding (b : list Z) : pystr :=
  if starts_with BOM_UTF32_BE b || starts_with BOM_UTF32_LE b then str "utf-32"
  else if starts_with BOM_UTF16_BE b || starts_with BOM_UTF16_LE b then str "utf-16"
  else if starts_with BOM_UTF8 b then str "utf-8-sig"
  else match b with
       | b0 :: b1 :: b2 :: b3 :: _ =>
           if (b0 =? 0)%Z then (if (b1 =? 0)%Z then str "utf-32-be" else str "utf-16-be")
           else if (b1 =? 0)%Z then
             (if (b2 =? 0)%Z && (b3 =? 0)%Z then str "utf-32-le" else str "utf-16-le")
           else str "utf-8"
       | [b0; b1] =>
           if (b0 =? 0)%Z then str "utf-16-be" else if (b1 =? 0)%Z then str "utf-16-le" else str "utf-8"
       | _ => str "utf-8"
       end.

(** ** Validation *)

Definition str_field (name : pystr) (v : json) : res (list verror) pystr :=
  match v with
  | JStr s => Ok s
  | _ => Err [{| ve_type := str "string_type"; ve_loc := body_loc [name];
                 ve_msg := str "Input should be a valid string"; ve_input := BodyJson v; ve_ctx := None |}]
  end.

Definition dict_field (name : pystr) (v : json) : res (list verror) (list (pystr * json)) :=
  match v with
  | JObj kvs => Ok kvs
  | _ => Err [{| ve_type := str "dict_type"; ve_loc := body_loc [name];
                 ve_msg := str "Input should be a valid dictionary"; ve_input := BodyJson v; ve_ctx := None |}]
  end.

(** A field without a default: missing, with the whole dict as input. *)
Definition required {A} (d : list (pystr * json)) (name : pystr)
    (f : pystr -> json -> res (list verror) A) : res (list verror) A :=
  match dict_get name d with
  | Some v => f name v
  | None => Err [missing_error (body_loc [name]) (BodyJson (JObj d))]
  end.

(** [Optional[Dict[str, Any]] = None] *)
Definition optional_dict (d : list (pystr * json)) (name : pystr) : res (list verror) (option (list (pystr * json))) :=
  match dict_get name d with
  | None | Some JNull => Ok None
  | Some v => match dict_field name v with Ok kvs => Ok (Some kvs) | Err e => Err e end
  end.

(** Every field is validated; the errors are reported in the order of
    the fields. *)
Definition both {A B} (ra : res (list verror) A) (rb : res (list verror) B) : res (list verror) (A * B) :=
  match ra, rb with
  | Ok a, Ok b => Ok (a, b)
  | Err e1, Err e2 => Err (e1 ++ e2)
  | Err e, Ok _ | Ok _, Err e => Err e
  end.

(** [_validate_value_with_model_field] and [validate_python(value,
    from_attributes=True)] for a model: [None] is a missing body, a dict
    is validated field by field, anything else ([list], [str], [int],
    [bool], [bytes]: builtins have no attributes to read) is refused. *)
Definition validate_model {A} (fields : list (pystr * json) -> res (list verror) A) (v : body_value) :
    res (list verror) A :=
  match v with
  | BodyJson JNull => Err [missing_error (body_loc []) (BodyJson JNull)]
  | BodyJson (JObj d) => fields d
  | _ => Err [{| ve_type := str "model_attributes_type"; ve_loc := body_loc [];
                 ve_msg := str "Input should be a valid dictionary or object to extract fields from";
                 ve_input := v; ve_ctx := None |}]
  end.

(** [ToolCall]: [tool_name: str], [parameters: Dict[str, Any]]; other keys
    are ignored. *)
Definition validate_tool_call : body_value -> res (list verror) tool_call :=
  validate_model (fun d =>
    match both (required d (str "tool_name") str_field) (required d (str "parameters") dict_field) with
    | Ok (n, ps) => Ok {| tool_name := n; parameters := ps |}
    | Err e => Err e
    end).

(** [MCPRequest]: [method: str], [params: Optional[Dict[str, Any]] = None] *)
Definition validate_mcp_request : body_value -> res (list verror) mcp_request :=
  validate_model (fun d =>
    match both (required d (str "method") str_field) (optional_dict d (str "params")) with
    | Ok (m, ps) => Ok {| req_method := m; req_params := ps |}
    | Err e => Err e
    end).

(** ** Responses *)

(** [JSONResponse(content, status_code, headers)]: [render] is
    [dumps_compact] encoded as UTF-8, which raises [UnicodeEncodeError] on
    a surrogate. *)
Definition json_response (content : json) (status : Z) (headers : list (pystr * pystr)) : res exn http_response :=
  let? body := str_encode (dumps_compact content) in
  Ok (make_response (Some (str "application/json")) body status headers).

(** [http_exception_handler]: [{"detail": exc.detail}]. *)
Definition http_exception_response (code : Z) (detail : pystr) (headers : list (pystr * pystr)) :
    res exn http_response :=
  json_response (JObj [kv "detail" (JStr detail)]) code headers.

(** [jsonable_encoder] of one error: a [bytes] input is [bytes.decode()]d. *)
Definition verror_json (e : verror) : res exn json :=
  let? input := match ve_input e with
                | BodyJson j => Ok j
                | BodyBytes b => let? s := bytes_decode b in Ok (JStr s)
                end in
  Ok (JObj ([kv "type" (JStr (ve_type e)); kv "loc" (JArr (ve_loc e)); kv "msg" (JStr (ve_msg e));
             kv "input" input] ++
            match ve_ctx e with Some m => [kv "ctx" (JObj [kv "error" (JStr m)])] | None => [] end)).

(** [request_validation_exception_handler]: 422 [{"detail": errors}]. *)
Definition validation_error_response (errs : list verror) : res exn http_response :=
  let? ds := res_map verror_json errs in json_response (JObj [kv "detail" (JArr ds)]) 422 [].

(** [RedirectResponse(url)]: an empty body, then [location] set. *)
Definition redirect_response (url : pystr) : http_response :=
  let r := make_response None [] 307 [] in
  {| rs_status := 307; rs_headers := hset (str "location") url (rs_headers r); rs_body := [] |}.

(** [ServerErrorMiddleware.error_response] without [debug]. *)
Definition server_error_response : http_response :=
  plain_text_response (str "Internal Server Error") 500 [].

Definition has_body_field (ep : endpoint) : bool :=
  match ep with EpCallTool | EpSendMcpRequest => true | _ => false end.

(** The event a validated body makes of an endpoint. *)
Definition api_event (ep : endpoint) (body : body_value) : res (list verror) event :=
  match ep with
  | EpRoot => Ok GetRoot
  | EpListTools => Ok GetTools
  | EpCallTool => match validate_tool_call body with Ok tc => Ok (PostToolsCall tc) | Err e => Err e end
  | EpSendMcpRequest => match validate_mcp_request body with Ok r => Ok (PostMcpRequest r) | Err e => Err e end
  | EpHealthCheck => Ok GetHealth
  end.

(** [ServerErrorMiddleware.__call__]'s [except Exception]: the 500
    answer. *)
Definition server_error_handler (e : exn) : stm exn world http_response :=
  match e with
  | FloatNotModelled => raise FloatNotModelled
  | _ => mret server_error_response
  end.

(** ** The application *)

Section App.
Variable pf : platform.

(** [b.decode(encoding, 'surrogatepass')]; [utf-8-sig] drops a leading
    byte order mark. *)
Definition decode_surrogatepass (enc : pystr) (b : list Z) : res exn pystr :=
  if bool_decide (enc = str "utf-8") then bytes_decode_sp b
  else if bool_decide (enc = str "utf-8-sig") then bytes_decode_sp (if starts_with BOM_UTF8 b then drop 3 b else b)
  else pf_decode_wide pf enc b.

(** [json.loads(b)] on [bytes]: no byte order mark check, the codec
    consumes it. *)
Definition loads_bytes (b : list Z) : res exn json :=
  let? s := decode_surrogatepass (detect_encoding b) b in decoder_decode s.

(** Lines 250-266 of [get_request_handler]. *)
Definition read_body (req : http_request) : res exn body_value :=
  match rq_body req with
  | [] => Ok (BodyJson JNull)
  | b => if body_is_json (rq_headers req) then (let? j := loads_bytes b in Ok (BodyJson j)) else Ok (BodyBytes b)
  end.

(** [get_request_handler(...).app]: the body, then validation, then the
    endpoint and its [JSONResponse].  A [JSONDecodeError] is a 422
    [json_invalid], any other exception of the parse a 400. *)
Definition api_route (ep : endpoint) (req : http_request) : stm exn world http_response :=
  match (if has_body_field ep then read_body req else Ok (BodyJson JNull)) with
  | Err FloatNotModelled => raise FloatNotModelled
  | Err (JSONDecodeError msg _ pos) => lift_res (validation_error_response [json_invalid (pos, str msg)])
  | Err _ => lift_res (http_exception_response 400 (str "There was an error parsing the body") [])
  | Ok body =>
      match api_event ep body with
      | Err errs => lift_res (validation_error_response errs)
      | Ok ev =>
          a ← handle ev;
          lift_res (json_response (route_body (pf_isprintable pf) a) 200 [])
      end
  end.

(** [", ".join(self.methods)] *)
Definition allow_text (methods : list pystr) : pystr :=
  match methods with [m] => m | _ => pf_set_join pf methods end.

(** [Router.app] with [redirect_slashes=True]. *)
Definition router (req : http_request) : stm exn world http_response :=
  let method := rq_method req in
  let path := rq_path req in
  match scan_routes app_routes method path None with
  | DFull rt =>
      match rt_app rt with
      | AppApi ep => api_route ep req
      | AppDocs page => mret (pf_docs pf page req)
      end
  | DPartial rt =>
      lift_res (http_exception_response 405 (str "Method Not Allowed") [(str "Allow", allow_text (rt_methods rt))])
  | DNone =>
      let path' := redirect_path path in
      if negb (bool_decide (path = str "/")) &&
         existsb (fun rt => match route_matches rt method path' with MatchNone => false | _ => true end) app_routes
      then mret (redirect_response (pf_redirect_url pf req path'))
      else lift_res (http_exception_response 404 (str "Not Found") [])
  end.

(** The application of lines 14-23 and 157-226:
    [ServerErrorMiddleware(CORSMiddleware(ExceptionMiddleware(router)))].
    An exception that escapes is answered with 500 (and re-raised to the
    server, which logs it). *)
Definition serve (req : http_request) : stm exn world http_response :=
  catch (cors_call app_cors router req) server_error_handler.
End App.

(** ** Concrete requests

    A platform (its fields are irrelevant to the examples), a child whose
    answer carries a lone surrogate in its [result] (the escape [\ud800],
    which [json.loads] accepts), and a [POST /tools/call] from a page of
    another site. *)
Definition demo_platform : platform :=
  {| pf_isprintable := fun _ => true;
     pf_decode_wide := fun _ b => Err (UnicodeDecodeError "utf-16" b 0%Z 1%Z "truncated data");
     pf_set_join := Cors.join (str ", ");
     pf_redirect_url := fun _ p => str "http://localhost:8000" ++ p;
     pf_docs := fun _ _ => plain_text_response [] 200 [] |}.

Definition surrogate_reply : json :=
  JObj [kv "jsonrpc" (jstr "2.0"); kv "id" (JInt 3); kv "result" (JObj [kv "text" (JStr [0xD800%Z])])].

Definition call_tool_http : http_request :=
  {| rq_method := str "POST"; rq_path := str "/tools/call";
     rq_headers := [(str "origin", other_origin); (str "content-type", str "application/json")];
     rq_body := jtext "{'tool_name':'echo','parameters':{}}" |}.

(** The same route with a body of the wrong shape. *)
Definition bad_tool_call_http : http_request :=
  {| rq_method := str "POST"; rq_path := str "/tools/call"; rq_headers := [];
     rq_body := jtext "{'tool_name':5,'parameters':3}" |}.

(** ** Lemmas *)

Section Lemmas.
Variable pf : platform.

Lemma scan_user_route rt m p :
  rt ∈ user_routes -> m ∈ rt_methods rt -> path_matches (rt_path rt) p = true ->
  scan_routes app_routes m p None = DFull rt.
Proof.
  intros Hrt Hm Hp. apply orb_true_iff in Hp as [Hp|Hp]; apply bool_decide_eq_true_1 in Hp; subst p;
    repeat (apply elem_of_cons in Hrt as [->|Hrt]); try (by apply elem_of_nil in Hrt);
    apply list_elem_of_singleton in Hm; subst m; vm_compute; reflexivity.
Qed.

Lemma loads_bytes_nil : loads_bytes pf [] = Err (JSONDecodeError "Expecting value" [] 0%Z).
Proof. reflexivity. Qed.

Lemma read_body_json req j :
  body_is_json (rq_headers req) = true -> loads_bytes pf (rq_body req) = Ok j ->
  read_body pf req = Ok (BodyJson j).
Proof.
  intros Hct Hl. unfold read_body. destruct (rq_body req) eqn:Hb.
  - by rewrite loads_bytes_nil in Hl.
  - by rewrite Hct, Hl.
Qed.

Lemma validate_tool_call_ok d n ps :
  dict_get (str "tool_name") d = Some (JStr n) -> dict_get (str "parameters") d = Some (JObj ps) ->
  validate_tool_call (BodyJson (JObj d)) = Ok {| tool_name := n; parameters := ps |}.
Proof. intros Hn Hp. unfold validate_tool_call, validate_model, required. by rewrite Hn, Hp. Qed.

Lemma router_api rt ep req :
  scan_routes app_routes (rq_method req) (rq_path req) None = DFull rt -> rt_app rt = AppApi ep ->
  router pf req = api_route pf ep req.
Proof. intros Hs Ha. unfold router. by rewrite Hs, Ha. Qed.

Lemma api_route_event ep req body ev :
  (if has_body_field ep then read_body pf req else Ok (BodyJson JNull)) = Ok body ->
  api_event ep body = Ok ev ->
  api_route pf ep req =
    (a ← handle ev; lift_res (json_response (route_body (pf_isprintable pf) a) 200 [])).
Proof. intros Hb He. unfold api_route. by rewrite Hb, He. Qed.

Lemma json_response_err c status hs e :
  json_response c status hs = Err e -> exists obj st en r, e = UnicodeEncodeError "utf-8" obj st en r.
Proof.
  unfold json_response, str_encode. destruct (utf8_encode _) as [|[]]; [done|]. intros [= <-]. by do 4 eexists.
Qed.

Lemma server_error_state (m : stm exn world http_response) w :
  (catch m server_error_handler w).2 = (m w).2.
Proof. unfold catch. destruct (m w) as [[|e|] w']; [done| |done]. by destruct e. Qed.

Lemma lift_res_state {A} (r : res exn A) (w : world) : (lift_res r w).2 = w.
Proof. by destruct r. Qed.

(** [serve] on a request that is not a preflight. *)
Lemma serve_run req w :
  rq_method req <> str "OPTIONS" ->
  serve pf req w =
    match router pf req w with
    | (Done r, w') =>
        (Done (match hget (str "origin") (rq_headers req) with
               | Some _ => cors_send app_cors (rq_headers req) r
               | None => r
               end), w')
    | (Raised FloatNotModelled, w') => (Raised FloatNotModelled, w')
    | (Raised _, w') => (Done server_error_response, w')
    | (Blocked, w') => (Blocked, w')
    end.
Proof.
  intros Hm. unfold serve, catch. rewrite cors_call_simple by done.
  destruct (router pf req w) as [[r|[]|] w']; reflexivity.
Qed.
(** The world after the router is the one it started from, unless a
    route of the program matched in full and its body validated, and then
    it is the handler's. *)
Lemma router_state req w :
  (router pf req w).2 = w \/
  exists rt ep body ev,
    scan_routes app_routes (rq_method req) (rq_path req) None = DFull rt /\ rt_app rt = AppApi ep /\
    (if has_body_field ep then read_body pf req else Ok (BodyJson JNull)) = Ok body /\
    api_event ep body = Ok ev /\ (router pf req w).2 = (handle ev w).2.
Proof.
  unfold router. cbv zeta. destruct (scan_routes _ _ _ _) as [rt|rt|] eqn:Hs.
  - destruct (rt_app rt) as [ep|page] eqn:Ha; [|by left]. unfold api_route.
    destruct (if has_body_field ep then _ else _) as [body|e] eqn:Hb.
    + destruct (api_event ep body) as [ev|errs] eqn:He; [|left; apply lift_res_state].
      right. exists rt, ep, body, ev. do 4 (split; [done|]). rewrite bind_run.
      destruct (handle ev w) as [[a| |] w']; [apply lift_res_state|done..].
    + left. destruct e; try apply lift_res_state; done.
  - left. apply lift_res_state.
  - left. case_match; [done|apply lift_res_state].
Qed.
End Lemmas.

(** ** The request path, end to end *)

(** C12. [POST /tools/call] over HTTP: a request whose body parses as a
    JSON object with a string [tool_name] and a dict [parameters] (other
    keys ignored) runs [call_tool] with exactly these, and nothing else:
    the world after the request is the handler's.  The answer is the
    handler's [MCPResponse] rendered by [JSONResponse] with status 200,
    with the CORS headers when the request names an origin; when the
    rendering fails (a lone surrogate in the child's [result] cannot be
    encoded as UTF-8) the client gets [ServerErrorMiddleware]'s 500 after
    the tool has run.  The path may end with a newline ([$] of the route's
    regular expression). *)
Theorem serve_call_tool pf req w d n ps :
  rq_method req = str "POST" -> path_matches (str "/tools/call") (rq_path req) = true ->
  body_is_json (rq_headers req) = true -> loads_bytes pf (rq_body req) = Ok (JObj d) ->
  dict_get (str "tool_name") d = Some (JStr n) -> dict_get (str "parameters") d = Some (JObj ps) ->
  serve pf req w =
    match call_tool {| tool_name := n; parameters := ps |} w with
    | (Done r, w') =>
        (Done (match json_response (response_body (pf_isprintable pf) r) 200 [] with
               | Ok resp =>
                   match hget (str "origin") (rq_headers req) with
                   | Some _ => cors_send app_cors (rq_headers req) resp
                   | None => resp
                   end
               | Err _ => server_error_response
               end), w')
    | (_, w') => (Blocked, w')
    end.
Proof.
  intros Hm Hp Hct Hl Hn Hps. rewrite serve_run by (rewrite Hm; hname_ne).
  rewrite (router_api pf {| rt_path := str "/tools/call"; rt_methods := [str "POST"]; rt_app := AppApi EpCallTool |}
             EpCallTool) by (try rewrite Hm; try apply scan_user_route; cbn; set_solver).
  rewrite (api_route_event pf EpCallTool req (BodyJson (JObj d)) (PostToolsCall {| tool_name := n; parameters := ps |}))
    ; cbn [has_body_field api_event]; [|by apply read_body_json|by rewrite (validate_tool_call_ok d n ps)].
  rewrite bind_run, handle_call_tool.
  destruct (call_tool _ w) as [[r|e|] w'] eqn:Hc.
  - cbn [route_body]. destruct (json_response (response_body _ r) 200 []) eqn:Hj; [reflexivity|].
    apply json_response_err in Hj as (? & ? & ? & ? & ->). reflexivity.
  - exfalso. apply (endpoint_no_raise (call_tool_request {| tool_name := n; parameters := ps |}) w e).
    unfold call_tool in Hc. by rewrite Hc.
  - reflexivity.
Qed.

Lemma serve_call_tool_witness :
  serve demo_platform call_tool_http (attached_world (reply_server surrogate_reply)) =
    match call_tool {| tool_name := str "echo"; parameters := [] |} (attached_world (reply_server surrogate_reply)) with
    | (Done r, w') =>
        (Done (match json_response (response_body (pf_isprintable demo_platform) r) 200 [] with
               | Ok resp =>
                   match hget (str "origin") (rq_headers call_tool_http) with
                   | Some _ => cors_send app_cors (rq_headers call_tool_http) resp
                   | None => resp
                   end
               | Err _ => server_error_response
               end), w')
    | (_, w') => (Blocked, w')
    end.
Proof.
  apply (serve_call_tool demo_platform call_tool_http (attached_world (reply_server surrogate_reply))
           [kv "tool_name" (jstr "echo"); kv "parameters" (JObj [])]); vm_compute; reflexivity.
Defined.

(** The tool runs, the client gets 500: the child has read the
    [tools/call] line, and the answer is [Internal Server Error]. *)
Example serve_surrogate_result :
  let (o, w') := serve demo_platform call_tool_http (attached_world (reply_server surrogate_reply)) in
  o = Done server_error_response /\
  option_map p_lines (os_procs (w_os w') !! 0) = Some [dumps (call_tool_request demo_tool_call)].
Proof. vm_compute. split; reflexivity. Qed.

(** C21. Only validated requests reach the server: whatever the request
    (any method, path, headers and body), the world after [serve] is the
    one before, unless a route of the program matched path and method and
    its body parsed and validated into an event, and then it is the world
    that event's handler leaves.  A preflight, a documentation page, a
    404, a 405, a 307 redirect, a body that does not parse (400 or 422
    [json_invalid]) or does not validate (422) never reach [send_request]. *)
Theorem serve_only_validated_requests pf req w :
  (serve pf req w).2 = w \/
  exists rt ep body ev,
    scan_routes app_routes (rq_method req) (rq_path req) None = DFull rt /\ rt_app rt = AppApi ep /\
    (if has_body_field ep then read_body pf req else Ok (BodyJson JNull)) = Ok body /\
    api_event ep body = Ok ev /\ (serve pf req w).2 = (handle ev w).2.
Proof.
  unfold serve. rewrite server_error_state.
  destruct (cors_call_state app_cors (router pf) req w) as [->| ->]; [by left|]. apply router_state.
Qed.
